(** * PetRescue: the Flask application [app.py], embedded and verified

    The development follows the source file top-down: Python string
    helpers used by the handlers, the SQLite tables created by [init_db],
    the session, and then the route handlers as functions from the
    request, the database and the session to a response and the new
    database and session.  Python [str] values are taken to be ASCII
    (a [string] of bytes), which is where [strip], [lower] and [int]
    are modelled exactly. *)

From Stdlib Require Import ZArith String Ascii List Lia Bool.
From Stdlib Require Import DecimalString DecimalNat.
From stdpp Require Import base decidable option list strings sorting gmap.

Open Scope string_scope.
Open Scope Z_scope.

(** ** Python built-ins on [str] *)
Module Py.

  (** [str.isspace] on one ASCII character: TAB..CR, FS..US and space. *)
Definition isspace (c : ascii) : bool :=
    let n := Z.of_nat (nat_of_ascii c) in
    ((9 <=? n) && (n <=? 13)) || ((28 <=? n) && (n <=? 32)).

Fixpoint lstrip (s : string) : string :=
    match s with
    | String c t => if isspace c then lstrip t else s
    | EmptyString => EmptyString
    end.

Fixpoint rstrip (s : string) : string :=
    match s with
    | String c t =>
        match rstrip t with
        | EmptyString => if isspace c then EmptyString else String c EmptyString
        | t' => String c t'
        end
    | EmptyString => EmptyString
    end.

  (** [s.strip()] *)
Definition strip (s : string) : string := rstrip (lstrip s).

Definition lower_char (c : ascii) : ascii :=
    let n := nat_of_ascii c in
    if ((65 <=? n) && (n <=? 90))%nat then ascii_of_nat (n + 32) else c.

  (** [s.lower()] *)
Fixpoint lower (s : string) : string :=
    match s with
    | String c t => String (lower_char c) (lower t)
    | EmptyString => EmptyString
    end.

  (** Truthiness of a [str]: the empty string is falsy. *)
Definition truthy (s : string) : bool :=
    match s with EmptyString => false | _ => true end.

  (** [x or d] where [x] is [request.form.get(k)]: [None] and [""] both
      fall through to the default. *)
Definition or_default (x : option string) (d : string) : string :=
    match x with
    | Some s => if truthy s then s else d
    | None => d
    end.

  (** ["." in s] *)
Fixpoint contains (c : ascii) (s : string) : bool :=
    match s with
    | String d t => if Ascii.eqb d c then true else contains c t
    | EmptyString => false
    end.

  (** [s.rsplit(c, 1)[1]]: what follows the last [c]; [None] when [s]
      has no [c] (the index would raise). *)
Fixpoint rsplit1_tail (c : ascii) (s : string) : option string :=
    match s with
    | String d t =>
        match rsplit1_tail c t with
        | Some r => Some r
        | None => if Ascii.eqb d c then Some t else None
        end
    | EmptyString => None
    end.

  (** [s.rfind(c)] counted from offset [i]; [-1] when absent. *)
Fixpoint rfind_from (c : ascii) (s : string) (i : Z) : Z :=
    match s with
    | String d t =>
        let r := rfind_from c t (i + 1) in
        if 0 <=? r then r else if Ascii.eqb d c then i else -1
    | EmptyString => -1
    end.

Definition rfind (c : ascii) (s : string) : Z := rfind_from c s 0.

  (** [s[:n]] and [s[n:]] for [n >= 0]. *)
Fixpoint take (n : nat) (s : string) : string :=
    match n, s with
    | S n', String c t => String c (take n' t)
    | _, _ => EmptyString
    end.

Fixpoint drop (n : nat) (s : string) : string :=
    match n, s with
    | S n', String _ t => drop n' t
    | _, _ => s
    end.

  (** The scan of [genericpath._splitext] that skips leading dots:
      [true] as soon as a character of [s] other than the dot is met
      within the first [k] positions. *)
Fixpoint has_non_dot (k : nat) (s : string) : bool :=
    match k, s with
    | S k', String c t => if Ascii.eqb c "." then has_non_dot k' t else true
    | _, _ => false
    end.

  (** [os.path.splitext] (posixpath). *)
Definition splitext (p : string) : string * string :=
    let sepIndex := rfind "/" p in
    let dotIndex := rfind "." p in
    if sepIndex <? dotIndex then
      let filenameIndex := sepIndex + 1 in
      if has_non_dot (Z.to_nat (dotIndex - filenameIndex))
                     (drop (Z.to_nat filenameIndex) p)
      then (take (Z.to_nat dotIndex) p, drop (Z.to_nat dotIndex) p)
      else (p, EmptyString)
    else (p, EmptyString).

  (** [str(i)] for a non-negative integer. *)
Definition str_of_nat (i : nat) : string :=
    NilEmpty.string_of_uint (Nat.to_uint i).

Definition is_digit (c : ascii) : bool :=
    let n := nat_of_ascii c in ((48 <=? n) && (n <=? 57))%nat.

Definition digit_val (c : ascii) : Z := Z.of_nat (nat_of_ascii c) - 48.

  (** Digits of an integer literal, single underscores allowed between
      digits. *)
Fixpoint int_digits (s : string) (acc : Z) (after_digit : bool) : option Z :=
    match s with
    | String c t =>
        if is_digit c then int_digits t (10 * acc + digit_val c) true
        else if Ascii.eqb c "_" && after_digit then int_digits t acc false
        else None
    | EmptyString => if after_digit then Some acc else None
    end.

  (** [Py_ISSPACE]: the blanks [int] and [float] skip around an ASCII
      literal are TAB..CR and space only; FS..US, which [str.strip]
      removes, make the literal invalid. *)
Definition isspace_c (c : ascii) : bool :=
    let n := Z.of_nat (nat_of_ascii c) in
    ((9 <=? n) && (n <=? 13)) || (n =? 32).

Fixpoint lstrip_c (s : string) : string :=
    match s with
    | String c t => if isspace_c c then lstrip_c t else s
    | EmptyString => EmptyString
    end.

Fixpoint rstrip_c (s : string) : string :=
    match s with
    | String c t =>
        match rstrip_c t with
        | EmptyString => if isspace_c c then EmptyString else String c EmptyString
        | t' => String c t'
        end
    | EmptyString => EmptyString
    end.

Definition strip_c (s : string) : string := rstrip_c (lstrip_c s).

  (** [int(s)] in base 10; [None] stands for [ValueError]. *)
Definition int (s : string) : option Z :=
    match strip_c s with
    | String "+" t => int_digits t 0 false
    | String "-" t => Z.opp <$> int_digits t 0 false
    | t => int_digits t 0 false
    end.

  (** The literals [float] reads as NaN: [nan] in any letter case, with
      an optional sign and blanks around. *)
Definition float_is_nan (s : string) : bool :=
    existsb (String.eqb (lower (strip_c s))) ["nan"; "+nan"; "-nan"].

End Py.

(** ** The SQLite store

    A table created with [INTEGER PRIMARY KEY AUTOINCREMENT] is its rows
    in rowid order together with the largest rowid ever handed out (the
    [sqlite_sequence] entry): a deleted id is not reused. *)
Module Sql.

Record Table (R : Type) : Type := mkTable { rows : list R; seq : Z }.
Arguments mkTable {R} _ _.
Arguments rows {R} _.
Arguments seq {R} _.

Definition empty {R : Type} : Table R := mkTable [] 0.

  (** [SELECT * FROM t WHERE p], rows in rowid order. *)
Definition select {R : Type} (p : R -> bool) (t : Table R) : list R :=
    List.filter p (rows t).

  (** [cur.fetchone()] *)
Definition fetchone {R : Type} (l : list R) : option R := head l.

  (** [SELECT COUNT( * ) FROM t] *)
Definition count {R : Type} (t : Table R) : Z := Z.of_nat (length (rows t)).

  (** [INSERT INTO t (...) VALUES (...)] without an explicit id. *)
Definition insert {R : Type} (mk : Z -> R) (t : Table R) : Table R :=
    mkTable (rows t ++ [mk (seq t + 1)]) (seq t + 1).

  (** [UPDATE t SET ... WHERE p] *)
Definition update {R : Type} (p : R -> bool) (f : R -> R) (t : Table R) : Table R :=
    mkTable (List.map (fun r => if p r then f r else r) (rows t)) (seq t).

  (** [DELETE FROM t WHERE p] *)
Definition delete {R : Type} (p : R -> bool) (t : Table R) : Table R :=
    mkTable (List.filter (fun r => negb (p r)) (rows t)) (seq t).

End Sql.

(** Column names are those of the [CREATE TABLE] statements of [init_db]. *)
Module users.
Record row : Type := mk
    { id : Z; first_name : string; last_name : string; email : string;
      phone : string; password_hash : string }.
End users.

Module admins.
Record row : Type := mk
    { id : Z; username : string; password_hash : string; full_name : string;
      email : string; phone : string; must_reset_password : Z }.
End admins.

Module shelters.
Record row : Type := mk
    { id : Z; name : string; email : string; phone : string; address : string;
      description : string; website : string; photo_filename : string;
      password_hash : string; shelter_type : string; urgent_level : Z;
      pickup_service : Z; created_at : string }.
End shelters.

Module shelter_requests.
Record row : Type := mk
    { id : Z; name : string; email : string; phone : string; address : string;
      description : string; website : string; photo_filename : string;
      password_hash : string; shelter_type : string; pickup_service : Z;
      status : string; submitted_at : string; reviewed_at : option string }.
End shelter_requests.

(** [float(x)]: no property below depends on the IEEE value, so a stored
    amount is kept as the argument [float] was applied to. *)
Inductive pyfloat : Type :=
| float_of_int (z : Z)
| float_of_str (s : string).

Module donations.
Record row : Type := mk
    { id : Z; user_id : Z; category : string; shelter_id : Z; amount : pyfloat;
      details : string; message : string; created_at : string }.
End donations.

Record DB : Type := mkDB
  { t_users : Sql.Table users.row;
    t_admins : Sql.Table admins.row;
    t_shelters : Sql.Table shelters.row;
    t_shelter_requests : Sql.Table shelter_requests.row;
    t_donations : Sql.Table donations.row }.

Definition set_users (f : Sql.Table users.row -> Sql.Table users.row) (db : DB) : DB :=
  mkDB (f (t_users db)) (t_admins db) (t_shelters db) (t_shelter_requests db) (t_donations db).
Definition set_admins (f : Sql.Table admins.row -> Sql.Table admins.row) (db : DB) : DB :=
  mkDB (t_users db) (f (t_admins db)) (t_shelters db) (t_shelter_requests db) (t_donations db).
Definition set_shelters (f : Sql.Table shelters.row -> Sql.Table shelters.row) (db : DB) : DB :=
  mkDB (t_users db) (t_admins db) (f (t_shelters db)) (t_shelter_requests db) (t_donations db).
Definition set_shelter_requests
    (f : Sql.Table shelter_requests.row -> Sql.Table shelter_requests.row) (db : DB) : DB :=
  mkDB (t_users db) (t_admins db) (t_shelters db) (f (t_shelter_requests db)) (t_donations db).
Definition set_donations (f : Sql.Table donations.row -> Sql.Table donations.row) (db : DB) : DB :=
  mkDB (t_users db) (t_admins db) (t_shelters db) (t_shelter_requests db) (f (t_donations db)).

(** The [UNIQUE] columns: [users.email], [admins.username], [shelters.email].
    An insert whose key is already present raises [sqlite3.IntegrityError]
    and writes nothing. *)
Definition users_email_taken (e : string) (t : Sql.Table users.row) : bool :=
  existsb (fun r => String.eqb (users.email r) e) (Sql.rows t).

Definition shelters_email_taken (e : string) (t : Sql.Table shelters.row) : bool :=
  existsb (fun r => String.eqb (shelters.email r) e) (Sql.rows t).

Definition admins_username_taken (u : string) (t : Sql.Table admins.row) : bool :=
  existsb (fun r => String.eqb (admins.username r) u) (Sql.rows t).

Inductive Exception : Type := IntegrityError | ValueError | IndexError | OverflowError.

Definition insert_user (mk : Z -> users.row) (t : Sql.Table users.row)
  : Exception + Sql.Table users.row :=
  if users_email_taken (users.email (mk (Sql.seq t + 1))) t then inl IntegrityError
  else inr (Sql.insert mk t).

Definition insert_shelter (mk : Z -> shelters.row) (t : Sql.Table shelters.row)
  : Exception + Sql.Table shelters.row :=
  if shelters_email_taken (shelters.email (mk (Sql.seq t + 1))) t then inl IntegrityError
  else inr (Sql.insert mk t).

Definition insert_admin (mk : Z -> admins.row) (t : Sql.Table admins.row)
  : Exception + Sql.Table admins.row :=
  if admins_username_taken (admins.username (mk (Sql.seq t + 1))) t then inl IntegrityError
  else inr (Sql.insert mk t).

(** A Python [int] passed as a parameter must fit SQLite's 64-bit
    INTEGER; otherwise binding it raises [OverflowError] before the
    statement runs. *)
Definition sqlite_int_ok (k : Z) : bool :=
  (- 2 ^ 63 <=? k) && (k <? 2 ^ 63).

(** A NaN is bound as NULL. *)
Definition pyfloat_is_nan (x : pyfloat) : bool :=
  match x with
  | float_of_int _ => false
  | float_of_str s => Py.float_is_nan s
  end.

(** [INSERT INTO donations (user_id, category, shelter_id, amount, details,
    message)]: the parameters are bound in order, then the row is checked
    against [amount REAL NOT NULL]. *)
Definition insert_donation (mk : Z -> donations.row) (t : Sql.Table donations.row)
  : Exception + Sql.Table donations.row :=
  let r := mk (Sql.seq t + 1) in
  if negb (sqlite_int_ok (donations.user_id r)) then inl OverflowError
  else if negb (sqlite_int_ok (donations.shelter_id r)) then inl OverflowError
  else if pyfloat_is_nan (donations.amount r) then inl IntegrityError
  else inr (Sql.insert mk t).

(** ** Flask: request, session, response *)

Inductive Method : Type := GET | POST.

(** An uploaded file: the client's file name and the bytes. *)
Record FileStorage : Type := mkFile { filename : string; stream : string }.

(** [request.form] and [request.files] are multi-dicts: [get] returns the
    first value of a key, [getlist] all of them in order. *)
Record Request : Type := mkRequest
  { method : Method;
    form : list (string * string);
    files : list (string * FileStorage) }.

Definition form_get (k : string) (r : Request) : option string :=
  snd <$> List.find (fun kv => String.eqb (fst kv) k) (form r).

Definition form_getlist (k : string) (r : Request) : list string :=
  List.map snd (List.filter (fun kv => String.eqb (fst kv) k) (form r)).

Definition files_get (k : string) (r : Request) : option FileStorage :=
  snd <$> List.find (fun kv => String.eqb (fst kv) k) (files r).

(** The three independent session keys. *)
Record Session : Type := mkSession
  { user_id : option Z; admin_id : option Z; shelter_id : option Z }.

Definition no_session : Session := mkSession None None None.

(** [if not session.get(k)]: a missing key and the integer 0 are falsy. *)
Definition session_truthy (x : option Z) : bool :=
  match x with
  | Some n => negb (n =? 0)
  | None => false
  end.

(** View functions that are the target of some [url_for]. *)
Inductive Endpoint : Type :=
| ep_home | ep_ajuta | ep_login_utilizator | ep_login_adapost
| ep_shelter_dashboard | ep_admin_login | ep_admin_reset_password
| ep_admin_dashboard | ep_admin_shelter_requests | ep_admin_shelters
| ep_admin_users | ep_adaposturi.

(** What a view returns.  [raised] is an exception no handler catches:
    Flask answers 500 and the open transaction is never committed. *)
Inductive Response : Type :=
| redirect (e : Endpoint)
| render_template (template : string)
| abort (code : Z)
| raised (e : Exception).

Record Flash : Type := flash { message : string; category : string }.

Record Outcome : Type := mkOutcome
  { response : Response;
    flashed : list Flash;
    db_after : DB;
    session_after : Session }.

(** What a request reads from outside the store: the clock behind
    [datetime('now')] and the salts drawn by [generate_password_hash]
    (one for the seeding in [init_db], one for the view). *)
Record Env : Type := mkEnv { now : string; boot_salt : string; salt : string }.

(** Library functions the application imports; their code is not part of
    the repository.  [generate_password_hash] takes the salt it would
    draw as a first argument; [float_parses s] tells whether [float(s)]
    returns rather than raising [ValueError]. *)
Class Externals : Type := mkExternals
  { generate_password_hash : string -> string -> string;
    check_password_hash : string -> string -> bool;
    secure_filename : string -> string;
    float_parses : string -> bool }.

(** The upload folder: file name to contents. *)
Abbreviation Storage := (gmap string string).

Definition ALLOWED_EXTENSIONS : list string := ["png"; "jpg"; "jpeg"; "webp"].

Definition str_in (s : string) (l : list string) : bool :=
  existsb (String.eqb s) l.

(** ** The application *)
Section App.
Context {ext : Externals}.

(** *** DB helpers *)

(** [init_db]: the [CREATE TABLE IF NOT EXISTS] statements and the column
    repairs leave existing rows alone; what can change the contents is
    the seeding of the default administrator. *)
Definition init_db (env : Env) (db : DB) : DB :=
  if Sql.count (t_admins db) =? 0 then
    set_admins (Sql.insert (fun i =>
      admins.mk i "admin" (generate_password_hash (boot_salt env) "admin")
                "Admin" "admin@local" "" 1)) db
  else db.

(** *** Auth helpers *)

Definition current_user (db : DB) (sess : Session) : option users.row :=
  if session_truthy (user_id sess) then
    Sql.fetchone (Sql.select (fun r => users.id r =? default 0 (user_id sess)) (t_users db))
  else None.

Definition current_admin (db : DB) (sess : Session) : option admins.row :=
  if session_truthy (admin_id sess) then
    Sql.fetchone (Sql.select (fun r => admins.id r =? default 0 (admin_id sess)) (t_admins db))
  else None.

Definition current_shelter (db : DB) (sess : Session) : option shelters.row :=
  if session_truthy (shelter_id sess) then
    Sql.fetchone (Sql.select (fun r => shelters.id r =? default 0 (shelter_id sess)) (t_shelters db))
  else None.

(** [None] lets the view go on; [Some r] is the guard's early return. *)
Definition require_admin (sess : Session) : option Response :=
  if negb (session_truthy (admin_id sess)) then Some (redirect ep_admin_login)
  else None.

Definition allowed_file (fname : string) : bool :=
  Py.contains "." fname &&
  match Py.rsplit1_tail "." fname with
  | Some e => str_in (Py.lower e) ALLOWED_EXTENSIONS
  | None => false
  end.

(** [os.path.exists(os.path.join(UPLOAD_FOLDER, name))]: joining the
    empty name gives the folder itself, which the module creates on
    import. *)
Definition path_exists (st : Storage) (name : string) : bool :=
  negb (Py.truthy name) || bool_decide (is_Some (st !! name)).

(** [f"{base}_{i}{ext}"] *)
Definition candidate_name (base ext_ : string) (i : nat) : string :=
  (base ++ "_" ++ Py.str_of_nat i ++ ext_)%string.

(** The [while] loop of [save_uploaded_photo] with its two variables,
    [candidate] and [i]; [fuel] bounds the number of tests of the
    condition and [None] means the bound was hit. *)
Fixpoint probe (st : Storage) (base ext_ : string) (fuel : nat)
    (candidate : string) (i : nat) : option string :=
  match fuel with
  | O => None
  | S fuel' =>
      if path_exists st candidate then
        probe st base ext_ fuel' (candidate_name base ext_ i) (S i)
      else Some candidate
  end.

(** Returns the stored name, the folder afterwards and the messages
    flashed; [None] only when [fuel] does not cover the loop. *)
Definition save_uploaded_photo (fuel : nat) (file_storage : option FileStorage)
    (st : Storage) : option (string * Storage * list Flash) :=
  match file_storage with
  | None => Some ("", st, [])
  | Some f =>
      if negb (Py.truthy (filename f)) then Some ("", st, [])
      else if negb (allowed_file (filename f)) then
        Some ("", st, [flash "Format poza invalid. Acceptam: png, jpg, jpeg, webp." "error"])
      else
        let fname := secure_filename (filename f) in
        let '(base, ext_) := Py.splitext fname in
        match probe st base ext_ fuel fname 1%nat with
        | Some candidate => Some (candidate, <[candidate := stream f]> st, [])
        | None => None
        end
  end.

(** *** Public pages and member accounts

    Flash texts are the source's, without the Romanian diacritics. *)

Definition login_adapost (req : Request) (db : DB) (sess : Session) : Outcome :=
  match method req with
  | POST =>
      let email := Py.lower (Py.strip (Py.or_default (form_get "email" req) "")) in
      let password := Py.or_default (form_get "password" req) "" in
      if negb (Py.truthy email) || negb (Py.truthy password) then
        mkOutcome (render_template "login_shelter.html")
          [flash "Emailul si parola sunt obligatorii." "error"] db sess
      else
        let sh := Sql.fetchone
                    (Sql.select (fun r => String.eqb (shelters.email r) email) (t_shelters db)) in
        let invalid :=
          mkOutcome (render_template "login_shelter.html")
            [flash "Email sau parola incorecte (sau adapostul nu e aprobat)." "error"] db sess in
        match sh with
        | None => invalid
        | Some sh =>
            if negb (Py.truthy (shelters.password_hash sh))
               || negb (check_password_hash (shelters.password_hash sh) password)
            then invalid
            else
              mkOutcome (redirect ep_shelter_dashboard)
                [flash "Adapost autentificat." "success"] db
                (mkSession (user_id sess) (admin_id sess) (Some (shelters.id sh)))
        end
  | GET => mkOutcome (render_template "login_shelter.html") [] db sess
  end.

Definition register_user (env : Env) (req : Request) (db : DB) (sess : Session) : Outcome :=
  match method req with
  | POST =>
      let first_name := Py.strip (Py.or_default (form_get "first_name" req) "") in
      let last_name := Py.strip (Py.or_default (form_get "last_name" req) "") in
      let email := Py.lower (Py.strip (Py.or_default (form_get "email" req) "")) in
      let phone := Py.strip (Py.or_default (form_get "phone" req) "") in
      let password := Py.or_default (form_get "password" req) "" in
      let password2 := Py.or_default (form_get "password2" req) "" in
      if negb (Py.truthy email) || negb (Py.truthy password) then
        mkOutcome (render_template "register_user.html")
          [flash "Emailul si parola sunt obligatorii." "error"] db sess
      else if negb (String.eqb password password2) then
        mkOutcome (render_template "register_user.html")
          [flash "Parolele nu coincid." "error"] db sess
      else
        match insert_user (fun i =>
                users.mk i first_name last_name email phone
                         (generate_password_hash (salt env) password)) (t_users db) with
        | inr t =>
            mkOutcome (redirect ep_login_utilizator)
              [flash "Cont creat. Te poti autentifica." "success"]
              (set_users (fun _ => t) db) sess
        | inl _ =>
            mkOutcome (render_template "register_user.html")
              [flash "Exista deja un cont cu acest email." "error"] db sess
        end
  | GET => mkOutcome (render_template "register_user.html") [] db sess
  end.

(** *** Routing a help intent *)

(** [ORDER BY urgent_level DESC, id DESC]: [a] is listed no later than [b]. *)
Definition by_urgency (a b : shelters.row) : Prop :=
  shelters.urgent_level b < shelters.urgent_level a
  \/ (shelters.urgent_level a = shelters.urgent_level b /\ shelters.id b <= shelters.id a).

#[global] Instance by_urgency_dec : RelDecision by_urgency.
Proof. intros a b. unfold by_urgency. apply _. Defined.

Definition shelters_by_urgency (db : DB) : list shelters.row :=
  merge_sort by_urgency (Sql.rows (t_shelters db)).

(** [float(request.form.get("amount") or 0)] *)
Definition parse_amount (req : Request) : Exception + pyfloat :=
  match form_get "amount" req with
  | Some s =>
      if Py.truthy s then
        if float_parses s then inr (float_of_str s) else inl ValueError
      else inr (float_of_int 0)
  | None => inr (float_of_int 0)
  end.

(** The branch that computes [shelter_id], a Python [int] of any size;
    it is bound, and checked against 64 bits, by the INSERT. *)
Definition choose_shelter (mode : string) (chosen_ids : list string)
    (shelters : list shelters.row) : Exception + Z :=
  if String.eqb mode "manual" && negb (bool_decide (chosen_ids = [])) then
    match head chosen_ids with
    | Some first =>
        match Py.int first with
        | Some k => inr k
        | None => inl ValueError
        end
    | None => inl IndexError
    end
  else
    inr (match head shelters with
         | Some s => shelters.id s
         | None => 0
         end).

Definition ajuta_category (category_ : string) (env : Env) (req : Request)
    (db : DB) (sess : Session) : Outcome :=
  if negb (str_in category_ ["materials"; "money"; "volunteer"]) then
    mkOutcome (abort 404) [] db sess
  else
    match current_user db sess with
    | None =>
        mkOutcome (redirect ep_login_utilizator)
          [flash "Pentru a ajuta, trebuie sa fii autentificat." "error"] db sess
    | Some u =>
        let shelters := shelters_by_urgency db in
        match method req with
        | POST =>
            let mode := Py.or_default (form_get "mode" req) "auto" in
            match parse_amount req with
            | inl e => mkOutcome (raised e) [] db sess
            | inr amount =>
                let details := Py.strip (Py.or_default (form_get "details" req) "") in
                let message_ := Py.strip (Py.or_default (form_get "message" req) "") in
                let chosen_ids := form_getlist "shelter_ids" req in
                match choose_shelter mode chosen_ids shelters with
                | inl e => mkOutcome (raised e) [] db sess
                | inr shelter_id_ =>
                    match insert_donation (fun i =>
                            donations.mk i (users.id u) category_ shelter_id_ amount
                                         details message_ (now env)) (t_donations db) with
                    | inl e => mkOutcome (raised e) [] db sess
                    | inr t =>
                        mkOutcome (redirect ep_ajuta)
                          [flash "Multumim! Cererea ta a fost trimisa." "success"]
                          (set_donations (fun _ => t) db)
                          sess
                    end
                end
            end
        | GET => mkOutcome (render_template "ajuta_category.html") [] db sess
        end
    end.

(** *** Admin *)

(** [SELECT * FROM admins WHERE username = ?] and [fetchone]. *)
Definition find_admin (username : string) (db : DB) : option admins.row :=
  Sql.fetchone
    (Sql.select (fun r => String.eqb (admins.username r) username) (t_admins db)).

Definition admin_login (req : Request) (db : DB) (sess : Session) : Outcome :=
  match method req with
  | POST =>
      let username := Py.strip (Py.or_default (form_get "username" req) "") in
      let password := Py.or_default (form_get "password" req) "" in
      let admin := find_admin username db in
      let invalid :=
        mkOutcome (render_template "admin_login.html")
          [flash "Username sau parola incorecte." "error"] db sess in
      match admin with
      | None => invalid
      | Some admin =>
          if negb (check_password_hash (admins.password_hash admin) password) then invalid
          else
            let sess' := mkSession (user_id sess) (Some (admins.id admin)) (shelter_id sess) in
            if admins.must_reset_password admin =? 1 then
              mkOutcome (redirect ep_admin_reset_password) [] db sess'
            else mkOutcome (redirect ep_admin_dashboard) [] db sess'
      end
  | GET => mkOutcome (render_template "admin_login.html") [] db sess
  end.

Definition admin_logout (db : DB) (sess : Session) : Outcome :=
  mkOutcome (redirect ep_home) [flash "Delogat." "success"] db
    (mkSession (user_id sess) None (shelter_id sess)).

(** [GET /admin/reset-password] *)
Definition admin_reset_password (db : DB) (sess : Session) : Outcome :=
  match require_admin sess with
  | Some guard => mkOutcome guard [] db sess
  | None => mkOutcome (render_template "admin_reset_password.html") [] db sess
  end.

(** [POST /admin/reset-password] *)
Definition admin_reset_password_save (env : Env) (req : Request) (db : DB)
    (sess : Session) : Outcome :=
  match require_admin sess with
  | Some guard => mkOutcome guard [] db sess
  | None =>
      let password := Py.or_default (form_get "password" req) "" in
      let password2 := Py.or_default (form_get "password2" req) "" in
      if negb (String.eqb password password2) then
        mkOutcome (redirect ep_admin_reset_password)
          [flash "Parolele nu coincid." "error"] db sess
      else
        mkOutcome (redirect ep_admin_dashboard) [flash "Parola actualizata." "success"]
          (set_admins (Sql.update
             (fun r => admins.id r =? default 0 (admin_id sess))
             (fun r => admins.mk (admins.id r) (admins.username r)
                         (generate_password_hash (salt env) password)
                         (admins.full_name r) (admins.email r) (admins.phone r) 0)) db)
          sess
  end.

Definition admin_dashboard (db : DB) (sess : Session) : Outcome :=
  match require_admin sess with
  | Some guard => mkOutcome guard [] db sess
  | None => mkOutcome (render_template "admin_dashboard.html") [] db sess
  end.

Definition admin_users (db : DB) (sess : Session) : Outcome :=
  match require_admin sess with
  | Some guard => mkOutcome guard [] db sess
  | None => mkOutcome (render_template "admin_users.html") [] db sess
  end.

Definition admin_shelter_requests (db : DB) (sess : Session) : Outcome :=
  match require_admin sess with
  | Some guard => mkOutcome guard [] db sess
  | None => mkOutcome (render_template "admin_shelter_requests.html") [] db sess
  end.

(** The row [approve] inserts: the ten listed columns come from the
    request, [urgent_level] and [created_at] take their defaults. *)
Definition shelter_of_request (env : Env) (req : shelter_requests.row) (i : Z)
  : shelters.row :=
  shelters.mk i
    (shelter_requests.name req) (shelter_requests.email req)
    (shelter_requests.phone req) (shelter_requests.address req)
    (shelter_requests.description req) (shelter_requests.website req)
    (shelter_requests.photo_filename req) (shelter_requests.password_hash req)
    (shelter_requests.shelter_type req) 0 (shelter_requests.pickup_service req)
    (now env).

(** [UPDATE shelter_requests SET status=?, reviewed_at=datetime('now') WHERE id=?] *)
Definition set_status (st : string) (env : Env) (req_id : Z)
  : Sql.Table shelter_requests.row -> Sql.Table shelter_requests.row :=
  Sql.update (fun r => shelter_requests.id r =? req_id)
    (fun r => shelter_requests.mk
       (shelter_requests.id r) (shelter_requests.name r) (shelter_requests.email r)
       (shelter_requests.phone r) (shelter_requests.address r)
       (shelter_requests.description r) (shelter_requests.website r)
       (shelter_requests.photo_filename r) (shelter_requests.password_hash r)
       (shelter_requests.shelter_type r) (shelter_requests.pickup_service r)
       st (shelter_requests.submitted_at r) (Some (now env))).

(** [SELECT * FROM shelter_requests WHERE id=?] and [fetchone]. *)
Definition find_request (req_id : Z) (db : DB) : option shelter_requests.row :=
  Sql.fetchone
    (Sql.select (fun r => shelter_requests.id r =? req_id) (t_shelter_requests db)).

Definition admin_shelter_request_approve (req_id : Z) (env : Env) (db : DB)
    (sess : Session) : Outcome :=
  match require_admin sess with
  | Some guard => mkOutcome guard [] db sess
  | None =>
      match find_request req_id db with
      | None => mkOutcome (abort 404) [] db sess
      | Some req =>
          match insert_shelter (shelter_of_request env req) (t_shelters db) with
          | inl e => mkOutcome (raised e) [] db sess
          | inr t =>
              mkOutcome (redirect ep_admin_shelter_requests)
                [flash "Cerere aprobata." "success"]
                (set_shelter_requests (set_status "APPROVED" env req_id)
                   (set_shelters (fun _ => t) db))
                sess
          end
      end
  end.

Definition admin_shelter_request_reject (req_id : Z) (env : Env) (db : DB)
    (sess : Session) : Outcome :=
  match require_admin sess with
  | Some guard => mkOutcome guard [] db sess
  | None =>
      mkOutcome (redirect ep_admin_shelter_requests)
        [flash "Cerere respinsa." "success"]
        (set_shelter_requests (set_status "REJECTED" env req_id) db)
        sess
  end.

Definition admin_shelter_delete (sid : Z) (db : DB) (sess : Session) : Outcome :=
  match require_admin sess with
  | Some guard => mkOutcome guard [] db sess
  | None =>
      mkOutcome (redirect ep_admin_shelters) [flash "Adapost sters." "success"]
        (set_shelters (Sql.delete (fun r => shelters.id r =? sid)) db) sess
  end.

(** [@app.before_request]: [init_db] runs ahead of every view. *)
Definition served (env : Env) (view : DB -> Session -> Outcome) (db : DB)
    (sess : Session) : Outcome :=
  view (init_db env db) sess.

End App.

(** A stand-in for the imported library functions, used only to run the
    views on concrete requests: a hash is the salt, a dollar sign and the
    password; a file name keeps its letters, digits, dots, dashes and
    underscores; [float] accepts what [int] accepts. *)
Fixpoint after_first (c : ascii) (s : string) : option string :=
  match s with
  | String d t => if Ascii.eqb d c then Some t else after_first c t
  | EmptyString => None
  end.

Fixpoint keep_chars (p : ascii -> bool) (s : string) : string :=
  match s with
  | String c t => if p c then String c (keep_chars p t) else keep_chars p t
  | EmptyString => EmptyString
  end.

Definition filename_char (c : ascii) : bool :=
  let n := nat_of_ascii c in
  (((48 <=? n) && (n <=? 57)) || ((65 <=? n) && (n <=? 90)) || ((97 <=? n) && (n <=? 122))
   || (n =? 45) || (n =? 46) || (n =? 95))%nat.

Definition demo_externals : Externals :=
  mkExternals
    (fun salt_ password => (salt_ ++ "$" ++ password)%string)
    (fun pwhash password =>
       match after_first "$" pwhash with
       | Some p => String.eqb p password
       | None => false
       end)
    (keep_chars filename_char)
    (fun s => bool_decide (is_Some (Py.int s))).

(** The clock and the salts of the concrete runs, and a database file
    that was just created. *)
Definition demo_env : Env := mkEnv "2024-01-01 00:00:00" "s0" "s1".

Definition empty_db : DB := mkDB Sql.empty Sql.empty Sql.empty Sql.empty Sql.empty.

(** Table invariants the schema enforces. *)
Definition shelters_unique (t : Sql.Table shelters.row) : Prop :=
  NoDup (List.map shelters.email (Sql.rows t)).

(** Ids are distinct ([PRIMARY KEY]), start at 1 and none exceeds the
    sequence. *)
Definition shelters_keyed (t : Sql.Table shelters.row) : Prop :=
  0 <= Sql.seq t
  /\ NoDup (List.map shelters.id (Sql.rows t))
  /\ Forall (fun r => 1 <= shelters.id r <= Sql.seq t) (Sql.rows t).

(** The status values of the lifecycle. *)
Definition terminal (st : string) : Prop := st = "APPROVED" \/ st = "REJECTED".

(** Concrete states for running the views: a database with the seeded
    administrator and one pending application, and a browser session
    bound to that administrator. *)
Definition demo_request : shelter_requests.row :=
  shelter_requests.mk 1 "Casa Cu Labute" "casa@example.org" "0700" "Str. Lunga 1"
    "adapost" "" "" "salt$parola" "General" 1 "PENDING" "2024-01-01 00:00:00" None.

Definition db_pending : DB :=
  mkDB Sql.empty
       (Sql.mkTable [admins.mk 1 "admin" "s0$admin" "Admin" "admin@local" "" 1] 1)
       Sql.empty
       (Sql.mkTable [demo_request] 1)
       Sql.empty.

Definition admin_session : Session := mkSession None (Some 1) None.

(** The fields a login or registration form is read into. *)
Definition posted_email (req : Request) : string :=
  Py.lower (Py.strip (Py.or_default (form_get "email" req) "")).

Definition posted_password (req : Request) : string :=
  Py.or_default (form_get "password" req) "".

Definition posted_password2 (req : Request) : string :=
  Py.or_default (form_get "password2" req) "".


(** The posted routing mode and selection. *)
Definition posted_mode (req : Request) : string :=
  Py.or_default (form_get "mode" req) "auto".

Definition posted_shelter_ids (req : Request) : list string :=
  form_getlist "shelter_ids" req.

Definition posted_username (req : Request) : string :=
  Py.strip (Py.or_default (form_get "username" req) "").

(** The pending application after the administrator has rejected it, and
    after the administrator has approved it instead. *)
Definition db_rejected : DB :=
  db_after (admin_shelter_request_reject 1 demo_env db_pending admin_session).

Definition db_approved : DB :=
  db_after (admin_shelter_request_approve 1 demo_env db_pending admin_session).

(** One member and three shelters with urgency levels 0, 5 and 3. *)
Definition demo_shelter (i : Z) (mail : string) (level : Z) : shelters.row :=
  shelters.mk i "Adapost" mail "" "" "" "" "" "salt$parola" "General" level 1
    "2024-01-01 00:00:00".

Definition demo_user : users.row :=
  users.mk 1 "Ana" "Pop" "ana@example.org" "" "salt$parola".

Definition db_three_shelters : DB :=
  mkDB (Sql.mkTable [demo_user] 1) Sql.empty
       (Sql.mkTable [demo_shelter 1 "a@example.org" 0;
                     demo_shelter 2 "b@example.org" 5;
                     demo_shelter 3 "c@example.org" 3] 3)
       Sql.empty Sql.empty.

(** The same member on a database without any shelter. *)
Definition db_no_shelters : DB :=
  mkDB (Sql.mkTable [demo_user] 1) Sql.empty Sql.empty Sql.empty Sql.empty.

Definition member_session : Session := mkSession (Some 1) None None.

(** A shelter row that predates the [password_hash] column: the repair
    gave it the column default. *)
Definition db_legacy_shelter : DB :=
  mkDB Sql.empty Sql.empty
       (Sql.mkTable [shelters.mk 1 "Vechi" "vechi@example.org" "" "" "" "" "" ""
                       "General" 0 1 "2023-01-01 00:00:00"] 1)
       Sql.empty Sql.empty.

(** An upload folder that already holds [cat.png] and [cat_1.png]. *)
Definition demo_folder : Storage :=
  <["cat_1.png" := "second"]> (<["cat.png" := "first"]> ∅).

(** Requests used below. *)
Definition login_as_admin : Request :=
  mkRequest POST [("username", "admin"); ("password", "admin")] [].

Definition reset_request : Request :=
  mkRequest POST [("password", "noua"); ("password2", "noua")] [].

Definition help_auto : Request := mkRequest POST [("mode", "auto")] [].


Definition register_ana : Request :=
  mkRequest POST [("first_name", "Ana"); ("email", " Ana@Example.org ");
                  ("password", "parola"); ("password2", "parola")] [].

Definition register_ana_again : Request :=
  mkRequest POST [("first_name", "Ana-Maria"); ("email", "ana@example.ORG");
                  ("password", "alta"); ("password2", "alta")] [].

Definition login_legacy_shelter : Request :=
  mkRequest POST [("email", "Vechi@Example.org"); ("password", "orice")] [].

(** ** Further views of [app.py] *)

(** Listings a shelter uploads, and what the shelter views work on: the
    database, the animals table and the upload folder. *)
Module animals.
Record row : Type := mk
  { id : Z; shelter_id : Z; name : string; species : string; age : string;
    story : string; photo_filename : string; created_at : string }.
End animals.

Record Site : Type := mkSite
  { site_db : DB; site_animals : Sql.Table animals.row; site_files : Storage }.

(** Replies the views of this part can give beyond a [Response]: the
    redirect to [shelter_animals_edit] carries the listing's id, and
    [dict(None)] raises [TypeError]. *)
Inductive Reply : Type :=
| reply (r : Response)
| redirect_shelter_animals_edit (animal_id : Z)
| raised_TypeError.

Record Result (S : Type) : Type := mkResult
  { reply_of : Reply; flashes_of : list Flash; state_of : S; session_of : Session }.
Arguments mkResult {S} _ _ _ _.
Arguments reply_of {S} _.
Arguments flashes_of {S} _.
Arguments state_of {S} _.
Arguments session_of {S} _.

(** [os.remove] behind its [os.path.exists] test. *)
Definition remove_if_exists (st : Storage) (name : string) : Storage :=
  if path_exists st name then delete name st else st.

Section Views.
Context {ext : Externals}.

Definition require_user (sess : Session) : option (Response * list Flash) :=
  if negb (session_truthy (user_id sess)) then
    Some (redirect ep_ajuta, [flash "Pentru a ajuta, trebuie sa fii autentificat." "error"])
  else None.

Definition require_shelter (sess : Session) : option (Response * list Flash) :=
  if negb (session_truthy (shelter_id sess)) then
    Some (redirect ep_login_adapost, [flash "Trebuie sa te autentifici ca adapost." "error"])
  else None.

Definition login_utilizator (req : Request) (db : DB) (sess : Session) : Outcome :=
  match method req with
  | POST =>
      let email := Py.lower (Py.strip (Py.or_default (form_get "email" req) "")) in
      let password := Py.or_default (form_get "password" req) "" in
      if negb (Py.truthy email) || negb (Py.truthy password) then
        mkOutcome (render_template "login_user.html")
          [flash "Emailul si parola sunt obligatorii." "error"] db sess
      else
        let user := Sql.fetchone
                      (Sql.select (fun r => String.eqb (users.email r) email) (t_users db)) in
        let invalid :=
          mkOutcome (render_template "login_user.html")
            [flash "Email sau parola incorecte." "error"] db sess in
        match user with
        | None => invalid
        | Some user =>
            if negb (check_password_hash (users.password_hash user) password) then invalid
            else
              mkOutcome (redirect ep_home) [flash "Autentificat cu succes." "success"] db
                (mkSession (Some (users.id user)) (admin_id sess) (shelter_id sess))
        end
  | GET => mkOutcome (render_template "login_user.html") [] db sess
  end.

(** [session.pop("user_id", None)] *)
Definition logout (db : DB) (sess : Session) : Outcome :=
  mkOutcome (redirect ep_home) [flash "Te-ai delogat." "success"] db
    (mkSession None (admin_id sess) (shelter_id sess)).

Definition logout_adapost (db : DB) (sess : Session) : Outcome :=
  mkOutcome (redirect ep_home) [flash "Te-ai delogat." "success"] db
    (mkSession (user_id sess) (admin_id sess) None).

(** [POST /adaposturi/devino] with the upload folder; [None] only when
    [fuel] does not cover the naming loop. *)
Definition shelter_apply (fuel : nat) (env : Env) (req : Request) (db : DB)
    (sess : Session) (st : Storage) : option (Outcome * Storage) :=
  match method req with
  | POST =>
      let name := Py.strip (Py.or_default (form_get "name" req) "") in
      let email := Py.lower (Py.strip (Py.or_default (form_get "email" req) "")) in
      let phone := Py.strip (Py.or_default (form_get "phone" req) "") in
      let address := Py.strip (Py.or_default (form_get "address" req) "") in
      let website := Py.strip (Py.or_default (form_get "website" req) "") in
      let description := Py.strip (Py.or_default (form_get "description" req) "") in
      let password := Py.or_default (form_get "password" req) "" in
      let password2 := Py.or_default (form_get "password2" req) "" in
      if negb (Py.truthy name) || negb (Py.truthy email) || negb (Py.truthy password) then
        Some (mkOutcome (render_template "shelter_apply.html")
                [flash "Numele, emailul si parola sunt obligatorii." "error"] db sess, st)
      else if negb (String.eqb password password2) then
        Some (mkOutcome (render_template "shelter_apply.html")
                [flash "Parolele nu coincid." "error"] db sess, st)
      else
        match save_uploaded_photo fuel (files_get "photo" req) st with
        | None => None
        | Some (photo_filename, st', flashed_) =>
            Some (mkOutcome (redirect ep_adaposturi)
                    (flashed_ ++ [flash "Cerere trimisa. Adminul o va analiza." "success"])
                    (set_shelter_requests (Sql.insert (fun i =>
                       shelter_requests.mk i name email phone address description website
                         photo_filename (generate_password_hash (salt env) password)
                         "General" 1 "PENDING" (now env) None)) db)
                    sess, st')
        end
  | GET => Some (mkOutcome (render_template "shelter_apply.html") [] db sess, st)
  end.

(** *** Admin: members, shelters, profile *)

Definition admin_user_edit (uid : Z) (req : Request) (db : DB) (sess : Session)
  : Outcome :=
  match require_admin sess with
  | Some guard => mkOutcome guard [] db sess
  | None =>
      if negb (sqlite_int_ok uid) then mkOutcome (raised OverflowError) [] db sess
      else
      match Sql.fetchone (Sql.select (fun r => users.id r =? uid) (t_users db)) with
      | None => mkOutcome (abort 404) [] db sess
      | Some _ =>
          match method req with
          | POST =>
              let first_name := Py.strip (Py.or_default (form_get "first_name" req) "") in
              let last_name := Py.strip (Py.or_default (form_get "last_name" req) "") in
              let phone := Py.strip (Py.or_default (form_get "phone" req) "") in
              mkOutcome (redirect ep_admin_users) [flash "Utilizator actualizat." "success"]
                (set_users (Sql.update (fun r => users.id r =? uid)
                   (fun r => users.mk (users.id r) first_name last_name (users.email r)
                               phone (users.password_hash r))) db)
                sess
          | GET => mkOutcome (render_template "admin_user_edit.html") [] db sess
          end
      end
  end.

Definition admin_user_delete (uid : Z) (db : DB) (sess : Session) : Outcome :=
  match require_admin sess with
  | Some guard => mkOutcome guard [] db sess
  | None =>
      mkOutcome (redirect ep_admin_users) [flash "Utilizator sters." "success"]
        (set_users (Sql.delete (fun r => users.id r =? uid)) db) sess
  end.

Definition admin_shelters (db : DB) (sess : Session) : Outcome :=
  match require_admin sess with
  | Some guard => mkOutcome guard [] db sess
  | None => mkOutcome (render_template "admin_shelters.html") [] db sess
  end.

Definition admin_shelter_detail (sid : Z) (db : DB) (sess : Session) : Outcome :=
  match require_admin sess with
  | Some guard => mkOutcome guard [] db sess
  | None =>
      match Sql.fetchone (Sql.select (fun r => shelters.id r =? sid) (t_shelters db)) with
      | None => mkOutcome (abort 404) [] db sess
      | Some _ => mkOutcome (render_template "admin_shelter_detail.html") [] db sess
      end
  end.

(** [/admin/profile]: the update of a POST is committed before the row
    is read back; [dict(admin)] on a missing row raises. *)
Definition admin_profile (req : Request) (db : DB) (sess : Session) : Result DB :=
  match require_admin sess with
  | Some guard => mkResult (reply guard) [] db sess
  | None =>
      let me := fun r => admins.id r =? default 0 (admin_id sess) in
      let '(db1, flashed_) :=
        match method req with
        | POST =>
            let full_name := Py.strip (Py.or_default (form_get "full_name" req) "") in
            let email := Py.strip (Py.or_default (form_get "email" req) "") in
            let phone := Py.strip (Py.or_default (form_get "phone" req) "") in
            (set_admins (Sql.update me
               (fun r => admins.mk (admins.id r) (admins.username r) (admins.password_hash r)
                           full_name email phone (admins.must_reset_password r))) db,
             [flash "Profil actualizat." "success"])
        | GET => (db, [])
        end in
      match Sql.fetchone (Sql.select me (t_admins db1)) with
      | Some _ => mkResult (reply (render_template "admin_profile.html")) flashed_ db1 sess
      | None => mkResult raised_TypeError flashed_ db1 sess
      end
  end.

End Views.

Section ShelterViews.
Context {ext : Externals}.

(** *** The shelter's own pages *)

(** The rows [SELECT * FROM animals WHERE id = ? AND shelter_id = ?]
    matches, and the first of them; the views reach it through
    [select_animal], which binds the id first. *)
Definition own_animal (animal_id sid : Z) (r : animals.row) : bool :=
  (animals.id r =? animal_id) && (animals.shelter_id r =? sid).

Definition find_animal (animal_id sid : Z) (site : Site) : option animals.row :=
  Sql.fetchone (Sql.select (own_animal animal_id sid) (site_animals site)).

(** The same statement as the views run it: binding an [animal_id] that
    does not fit 64 bits raises before any row is read. *)
Definition select_animal (animal_id sid : Z) (site : Site)
  : Exception + option animals.row :=
  if negb (sqlite_int_ok animal_id) then inl OverflowError
  else inr (find_animal animal_id sid site).

(** The opening of every shelter view: the guard, then [current_shelter];
    a session whose shelter is gone loses its key. *)
Definition with_shelter (site : Site) (sess : Session)
    (view : shelters.row -> option (Result Site)) : option (Result Site) :=
  match require_shelter sess with
  | Some (guard, flashed_) => Some (mkResult (reply guard) flashed_ site sess)
  | None =>
      match current_shelter (site_db site) sess with
      | None =>
          Some (mkResult (reply (redirect ep_login_adapost))
                  [flash "Sesiune invalida. Autentifica-te din nou." "error"] site
                  (mkSession (user_id sess) (admin_id sess) None))
      | Some sh => view sh
      end
  end.

Definition shelter_dashboard (site : Site) (sess : Session) : option (Result Site) :=
  with_shelter site sess (fun sh =>
    Some (mkResult (reply (render_template "shelter_dashboard.html")) [] site sess)).

Definition shelter_animals_add (fuel : nat) (env : Env) (req : Request) (site : Site)
    (sess : Session) : option (Result Site) :=
  with_shelter site sess (fun sh =>
    let name := Py.strip (Py.or_default (form_get "name" req) "") in
    let species := Py.strip (Py.or_default (form_get "species" req) "") in
    let age := Py.strip (Py.or_default (form_get "age" req) "") in
    let story := Py.strip (Py.or_default (form_get "story" req) "") in
    if negb (Py.truthy name) then
      Some (mkResult (reply (redirect ep_shelter_dashboard))
              [flash "Numele animalului este obligatoriu." "error"] site sess)
    else
      match save_uploaded_photo fuel (files_get "photo" req) (site_files site) with
      | None => None
      | Some (photo_filename, st', flashed_) =>
          Some (mkResult (reply (redirect ep_shelter_dashboard))
                  (flashed_ ++ [flash "Animal adaugat." "success"])
                  (mkSite (site_db site)
                     (Sql.insert (fun i =>
                        animals.mk i (shelters.id sh) name species age story photo_filename
                                   (now env)) (site_animals site))
                     st')
                  sess)
      end).

Definition shelter_animals_edit (fuel : nat) (animal_id : Z) (req : Request)
    (site : Site) (sess : Session) : option (Result Site) :=
  with_shelter site sess (fun sh =>
    match select_animal animal_id (shelters.id sh) site with
    | inl e => Some (mkResult (reply (raised e)) [] site sess)
    | inr None => Some (mkResult (reply (abort 404)) [] site sess)
    | inr (Some animal) =>
        match method req with
        | POST =>
            let name := Py.strip (Py.or_default (form_get "name" req) "") in
            let species := Py.strip (Py.or_default (form_get "species" req) "") in
            let age := Py.strip (Py.or_default (form_get "age" req) "") in
            let story := Py.strip (Py.or_default (form_get "story" req) "") in
            if negb (Py.truthy name) then
              Some (mkResult (redirect_shelter_animals_edit animal_id)
                      [flash "Numele animalului este obligatoriu." "error"] site sess)
            else
              let photo_filename := animals.photo_filename animal in
              let saved :=
                match files_get "photo" req with
                | Some new_photo =>
                    if Py.truthy (filename new_photo) then
                      match save_uploaded_photo fuel (Some new_photo) (site_files site) with
                      | None => None
                      | Some (new_saved, st', flashed_) =>
                          if Py.truthy new_saved then
                            Some (new_saved,
                                  if Py.truthy photo_filename
                                  then remove_if_exists st' photo_filename else st',
                                  flashed_)
                          else Some (photo_filename, st', flashed_)
                      end
                    else Some (photo_filename, site_files site, [])
                | None => Some (photo_filename, site_files site, [])
                end in
              match saved with
              | None => None
              | Some (photo_filename', st', flashed_) =>
                  Some (mkResult (reply (redirect ep_shelter_dashboard))
                          (flashed_ ++ [flash "Animal actualizat." "success"])
                          (mkSite (site_db site)
                             (Sql.update (own_animal animal_id (shelters.id sh))
                                (fun r => animals.mk (animals.id r) (animals.shelter_id r)
                                            name species age story photo_filename'
                                            (animals.created_at r))
                                (site_animals site))
                             st')
                          sess)
              end
        | GET =>
            Some (mkResult (reply (render_template "shelter_animal_edit.html")) [] site sess)
        end
    end).

Definition shelter_animals_delete (animal_id : Z) (site : Site) (sess : Session)
  : option (Result Site) :=
  with_shelter site sess (fun sh =>
    match select_animal animal_id (shelters.id sh) site with
    | inl e => Some (mkResult (reply (raised e)) [] site sess)
    | inr None => Some (mkResult (reply (abort 404)) [] site sess)
    | inr (Some row) =>
        let photo_filename := animals.photo_filename row in
        Some (mkResult (reply (redirect ep_shelter_dashboard))
                [flash "Animal sters." "success"]
                (mkSite (site_db site)
                   (Sql.delete (own_animal animal_id (shelters.id sh)) (site_animals site))
                   (if Py.truthy photo_filename
                    then remove_if_exists (site_files site) photo_filename
                    else site_files site))
                sess)
    end).

End ShelterViews.

(** ** [reset_admin_password.py] *)

Inductive ScriptResult : Type :=
| FileNotFoundError
| no_such_admin
| password_reset (db : DB).

Definition ADMIN_USERNAME : string := "admin".
Definition NEW_PASSWORD : string := "admin123".

(** [main()]: [db] is [None] when the database file does not exist;
    [salt_] is the salt [generate_password_hash] draws. *)
Definition reset_admin_password_main {ext : Externals} (salt_ : string)
    (db : option DB) : ScriptResult :=
  match db with
  | None => FileNotFoundError
  | Some db =>
      match Sql.fetchone
              (Sql.select (fun r => String.eqb (admins.username r) ADMIN_USERNAME)
                 (t_admins db)) with
      | None => no_such_admin
      | Some row =>
          let new_hash := generate_password_hash salt_ NEW_PASSWORD in
          password_reset
            (set_admins (Sql.update (fun r => admins.id r =? admins.id row)
               (fun r => admins.mk (admins.id r) (admins.username r) new_hash
                           (admins.full_name r) (admins.email r) (admins.phone r) 0)) db)
      end
  end.

(** ** The schema guardian of [init_db]

    A schema is the column names of each table, in declaration order and
    in the letter case they were declared with.  SQLite matches table
    and column names without regard to ASCII letter case, so a table is
    kept under its lower-cased name; Python's [col in cols] compares the
    names as they are. *)
Abbreviation Schema := (gmap string (list string)).

Definition table_key (table : string) : string := Py.lower table.

(** Equality of two identifiers for SQLite. *)
Definition same_name (a b : string) : bool :=
  String.eqb (Py.lower a) (Py.lower b).

(** [PRAGMA table_info(t)]: no rows for a table that does not exist. *)
Definition table_info (s : Schema) (table : string) : list string :=
  default [] (s !! table_key table).

Definition _table_has_column (s : Schema) (table col : string) : bool :=
  str_in col (table_info s table).

(** [ALTER TABLE t ADD COLUMN c ...]; [None] is [sqlite3.OperationalError]
    (no such table, or duplicate column name). *)
Definition alter_add_column (s : Schema) (table col : string) : option Schema :=
  match s !! table_key table with
  | Some cols =>
      if existsb (fun c' => same_name c' col) cols then None
      else Some (<[table_key table := (cols ++ [col])%list]> s)
  | None => None
  end.

Definition _ensure_column (s : Schema) (table col : string) : option Schema :=
  if negb (_table_has_column s table col) then alter_add_column s table col
  else Some s.

(** [CREATE TABLE IF NOT EXISTS t (...)] *)
Definition create_if_not_exists (table : string) (cols : list string) (s : Schema) : Schema :=
  match s !! table_key table with
  | Some _ => s
  | None => <[table_key table := cols]> s
  end.

Definition CREATED_TABLES : list (string * list string) :=
  [("users", ["id"; "first_name"; "last_name"; "email"; "phone"; "password_hash"]);
   ("admins", ["id"; "username"; "password_hash"; "full_name"; "email"; "phone";
               "must_reset_password"]);
   ("shelters", ["id"; "name"; "email"; "phone"; "address"; "description"; "website";
                 "photo_filename"; "password_hash"; "shelter_type"; "urgent_level";
                 "pickup_service"; "created_at"]);
   ("shelter_requests", ["id"; "name"; "email"; "phone"; "address"; "description";
                         "website"; "photo_filename"; "password_hash"; "shelter_type";
                         "pickup_service"; "status"; "submitted_at"; "reviewed_at"]);
   ("donations", ["id"; "user_id"; "category"; "shelter_id"; "amount"; "details";
                  "message"; "created_at"]);
   ("animals", ["id"; "shelter_id"; "name"; "species"; "age"; "story"; "photo_filename";
                "created_at"]);
   ("reports", ["id"; "reporter_name"; "reporter_phone"; "reporter_email"; "description";
                "created_at"])].

(** The "safe migrations", in the order [init_db] runs them. *)
Definition ENSURED_COLUMNS : list (string * string) :=
  [("admins", "must_reset_password");
   ("shelters", "photo_filename"); ("shelters", "password_hash");
   ("shelters", "shelter_type"); ("shelters", "urgent_level");
   ("shelters", "pickup_service");
   ("shelter_requests", "photo_filename"); ("shelter_requests", "password_hash");
   ("shelter_requests", "shelter_type"); ("shelter_requests", "pickup_service")].

Fixpoint ensure_columns (l : list (string * string)) (s : Schema) : option Schema :=
  match l with
  | [] => Some s
  | (table, col) :: l' =>
      match _ensure_column s table col with
      | Some s' => ensure_columns l' s'
      | None => None
      end
  end.

(** The schema part of [init_db]. *)
Definition init_schema (s : Schema) : option Schema :=
  ensure_columns ENSURED_COLUMNS
    (fold_left (fun acc tc => create_if_not_exists (fst tc) (snd tc) acc) CREATED_TABLES s).

(** A database file from before the shelter accounts had passwords. *)
Definition old_schema : Schema :=
  <["shelters" := ["id"; "name"; "email"; "phone"; "address"; "description"; "website";
                   "created_at"]]>
  (<["users" := ["id"; "first_name"; "last_name"; "email"; "phone"; "password_hash"]]> ∅).

(** Ids of members: from 1 up to the sequence. *)
Definition users_keyed (t : Sql.Table users.row) : Prop :=
  0 <= Sql.seq t /\ Forall (fun r => 1 <= users.id r <= Sql.seq t) (Sql.rows t).

(** [SELECT * FROM users WHERE email = ?] and [fetchone]. *)
Definition find_user (email : string) (db : DB) : option users.row :=
  Sql.fetchone (Sql.select (fun r => String.eqb (users.email r) email) (t_users db)).

(** [SELECT * FROM shelters WHERE email = ?] and [fetchone]. *)
Definition find_shelter (email : string) (db : DB) : option shelters.row :=
  Sql.fetchone (Sql.select (fun r => String.eqb (shelters.email r) email) (t_shelters db)).

Definition login_ana : Request :=
  mkRequest POST [("email", "ANA@example.org  "); ("password", "parola")] [].

Definition login_casa : Request :=
  mkRequest POST [("email", "Casa@Example.org"); ("password", "parola")] [].

(** [s'] has every table of [s], each with the columns of [s] first and
    in the same order. *)
Definition schema_extends (s s' : Schema) : Prop :=
  forall table cols, s !! table = Some cols ->
    exists extra, s' !! table = Some (cols ++ extra)%list.

(** Table [table] has no column that SQLite takes for [col] while Python
    does not: a name equal to [col] up to letter case only. *)
Definition no_case_variant (s : Schema) (table col : string) : Prop :=
  forall cols c', s !! table_key table = Some cols -> In c' cols ->
    same_name c' col = true -> c' = col.

Definition schema_clean (l : list (string * string)) (s : Schema) : Prop :=
  Forall (fun tc => no_case_variant s (fst tc) (snd tc)) l.

(** A database file whose shelters table was created by hand with a
    capitalised column. *)
Definition capitalised_schema : Schema :=
  <["shelters" := ["id"; "name"; "email"; "Urgent_Level"]]> ∅.

(** A site with two listings, one of shelter 2 with a photo and one of
    shelter 3 without, and the sessions of those two shelters. *)
Definition demo_site : Site :=
  mkSite db_three_shelters
    (Sql.mkTable [animals.mk 1 2 "Rex" "caine" "3" "" "cat.png" "2024-01-01 00:00:00";
                  animals.mk 2 3 "Mia" "pisica" "1" "" "" "2024-01-01 00:00:00"] 2)
    demo_folder.

Definition shelter2_session : Session := mkSession None None (Some 2).

Definition shelter3_session : Session := mkSession None None (Some 3).

Definition edit_rex : Request :=
  mkRequest POST [("name", " Rex "); ("species", "caine")]
    [("photo", mkFile "cat.png" "new bytes")].

Definition apply_casa : Request :=
  mkRequest POST [("name", "Casa Cu Labute"); ("email", " Casa@Example.org");
                  ("password", "parola"); ("password2", "parola")]
    [("photo", mkFile "logo.PNG" "logo bytes")].

Definition login_admin_new : Request :=
  mkRequest POST [("username", "admin"); ("password", "noua")] [].

Definition login_admin_script : Request :=
  mkRequest POST [("username", " admin "); ("password", "admin123")] [].

Definition help_nan : Request :=
  mkRequest POST [("mode", "auto"); ("amount", " NaN ")] [].

Definition help_huge_id : Request :=
  mkRequest POST [("mode", "manual"); ("shelter_ids", "9223372036854775808")] [].

Definition help_blank_id : Request :=
  mkRequest POST [("mode", "manual"); ("shelter_ids", String "2" (String "031" ""))] [].

Definition login_unknown : Request :=
  mkRequest POST [("email", "nimeni@example.org"); ("password", "parola")] [].

(** * Properties *)

(** ** Python helpers on examples *)
Example strip_ex : Py.strip "  Ana@Example.org " = "Ana@Example.org".
Proof. reflexivity. Qed.

Example lower_ex : Py.lower "Ana@Example.ORG" = "ana@example.org".
Proof. reflexivity. Qed.

Example splitext_ex1 : Py.splitext "cat.png" = ("cat", ".png").
Proof. reflexivity. Qed.

Example splitext_ex2 : Py.splitext "png" = ("png", "").
Proof. reflexivity. Qed.

Example splitext_ex3 : Py.splitext "a.b/..png" = ("a.b/..png", "").
Proof. reflexivity. Qed.

Example splitext_ex4 : Py.splitext "archive.tar.jpeg" = ("archive.tar", ".jpeg").
Proof. reflexivity. Qed.

Example int_ex1 : Py.int " 42 " = Some 42.
Proof. reflexivity. Qed.

Example int_ex2 : Py.int "-1_0" = Some (-10).
Proof. reflexivity. Qed.

Example int_ex3 : Py.int "" = None /\ Py.int "4x" = None /\ Py.int "1__0" = None.
Proof. repeat split; reflexivity. Qed.

Example str_of_nat_ex : Py.str_of_nat 12 = "12".
Proof. reflexivity. Qed.

(** ** Store lemmas *)

(** A lookup on a unique text column returns the row that carries the key. *)
Lemma fetch_by_unique_key {R : Type} (key : R -> string) (l : list R) (r : R) :
  NoDup (List.map key l) -> In r l ->
  head (List.filter (fun x => String.eqb (key x) (key r)) l) = Some r.
Proof.
  induction l as [|x l IH]; simpl; intros Hnd Hin; [contradiction|].
  apply NoDup_cons in Hnd as [Hx Hnd].
  destruct Hin as [->|Hin].
  - rewrite String.eqb_refl. reflexivity.
  - destruct (String.eqb_spec (key x) (key r)) as [E|_].
    + exfalso. apply Hx. rewrite E. apply list_elem_of_In, in_map, Hin.
    + apply IH; assumption.
Qed.

Lemma existsb_key_false {R : Type} (key : R -> string) (l : list R) (e : string) :
  existsb (fun x => String.eqb (key x) e) l = false <-> ~ In e (List.map key l).
Proof.
  induction l as [|x l IH]; simpl; [tauto|].
  rewrite orb_false_iff, IH.
  destruct (String.eqb_spec (key x) e); intuition congruence.
Qed.

Section Properties.
Context {ext : Externals}.

(** The two invariants hold on an empty table and survive the insert of
    an approval. *)
Lemma insert_shelter_unique (mk : Z -> shelters.row) (t t' : Sql.Table shelters.row) :
  shelters_unique t -> insert_shelter mk t = inr t' -> shelters_unique t'.
Proof.
  unfold shelters_unique, insert_shelter. intros Hnd H.
  destruct (shelters_email_taken _ t) eqn:E; [discriminate|].
  injection H as <-. simpl. rewrite map_app. simpl.
  apply NoDup_app. split; [exact Hnd|]. split.
  - intros x Hx Hx'. apply list_elem_of_singleton in Hx'. subst x.
    apply (existsb_key_false shelters.email) in E. apply E.
    apply list_elem_of_In. exact Hx.
  - apply NoDup_singleton.
Qed.

Lemma insert_shelter_keyed (mk : Z -> shelters.row) (t t' : Sql.Table shelters.row) :
  (forall i, shelters.id (mk i) = i) ->
  shelters_keyed t -> insert_shelter mk t = inr t' -> shelters_keyed t'.
Proof.
  unfold shelters_keyed, insert_shelter. intros Hmk (Hseq & Hnd & Hall) H.
  destruct (shelters_email_taken _ t); [discriminate|].
  injection H as <-. simpl. rewrite map_app. simpl. rewrite Hmk.
  split; [lia|]. split.
  - apply NoDup_app. split; [exact Hnd|]. split; [|apply NoDup_singleton].
    intros x Hx Hx'. apply list_elem_of_singleton in Hx'. subst x.
    apply list_elem_of_fmap in Hx as (r & Hr & Hin).
    rewrite Forall_forall in Hall. specialize (Hall r Hin). lia.
  - apply Forall_app. split.
    + eapply Forall_impl; [exact Hall|]. simpl. intros r Hr. lia.
    + apply Forall_singleton. rewrite Hmk. lia.
Qed.

Lemma empty_shelters_invariants :
  shelters_unique Sql.empty /\ shelters_keyed Sql.empty.
Proof.
  unfold shelters_unique, shelters_keyed. simpl.
  repeat split; try apply NoDup_nil_2; [lia|apply Forall_nil_2].
Qed.

(** ** Shelter login *)

(** C10. A shelter row whose stored hash is the empty string cannot log
    in: whatever password is posted with its email, the view renders the
    login page again, the session and the database are what they were,
    and, when email and password are both filled in, the message is the
    generic invalid-credential one. *)
Theorem login_adapost_empty_hash (db : DB) (sess : Session) (req : Request)
    (sh : shelters.row) :
  shelters_unique (t_shelters db) ->
  In sh (Sql.rows (t_shelters db)) ->
  shelters.password_hash sh = "" ->
  method req = POST ->
  Py.lower (Py.strip (Py.or_default (form_get "email" req) "")) = shelters.email sh ->
  let out := login_adapost req db sess in
  response out = render_template "login_shelter.html"
  /\ session_after out = sess
  /\ db_after out = db
  /\ (Py.truthy (shelters.email sh) = true ->
      Py.truthy (Py.or_default (form_get "password" req) "") = true ->
      flashed out =
        [flash "Email sau parola incorecte (sau adapostul nu e aprobat)." "error"]).
Proof.
  intros Huniq Hin Hhash Hm Hemail out. subst out.
  unfold login_adapost. rewrite Hm, Hemail.
  destruct (Py.truthy (shelters.email sh)) eqn:He;
    destruct (Py.truthy (Py.or_default (form_get "password" req) "")) eqn:Hp;
    simpl; try (repeat split; intros; congruence).
  unfold Sql.fetchone, Sql.select.
  rewrite (fetch_by_unique_key shelters.email _ sh Huniq Hin).
  rewrite Hhash. simpl. repeat split; reflexivity.
Qed.

(** ** The onboarding lifecycle *)

Lemma fetch_after_update {R : Type} (p : R -> bool) (f : R -> R) (t : Sql.Table R) :
  (forall r, p (f r) = p r) ->
  Sql.fetchone (Sql.select p (Sql.update p f t)) = f <$> Sql.fetchone (Sql.select p t).
Proof.
  intros Hp. unfold Sql.fetchone, Sql.select, Sql.update. simpl.
  induction (Sql.rows t) as [|x l IH]; simpl; [reflexivity|].
  destruct (p x) eqn:E.
  - rewrite Hp, E. reflexivity.
  - rewrite E. exact IH.
Qed.

Lemma find_request_set_status (st : string) (req_id : Z) (env : Env) (db : DB) :
  find_request req_id (set_shelter_requests (set_status st env req_id) db)
  = (fun r => shelter_requests.mk
       (shelter_requests.id r) (shelter_requests.name r) (shelter_requests.email r)
       (shelter_requests.phone r) (shelter_requests.address r)
       (shelter_requests.description r) (shelter_requests.website r)
       (shelter_requests.photo_filename r) (shelter_requests.password_hash r)
       (shelter_requests.shelter_type r) (shelter_requests.pickup_service r)
       st (shelter_requests.submitted_at r) (Some (now env)))
    <$> find_request req_id db.
Proof.
  unfold find_request, set_status. simpl.
  apply (fetch_after_update (fun r => shelter_requests.id r =? req_id)).
  intros r. reflexivity.
Qed.

(** Rows other than the one decided keep every column. *)
Lemma set_status_other (st : string) (req_id : Z) (env : Env)
    (t : Sql.Table shelter_requests.row) (r : shelter_requests.row) :
  shelter_requests.id r <> req_id ->
  In r (Sql.rows t) -> In r (Sql.rows (set_status st env req_id t)).
Proof.
  intros Hne Hin. unfold set_status, Sql.update. simpl.
  apply in_map_iff. exists r. split; [|exact Hin].
  destruct (Z.eqb_spec (shelter_requests.id r) req_id); [contradiction|reflexivity].
Qed.

(** [approve] goes through exactly when the admin session is bound, the
    request exists and no shelter holds its email. *)
Lemma approve_succeeds_iff (req_id : Z) (env : Env) (db : DB) (sess : Session) :
  response (admin_shelter_request_approve req_id env db sess)
    = redirect ep_admin_shelter_requests
  <-> session_truthy (admin_id sess) = true
      /\ exists req, find_request req_id db = Some req
           /\ shelters_email_taken (shelter_requests.email req) (t_shelters db) = false.
Proof.
  unfold admin_shelter_request_approve, require_admin, insert_shelter.
  destruct (session_truthy (admin_id sess)); simpl.
  - destruct (find_request req_id db) as [req|]; simpl.
    + destruct (shelters_email_taken _ _) eqn:E; simpl.
      * split; [discriminate|]. intros [_ (r & Hr & Ht)].
        injection Hr as <-. congruence.
      * split; [|reflexivity]. intros _. split; [reflexivity|].
        exists req. split; [reflexivity|exact E].
    + split; [discriminate|]. intros [_ (r & Hr & _)]. discriminate.
  - split; [discriminate|]. intros [H _]. discriminate.
Qed.

(** C6. A successful approve of an existing request adds exactly one row
    to the shelters table, whose ten onboarding columns are the request's
    (the stored hash as it is), and leaves the request APPROVED with
    [reviewed_at] set to the current time. *)
Theorem approve_copies_request (req_id : Z) (env : Env) (db : DB) (sess : Session)
    (req : shelter_requests.row) :
  find_request req_id db = Some req ->
  response (admin_shelter_request_approve req_id env db sess)
    = redirect ep_admin_shelter_requests ->
  let db' := db_after (admin_shelter_request_approve req_id env db sess) in
  (exists sh,
      Sql.rows (t_shelters db') = (Sql.rows (t_shelters db) ++ [sh])%list
      /\ shelters.name sh = shelter_requests.name req
      /\ shelters.email sh = shelter_requests.email req
      /\ shelters.phone sh = shelter_requests.phone req
      /\ shelters.address sh = shelter_requests.address req
      /\ shelters.description sh = shelter_requests.description req
      /\ shelters.website sh = shelter_requests.website req
      /\ shelters.photo_filename sh = shelter_requests.photo_filename req
      /\ shelters.password_hash sh = shelter_requests.password_hash req
      /\ shelters.shelter_type sh = shelter_requests.shelter_type req
      /\ shelters.pickup_service sh = shelter_requests.pickup_service req)
  /\ (exists r',
      find_request req_id db' = Some r'
      /\ shelter_requests.status r' = "APPROVED"
      /\ shelter_requests.reviewed_at r' = Some (now env)
      /\ shelter_requests.reviewed_at r' <> None).
Proof.
  intros Hreq Hok db'. subst db'.
  apply approve_succeeds_iff in Hok as [Hadm (r & Hr & Hfree)].
  rewrite Hreq in Hr. injection Hr as <-.
  unfold admin_shelter_request_approve, require_admin, insert_shelter.
  rewrite Hadm, Hreq. simpl. rewrite Hfree. simpl. split.
  - eexists. split; [reflexivity|]. simpl. repeat split; reflexivity.
  - eexists. split.
    + pose proof (find_request_set_status "APPROVED" req_id env
                    (set_shelters (fun _ => Sql.insert (shelter_of_request env req) (t_shelters db)) db))
        as E.
      unfold find_request in E |- *. simpl in E |- *. rewrite E.
      unfold find_request in Hreq. rewrite Hreq. reflexivity.
    + simpl. repeat split; discriminate.
Qed.

(** C1 (as the code has it). Approve never looks at the status.  For a
    request already APPROVED or REJECTED: when some shelter holds the
    request's email, the insert breaks the uniqueness of [shelters.email],
    the view dies with [IntegrityError] and the database is unchanged;
    when none does, one shelter row copied from the request is added and
    the status becomes APPROVED. *)
Theorem approve_decided_request (req_id : Z) (env : Env) (db : DB) (sess : Session)
    (req : shelter_requests.row) :
  session_truthy (admin_id sess) = true ->
  find_request req_id db = Some req ->
  terminal (shelter_requests.status req) ->
  let out := admin_shelter_request_approve req_id env db sess in
  if shelters_email_taken (shelter_requests.email req) (t_shelters db)
  then response out = raised IntegrityError /\ db_after out = db
  else response out = redirect ep_admin_shelter_requests
       /\ Sql.rows (t_shelters (db_after out))
          = (Sql.rows (t_shelters db)
               ++ [shelter_of_request env req (Sql.seq (t_shelters db) + 1)])%list
       /\ shelter_requests.status <$> find_request req_id (db_after out)
          = Some "APPROVED".
Proof.
  intros Hadm Hreq _ out. subst out.
  unfold admin_shelter_request_approve, require_admin, insert_shelter.
  rewrite Hadm, Hreq. simpl.
  destruct (shelters_email_taken _ _) eqn:E; simpl.
  - split; reflexivity.
  - repeat split.
    pose proof (find_request_set_status "APPROVED" req_id env
                  (set_shelters (fun _ => Sql.insert (shelter_of_request env req) (t_shelters db)) db))
      as F.
    unfold find_request in F |- *. simpl in F |- *. rewrite F.
    unfold find_request in Hreq. rewrite Hreq. reflexivity.
Qed.

(** C2 (as the code has it). Reject never looks at the status either.
    For a request already APPROVED or REJECTED it reports success and
    stores REJECTED with a fresh [reviewed_at], so an APPROVED request is
    overwritten; the shelters table and the other requests are left as
    they were. *)
Theorem reject_decided_request (req_id : Z) (env : Env) (db : DB) (sess : Session)
    (req : shelter_requests.row) :
  session_truthy (admin_id sess) = true ->
  find_request req_id db = Some req ->
  terminal (shelter_requests.status req) ->
  let out := admin_shelter_request_reject req_id env db sess in
  response out = redirect ep_admin_shelter_requests
  /\ flashed out = [flash "Cerere respinsa." "success"]
  /\ (exists r',
        find_request req_id (db_after out) = Some r'
        /\ shelter_requests.status r' = "REJECTED"
        /\ shelter_requests.reviewed_at r' = Some (now env))
  /\ t_shelters (db_after out) = t_shelters db
  /\ (forall r, In r (Sql.rows (t_shelter_requests db)) ->
                shelter_requests.id r <> req_id ->
                In r (Sql.rows (t_shelter_requests (db_after out)))).
Proof.
  intros Hadm Hreq _ out. subst out.
  unfold admin_shelter_request_reject, require_admin. rewrite Hadm. simpl.
  repeat split.
  - rewrite find_request_set_status, Hreq. simpl. eexists. repeat split.
  - intros r Hin Hne. apply set_status_other; assumption.
Qed.

(** ** Member registration *)

Lemma users_email_taken_insert (mk : Z -> users.row) (t : Sql.Table users.row) :
  users_email_taken (users.email (mk (Sql.seq t + 1))) (Sql.insert mk t) = true.
Proof.
  unfold users_email_taken, Sql.insert. simpl.
  rewrite existsb_app. simpl. rewrite String.eqb_refl.
  rewrite orb_true_r. reflexivity.
Qed.

(** C8. Two registrations posted with the same (normalised) email, both
    with a password and its matching confirmation, on a table where the
    email is free: the first inserts one row and redirects to the login
    page; the second is answered with the duplicate message and leaves
    the database as the first left it.  The duplicate is found by the
    insert itself, which raises [IntegrityError] on the unique column. *)
Theorem register_user_duplicate (env1 env2 : Env) (req1 req2 : Request) (db : DB)
    (sess : Session) :
  method req1 = POST -> method req2 = POST ->
  posted_email req2 = posted_email req1 ->
  Py.truthy (posted_email req1) = true ->
  Py.truthy (posted_password req1) = true ->
  posted_password2 req1 = posted_password req1 ->
  Py.truthy (posted_password req2) = true ->
  posted_password2 req2 = posted_password req2 ->
  users_email_taken (posted_email req1) (t_users db) = false ->
  let out1 := register_user env1 req1 db sess in
  let out2 := register_user env2 req2 (db_after out1) (session_after out1) in
  response out1 = redirect ep_login_utilizator
  /\ (exists u, Sql.rows (t_users (db_after out1)) = (Sql.rows (t_users db) ++ [u])%list
                /\ users.email u = posted_email req1)
  /\ response out2 = render_template "register_user.html"
  /\ flashed out2 = [flash "Exista deja un cont cu acest email." "error"]
  /\ db_after out2 = db_after out1
  /\ (forall mk : Z -> users.row,
        users.email (mk (Sql.seq (t_users (db_after out1)) + 1)) = posted_email req1 ->
        insert_user mk (t_users (db_after out1)) = inl IntegrityError).
Proof.
  intros Hm1 Hm2 He He1 Hp1 Hc1 Hp2 Hc2 Hfree out1 out2.
  assert (H1 : out1 = mkOutcome (redirect ep_login_utilizator)
                 [flash "Cont creat. Te poti autentifica." "success"]
                 (set_users (fun _ => Sql.insert (fun i =>
                    users.mk i (Py.strip (Py.or_default (form_get "first_name" req1) ""))
                      (Py.strip (Py.or_default (form_get "last_name" req1) ""))
                      (posted_email req1)
                      (Py.strip (Py.or_default (form_get "phone" req1) ""))
                      (generate_password_hash (salt env1) (posted_password req1)))
                    (t_users db)) db) sess).
  { subst out1. unfold register_user. rewrite Hm1.
    fold (posted_email req1) (posted_password req1) (posted_password2 req1).
    rewrite He1, Hp1, Hc1, String.eqb_refl. simpl.
    unfold insert_user. simpl. rewrite Hfree. reflexivity. }
  assert (Htaken : users_email_taken (posted_email req1) (t_users (db_after out1)) = true).
  { rewrite H1. simpl.
    apply (users_email_taken_insert (fun i => users.mk i _ _ (posted_email req1) _ _)). }
  assert (H2 : out2 = mkOutcome (render_template "register_user.html")
                 [flash "Exista deja un cont cu acest email." "error"]
                 (db_after out1) (session_after out1)).
  { subst out2. unfold register_user. rewrite Hm2.
    fold (posted_email req2) (posted_password req2) (posted_password2 req2).
    rewrite He, He1, Hp2, Hc2, String.eqb_refl. simpl.
    unfold insert_user. simpl. rewrite Htaken. reflexivity. }
  rewrite H2. simpl. rewrite H1. simpl. repeat split.
  - eexists. split; reflexivity.
  - intros mk Hmk. unfold insert_user. simpl. rewrite Hmk.
    rewrite H1 in Htaken. simpl in Htaken. rewrite Htaken. reflexivity.
Qed.

(** ** Routing a help intent *)

#[local] Instance by_urgency_trans : Transitive by_urgency.
Proof. intros a b c. unfold by_urgency. lia. Qed.

#[local] Instance by_urgency_total : Total by_urgency.
Proof. intros a b. unfold by_urgency. lia. Qed.


Lemma choose_shelter_auto (mode : string) (chosen : list string)
    (l : list shelters.row) :
  mode <> "manual" \/ chosen = [] ->
  choose_shelter mode chosen l
  = inr (match head l with Some s => shelters.id s | None => 0 end).
Proof.
  intros H. unfold choose_shelter.
  destruct H as [H| ->].
  - destruct (String.eqb_spec mode "manual"); [contradiction|reflexivity].
  - rewrite andb_false_r. reflexivity.
Qed.

(** C4 (as the code has it). With no shelter in the table, routing in
    automatic mode, or in manual mode without a selection, aims at
    shelter id 0.  When the amount is a number the view does not fail: it
    reports success and records a donation whose [shelter_id] is 0.  When
    the amount is NaN, which [float] accepts, the row breaks
    [amount NOT NULL]: the view dies with [IntegrityError] and nothing is
    recorded. *)
Theorem ajuta_no_shelters_records_zero (category_ : string) (env : Env)
    (req : Request) (db : DB) (sess : Session) (u : users.row) (amount : pyfloat) :
  str_in category_ ["materials"; "money"; "volunteer"] = true ->
  current_user db sess = Some u ->
  sqlite_int_ok (users.id u) = true ->
  method req = POST ->
  parse_amount req = inr amount ->
  posted_mode req <> "manual" \/ posted_shelter_ids req = [] ->
  Sql.rows (t_shelters db) = [] ->
  let out := ajuta_category category_ env req db sess in
  if pyfloat_is_nan amount
  then response out = raised IntegrityError /\ db_after out = db
  else
    response out = redirect ep_ajuta
    /\ flashed out = [flash "Multumim! Cererea ta a fost trimisa." "success"]
    /\ Sql.rows (t_donations (db_after out))
       = (Sql.rows (t_donations db)
            ++ [donations.mk (Sql.seq (t_donations db) + 1) (users.id u) category_ 0 amount
                  (Py.strip (Py.or_default (form_get "details" req) ""))
                  (Py.strip (Py.or_default (form_get "message" req) ""))
                  (now env)])%list.
Proof.
  intros Hcat Hu Hid Hm Ham Hmode Hnone out. subst out.
  unfold ajuta_category. rewrite Hcat, Hu, Hm, Ham. simpl.
  fold (posted_mode req) (posted_shelter_ids req).
  rewrite (choose_shelter_auto _ _ _ Hmode).
  unfold shelters_by_urgency. rewrite Hnone. simpl.
  unfold insert_donation. simpl. rewrite Hid. simpl.
  destruct (pyfloat_is_nan amount); simpl; repeat split.
Qed.


(** Ids are handed out in creation order: the shelter a new approval
    inserts gets an id above every id of the table. *)
Lemma new_shelter_id_largest (mk : Z -> shelters.row) (t : Sql.Table shelters.row) :
  shelters_keyed t ->
  (forall i, shelters.id (mk i) = i) ->
  forall r, In r (Sql.rows t) -> shelters.id r < shelters.id (mk (Sql.seq t + 1)).
Proof.
  intros (_ & _ & Hall) Hmk r Hin. rewrite Hmk.
  rewrite Forall_forall in Hall.
  specialize (Hall r (proj2 (list_elem_of_In _ _) Hin)). lia.
Qed.

(** ** The administrator's forced reset *)

Lemma init_db_seeded (env : Env) (db : DB) :
  Sql.rows (t_admins db) <> [] -> init_db env db = db.
Proof.
  intros Hne. unfold init_db, Sql.count.
  destruct (Sql.rows (t_admins db)); [contradiction|reflexivity].
Qed.

Lemma fetchone_select_some {R : Type} (p : R -> bool) (t : Sql.Table R) (r : R) :
  Sql.fetchone (Sql.select p t) = Some r -> In r (Sql.rows t) /\ p r = true.
Proof.
  unfold Sql.fetchone, Sql.select. intros H.
  apply filter_In. destruct (List.filter p (Sql.rows t)) eqn:E; [discriminate|].
  simpl in H. injection H as ->. simpl. left. reflexivity.
Qed.

Lemma fetchone_select_is_some {R : Type} (p : R -> bool) (t : Sql.Table R) (r : R) :
  In r (Sql.rows t) -> p r = true -> is_Some (Sql.fetchone (Sql.select p t)).
Proof.
  unfold Sql.fetchone, Sql.select. intros Hin Hp.
  assert (Hf : In r (List.filter p (Sql.rows t))) by (apply filter_In; auto).
  destruct (List.filter p (Sql.rows t)); [contradiction|]. eexists. reflexivity.
Qed.

(** C3 (as the code has it). The flag is read by the login view only.
    An administrator whose [must_reset_password] is 1 and who logs in
    with the right password is answered with a redirect to the reset
    page, and the session is bound.  From then on [require_admin] passes
    on the session alone, so the dashboard and the other administrative
    views answer normally whatever the database holds, the flag
    included.  A reset posted with a password and its matching
    confirmation stores 0 in the flag of the session's administrator and
    redirects to the dashboard, which stays reachable. *)
Theorem admin_reset_checked_at_login_only (env : Env) (db : DB) (sess : Session)
    (login reset : Request) (a : admins.row) :
  method login = POST ->
  find_admin (posted_username login) db = Some a ->
  check_password_hash (admins.password_hash a) (posted_password login) = true ->
  admins.must_reset_password a = 1 ->
  admins.id a <> 0 ->
  posted_password2 reset = posted_password reset ->
  let out1 := admin_login login db sess in
  let sess1 := session_after out1 in
  let out2 := admin_reset_password_save env reset db sess1 in
  response out1 = redirect ep_admin_reset_password
  /\ admin_id sess1 = Some (admins.id a)
  /\ db_after out1 = db
  /\ require_admin sess1 = None
  /\ (forall db0 : DB,
        response (admin_dashboard db0 sess1) = render_template "admin_dashboard.html"
        /\ response (admin_users db0 sess1) = render_template "admin_users.html"
        /\ response (admin_shelter_requests db0 sess1)
           = render_template "admin_shelter_requests.html")
  /\ response out2 = redirect ep_admin_dashboard
  /\ session_after out2 = sess1
  /\ (exists a', current_admin (db_after out2) sess1 = Some a'
                 /\ admins.id a' = admins.id a
                 /\ admins.must_reset_password a' = 0)
  /\ response (admin_dashboard (db_after out2) (session_after out2))
     = render_template "admin_dashboard.html".
Proof.
  intros Hm Hfind Hchk Hflag Hid Hconf out1 sess1 out2.
  assert (H1 : out1 = mkOutcome (redirect ep_admin_reset_password) [] db
                 (mkSession (user_id sess) (Some (admins.id a)) (shelter_id sess))).
  { subst out1. unfold admin_login. rewrite Hm.
    fold (posted_username login) (posted_password login).
    rewrite Hfind, Hchk. simpl.
    rewrite Hflag. reflexivity. }
  assert (Hs : session_truthy (admin_id sess1) = true).
  { subst sess1. rewrite H1. simpl. destruct (Z.eqb_spec (admins.id a) 0); [contradiction|reflexivity]. }
  assert (Hg : require_admin sess1 = None).
  { unfold require_admin. rewrite Hs. reflexivity. }
  assert (H2 : out2 = mkOutcome (redirect ep_admin_dashboard)
                 [flash "Parola actualizata." "success"]
                 (set_admins (Sql.update
                    (fun r => admins.id r =? default 0 (admin_id sess1))
                    (fun r => admins.mk (admins.id r) (admins.username r)
                       (generate_password_hash (salt env) (posted_password reset))
                       (admins.full_name r) (admins.email r) (admins.phone r) 0)) db)
                 sess1).
  { subst out2. unfold admin_reset_password_save. rewrite Hg.
    fold (posted_password reset) (posted_password2 reset).
    rewrite Hconf, String.eqb_refl. reflexivity. }
  rewrite H2. simpl.
  unfold admin_dashboard, admin_users, admin_shelter_requests. rewrite Hg.
  repeat split; try (subst sess1; rewrite H1; reflexivity).
  unfold current_admin. rewrite Hs. simpl.
  rewrite (fetch_after_update (fun r => admins.id r =? default 0 (admin_id sess1)))
    by reflexivity.
  unfold find_admin in Hfind. apply fetchone_select_some in Hfind as [Hin _].
  assert (Hp : (admins.id a =? default 0 (admin_id sess1)) = true).
  { subst sess1. rewrite H1. simpl. apply Z.eqb_refl. }
  destruct (fetchone_select_is_some
              (fun r => admins.id r =? default 0 (admin_id sess1)) _ a Hin Hp) as [a0 Ha0].
  rewrite Ha0. simpl. eexists. split; [reflexivity|]. simpl. split; [|reflexivity].
  apply fetchone_select_some in Ha0 as [_ Hq].
  apply Z.eqb_eq in Hq. apply Z.eqb_eq in Hp. congruence.
Qed.

(** ** Naming an uploaded photo *)

Lemma string_length_append (a b : string) :
  String.length (a ++ b) = (String.length a + String.length b)%nat.
Proof. induction a as [|c a IH]; simpl; [reflexivity|]. rewrite IH. reflexivity. Qed.

Lemma append_cancel_r (a b e : string) : (a ++ e = b ++ e)%string -> a = b.
Proof.
  intros H.
  assert (Hlen : String.length a = String.length b).
  { apply (f_equal String.length) in H.
    rewrite !string_length_append in H. lia. }
  revert b H Hlen. induction a as [|c a IH]; intros [|d b] H Hlen;
    simpl in *; try discriminate; [reflexivity|].
  injection H as -> H. f_equal. apply IH; [exact H|lia].
Qed.

Lemma str_of_nat_inj (i j : nat) : Py.str_of_nat i = Py.str_of_nat j -> i = j.
Proof.
  unfold Py.str_of_nat. intros H.
  apply (f_equal NilEmpty.uint_of_string) in H.
  rewrite !NilEmpty.usu in H. injection H as H.
  apply (f_equal Nat.of_uint) in H.
  rewrite !DecimalNat.Unsigned.of_to in H. exact H.
Qed.

Lemma candidate_name_inj (base ext_ : string) (i j : nat) :
  candidate_name base ext_ i = candidate_name base ext_ j -> i = j.
Proof.
  unfold candidate_name. intros H.
  apply (inj (String.app base)) in H.
  apply (inj (String.app "_")) in H.
  apply append_cancel_r in H. apply str_of_nat_inj, H.
Qed.

Lemma candidate_name_truthy (base ext_ : string) (i : nat) :
  Py.truthy (candidate_name base ext_ i) = true.
Proof.
  unfold candidate_name. destruct base; reflexivity.
Qed.

Lemma path_exists_false (st : Storage) (name : string) :
  path_exists st name = false -> st !! name = None /\ name <> "".
Proof.
  unfold path_exists. intros H. apply orb_false_iff in H as [Ht Hd].
  split.
  - apply bool_decide_eq_false in Hd. apply eq_None_not_Some. exact Hd.
  - intros ->. discriminate.
Qed.

(** The loop leaves through the first free candidate, given fuel for the
    tests up to it. *)
Lemma probe_steps (st : Storage) (base ext_ : string) (d : nat) :
  forall (i fuel : nat) (c : string),
    path_exists st c = true ->
    (forall j, (i <= j < i + d)%nat -> path_exists st (candidate_name base ext_ j) = true) ->
    path_exists st (candidate_name base ext_ (i + d)) = false ->
    (d + 2 <= fuel)%nat ->
    probe st base ext_ fuel c i = Some (candidate_name base ext_ (i + d)).
Proof.
  induction d as [|d IH]; intros i fuel c Hc Hbusy Hfree Hfuel.
  - destruct fuel as [|[|fuel]]; try lia. simpl. rewrite Hc.
    rewrite Nat.add_0_r in Hfree |- *. rewrite Hfree. reflexivity.
  - destruct fuel as [|fuel]; [lia|]. simpl. rewrite Hc.
    replace (i + S d)%nat with (S i + d)%nat in Hfree |- * by lia.
    apply IH; [apply Hbusy; lia| |exact Hfree|lia].
    intros j Hj. apply Hbusy. lia.
Qed.

(** Pigeonhole: [n + 1] consecutive candidates cannot all be in a folder
    of [n] files. *)
Lemma candidates_not_all_present (st : Storage) (base ext_ : string) (i : nat) :
  ~ (forall d, (d <= size st)%nat ->
       path_exists st (candidate_name base ext_ (i + d)) = true).
Proof.
  intros Hall.
  set (l := (fun d => candidate_name base ext_ (i + d)) <$> seq 0 (S (size st))).
  assert (Hnd : NoDup l).
  { apply NoDup_fmap_2; [|apply NoDup_seq].
    intros x y Hxy. apply candidate_name_inj in Hxy. lia. }
  assert (Hsub : (list_to_set l : gset string) ⊆ dom st).
  { intros x Hx. apply elem_of_list_to_set in Hx.
    apply list_elem_of_fmap in Hx as (d & -> & Hd).
    apply elem_of_seq in Hd. apply elem_of_dom.
    specialize (Hall d ltac:(lia)). unfold path_exists in Hall.
    rewrite candidate_name_truthy in Hall. simpl in Hall.
    apply bool_decide_eq_true in Hall. exact Hall. }
  apply subseteq_size in Hsub.
  rewrite size_list_to_set in Hsub by exact Hnd.
  rewrite size_dom in Hsub. subst l.
  rewrite length_fmap, length_seq in Hsub. lia.
Qed.

Lemma first_free_candidate (st : Storage) (base ext_ : string) (i : nat) :
  exists d, (d <= size st)%nat
    /\ path_exists st (candidate_name base ext_ (i + d)) = false
    /\ forall j, (i <= j < i + d)%nat ->
         path_exists st (candidate_name base ext_ j) = true.
Proof.
  assert (Hsearch : forall n,
    (forall d, (d <= n)%nat -> path_exists st (candidate_name base ext_ (i + d)) = true)
    \/ exists d, (d <= n)%nat
         /\ path_exists st (candidate_name base ext_ (i + d)) = false
         /\ forall j, (i <= j < i + d)%nat ->
              path_exists st (candidate_name base ext_ j) = true).
  { induction n as [|n [IH|(d & Hd & Hfree & Hbusy)]].
    - destruct (path_exists st (candidate_name base ext_ (i + 0))) eqn:E.
      + left. intros d Hd. replace d with 0%nat by lia. exact E.
      + right. exists 0%nat. split; [lia|]. split; [exact E|]. intros j Hj. lia.
    - destruct (path_exists st (candidate_name base ext_ (i + S n))) eqn:E.
      + left. intros d Hd. destruct (decide (d = S n)) as [->|]; [exact E|].
        apply IH. lia.
      + right. exists (S n). split; [lia|]. split; [exact E|].
        intros j Hj. replace j with (i + (j - i))%nat by lia. apply IH. lia.
    - right. exists d. split; [lia|]. split; assumption. }
  destruct (Hsearch (size st)) as [Hall|H]; [|exact H].
  exfalso. exact (candidates_not_all_present st base ext_ i Hall).
Qed.

Lemma take_drop (n : nat) (p : string) : (Py.take n p ++ Py.drop n p)%string = p.
Proof.
  revert p. induction n as [|n IH]; intros [|c p]; try reflexivity.
  change (String c (Py.take n p ++ Py.drop n p) = String c p).
  f_equal. apply IH.
Qed.

Lemma append_empty_r (p : string) : (p ++ "")%string = p.
Proof.
  induction p as [|c p IH]; [reflexivity|].
  change (String c (p ++ "") = String c p). f_equal. exact IH.
Qed.

(** [splitext] cuts the name in two: root and extension side by side are
    the name again. *)
Lemma splitext_join (p : string) :
  (fst (Py.splitext p) ++ snd (Py.splitext p))%string = p.
Proof.
  unfold Py.splitext.
  destruct (Py.rfind "/" p <? Py.rfind "." p); simpl.
  - destruct (Py.has_non_dot _ _); simpl.
    + apply take_drop.
    + apply append_empty_r.
  - apply append_empty_r.
Qed.

Lemma contains_app (c : ascii) (a b : string) :
  Py.contains c (a ++ b) = Py.contains c a || Py.contains c b.
Proof.
  induction a as [|d a IH]; simpl; [reflexivity|].
  destruct (Ascii.eqb d c); [reflexivity|exact IH].
Qed.

Lemma rfind_from_absent (c : ascii) (s : string) (i : Z) :
  Py.contains c s = false -> Py.rfind_from c s i = -1.
Proof.
  revert i. induction s as [|d t IH]; intros i; simpl; [reflexivity|].
  destruct (Ascii.eqb d c); [discriminate|]. intros H. rewrite (IH _ H). reflexivity.
Qed.

Lemma rfind_from_last (c : ascii) (a e : string) (i : Z) :
  0 <= i -> Py.contains c e = false ->
  Py.rfind_from c (a ++ String c e) i = i + Z.of_nat (String.length a).
Proof.
  revert i. induction a as [|d a IH]; intros i Hi He.
  - simpl. rewrite (rfind_from_absent _ _ _ He). simpl.
    rewrite Ascii.eqb_refl. lia.
  - change (Py.rfind_from c (String d (a ++ String c e)) i
            = i + Z.of_nat (S (String.length a))).
    simpl Py.rfind_from. rewrite (IH (i + 1) ltac:(lia) He).
    destruct (Z.leb_spec 0 (i + 1 + Z.of_nat (String.length a))); lia.
Qed.

Lemma take_length_app (a b : string) : Py.take (String.length a) (a ++ b) = a.
Proof.
  induction a as [|c a IH]; [destruct b; reflexivity|].
  change (String c (Py.take (String.length a) (a ++ b)) = String c a). f_equal. exact IH.
Qed.

Lemma drop_length_app (a b : string) : Py.drop (String.length a) (a ++ b) = b.
Proof.
  induction a as [|c a IH]; [destruct b; reflexivity|]. exact IH.
Qed.

Lemma has_non_dot_app (a b : string) :
  Py.has_non_dot (String.length a) (a ++ b) = Py.has_non_dot (String.length a) a.
Proof.
  induction a as [|c a IH]; [destruct b; reflexivity|].
  change (Py.has_non_dot (S (String.length a)) (String c (a ++ b))
          = Py.has_non_dot (S (String.length a)) (String c a)).
  simpl. destruct (Ascii.eqb c "."); [exact IH|reflexivity].
Qed.

(** Where [splitext] cuts: a name without a slash that ends in a dot and
    an extension free of dots, the part before that dot not being made of
    dots only, is cut at that dot, which goes with the extension. *)
Lemma splitext_at_last_dot (stem e : string) :
  Py.contains "/" (stem ++ "." ++ e) = false ->
  Py.contains "." e = false ->
  Py.has_non_dot (String.length stem) stem = true ->
  Py.splitext (stem ++ "." ++ e) = (stem, ("." ++ e)%string).
Proof.
  intros Hslash Hdot Hstem. unfold Py.splitext, Py.rfind.
  rewrite (rfind_from_absent _ _ _ Hslash).
  change (stem ++ "." ++ e)%string with (stem ++ String "." e)%string.
  rewrite (rfind_from_last "." stem e 0 ltac:(lia) Hdot).
  destruct (Z.ltb_spec (-1) (0 + Z.of_nat (String.length stem))); [|lia].
  replace (Z.to_nat (0 + Z.of_nat (String.length stem) - (-1 + 1)))
    with (String.length stem) by lia.
  replace (Z.to_nat (-1 + 1)) with 0%nat by lia.
  replace (Z.to_nat (0 + Z.of_nat (String.length stem))) with (String.length stem) by lia.
  change (Py.drop 0 (stem ++ String "." e)) with (stem ++ String "." e)%string.
  rewrite has_non_dot_app, Hstem, take_length_app, drop_length_app. reflexivity.
Qed.

(** C9. For an upload whose file name passes [allowed_file] and any
    upload folder, the loop ends within [size st + 2] tests of the
    condition.  The name returned is the sanitised name when no file of
    the folder has it, and otherwise [base_k ext] for the least [k >= 1]
    whose name is free, where [base] and [ext] are the two halves
    [splitext] cuts the sanitised name into.  That name is not in the
    folder, the upload is written under it, and every file already there
    keeps its contents.  The suffix goes before the extension: when the
    sanitised name is [stem.e], without a slash, [e] without a dot and
    [stem] not made of dots only, [base] is [stem], [ext] is [.e], and
    the name returned is [stem.e] itself or [stem_k.e]. *)
Theorem save_uploaded_photo_fresh_name (f : FileStorage) (st : Storage) (fuel : nat) :
  allowed_file (filename f) = true ->
  (size st + 2 <= fuel)%nat ->
  let fname := secure_filename (filename f) in
  let base := fst (Py.splitext fname) in
  let ext_ := snd (Py.splitext fname) in
  exists name,
    save_uploaded_photo fuel (Some f) st = Some (name, <[name := stream f]> st, [])
    /\ st !! name = None
    /\ path_exists st name = false
    /\ (forall n c, st !! n = Some c -> (<[name := stream f]> st) !! n = Some c)
    /\ (<[name := stream f]> st) !! name = Some (stream f)
    /\ (base ++ ext_)%string = fname
    /\ ((path_exists st fname = false /\ name = fname)
        \/ (path_exists st fname = true
            /\ exists k, (1 <= k)%nat
                 /\ name = candidate_name base ext_ k
                 /\ forall j, (1 <= j < k)%nat ->
                      path_exists st (candidate_name base ext_ j) = true))
    /\ (forall stem e,
          fname = (stem ++ "." ++ e)%string ->
          Py.contains "/" fname = false ->
          Py.contains "." e = false ->
          Py.has_non_dot (String.length stem) stem = true ->
          base = stem /\ ext_ = ("." ++ e)%string
          /\ (name = (stem ++ "." ++ e)%string
              \/ exists k, (1 <= k)%nat
                   /\ name = (stem ++ "_" ++ Py.str_of_nat k ++ "." ++ e)%string)).
Proof.
  intros Hok Hfuel fname base ext_.
  assert (Hname : Py.truthy (filename f) = true).
  { unfold allowed_file in Hok. destruct (filename f); [discriminate|reflexivity]. }
  assert (Hrun : forall name,
            probe st base ext_ fuel fname 1%nat = Some name ->
            save_uploaded_photo fuel (Some f) st = Some (name, <[name := stream f]> st, [])).
  { intros name Hp. unfold save_uploaded_photo. rewrite Hname, Hok. simpl.
    fold fname. subst base ext_. destruct (Py.splitext fname) as [b e]. simpl in Hp.
    rewrite Hp. reflexivity. }
  assert (Hgoal : exists name,
            probe st base ext_ fuel fname 1%nat = Some name
            /\ path_exists st name = false
            /\ ((path_exists st fname = false /\ name = fname)
                \/ (path_exists st fname = true
                    /\ exists k, (1 <= k)%nat
                         /\ name = candidate_name base ext_ k
                         /\ forall j, (1 <= j < k)%nat ->
                              path_exists st (candidate_name base ext_ j) = true))).
  { destruct (path_exists st fname) eqn:E.
    - destruct (first_free_candidate st base ext_ 1) as (d & Hd & Hfree & Hbusy).
      exists (candidate_name base ext_ (1 + d)). split; [|split].
      + apply probe_steps; [exact E|exact Hbusy|exact Hfree|lia].
      + exact Hfree.
      + right. split; [reflexivity|]. exists (1 + d)%nat.
        split; [lia|]. split; [reflexivity|exact Hbusy].
    - exists fname. split; [|split].
      + destruct fuel as [|fuel']; [lia|]. simpl. rewrite E. reflexivity.
      + exact E.
      + left. split; reflexivity. }
  destruct Hgoal as (name & Hp & Hfree & Hwhich).
  exists name. destruct (path_exists_false st name Hfree) as [Hnone _].
  split; [apply Hrun, Hp|]. split; [exact Hnone|]. split; [exact Hfree|].
  split; [|split; [|split; [|split]]].
  - intros n c Hn. rewrite lookup_insert_ne; [exact Hn|]. congruence.
  - apply lookup_insert_eq.
  - apply splitext_join.
  - exact Hwhich.
  - intros stem e Hshape Hslash Hdot Hstem.
    assert (Hcut : Py.splitext fname = (stem, ("." ++ e)%string)).
    { rewrite Hshape. rewrite Hshape in Hslash.
      apply splitext_at_last_dot; assumption. }
    assert (Hb : base = stem) by (subst base; rewrite Hcut; reflexivity).
    assert (He : ext_ = ("." ++ e)%string) by (subst ext_; rewrite Hcut; reflexivity).
    split; [exact Hb|]. split; [exact He|].
    destruct Hwhich as [[_ ->]|(_ & k & Hk & -> & _)].
    + left. exact Hshape.
    + right. exists k. split; [exact Hk|]. rewrite Hb, He. reflexivity.
Qed.

End Properties.

(** * The views on concrete requests *)

Example allowed_file_ex :
  allowed_file "cat.png" = true /\ allowed_file "CAT.JPeG" = true
  /\ allowed_file "a.b.WEBP" = true /\ allowed_file "cat.gif" = false
  /\ allowed_file "png" = false /\ allowed_file "cat.png." = false.
Proof. repeat split; reflexivity. Qed.

Example shelters_by_urgency_ex :
  List.map shelters.id (shelters_by_urgency db_three_shelters) = [2; 3; 1].
Proof. vm_compute. reflexivity. Qed.

(** C7 on a concrete request: rejecting request 99, which the table does
    not hold, is answered like a rejection that took place, success
    message and redirect, with the database unchanged; approving the same
    id is answered 404. *)
Example reject_missing_request_reports_success :
  find_request 99 db_pending = None
  /\ admin_shelter_request_reject 99 demo_env db_pending admin_session
     = mkOutcome (redirect ep_admin_shelter_requests)
         [flash "Cerere respinsa." "success"] db_pending admin_session
  /\ response (admin_shelter_request_approve 99 demo_env db_pending admin_session)
     = abort 404.
Proof. repeat split; reflexivity. Qed.

(** C1 fails as stated: the application is rejected, then approved; the
    approval is answered as a success and the shelters table, empty
    before, holds a row afterwards. *)
Lemma approve_after_reject_adds_shelter :
  let out := admin_shelter_request_approve 1 demo_env db_rejected admin_session in
  shelter_requests.status <$> find_request 1 db_rejected = Some "REJECTED"
  /\ Sql.rows (t_shelters db_rejected) = []
  /\ response out = redirect ep_admin_shelter_requests
  /\ List.map shelters.email (Sql.rows (t_shelters (db_after out))) = ["casa@example.org"]
  /\ t_shelters (db_after out) <> t_shelters db_rejected
  /\ shelter_requests.status <$> find_request 1 (db_after out) = Some "APPROVED".
Proof.
  repeat split; try reflexivity. intros H. discriminate H.
Qed.

Lemma approve_decided_request_witness :
  let out := admin_shelter_request_approve 1 demo_env db_rejected admin_session in
  response out = redirect ep_admin_shelter_requests
  /\ Sql.rows (t_shelters (db_after out))
     = [shelter_of_request demo_env
          (shelter_requests.mk 1 "Casa Cu Labute" "casa@example.org" "0700" "Str. Lunga 1"
             "adapost" "" "" "salt$parola" "General" 1 "REJECTED" "2024-01-01 00:00:00"
             (Some "2024-01-01 00:00:00")) 1]
  /\ shelter_requests.status <$> find_request 1 (db_after out) = Some "APPROVED".
Proof.
  refine (approve_decided_request 1 demo_env db_rejected admin_session _ _ _ _).
  - reflexivity.
  - reflexivity.
  - right. reflexivity.
Defined.

(** The other branch of the same statement: approving the approved
    application again, its shelter still in the table, dies on the unique
    email and writes nothing. *)
Example approve_twice_integrity_error :
  admin_shelter_request_approve 1 demo_env db_approved admin_session
  = mkOutcome (raised IntegrityError) [] db_approved admin_session.
Proof. reflexivity. Qed.

(** Once that shelter is deleted, a further approval inserts a second
    one for the same application. *)
Example approve_after_delete_adds_second_shelter :
  let db1 := db_after (admin_shelter_delete 1 db_approved admin_session) in
  let out := admin_shelter_request_approve 1 demo_env db1 admin_session in
  response out = redirect ep_admin_shelter_requests
  /\ List.map shelters.id (Sql.rows (t_shelters (db_after out))) = [2].
Proof. split; reflexivity. Qed.

(** C2 fails as stated: the application is approved, then rejected; the
    rejection is answered as a success and the stored status goes from
    APPROVED to REJECTED, while the shelter created by the approval
    stays. *)
Lemma reject_after_approve_overwrites_status :
  let out := admin_shelter_request_reject 1 demo_env db_approved admin_session in
  shelter_requests.status <$> find_request 1 db_approved = Some "APPROVED"
  /\ response out = redirect ep_admin_shelter_requests
  /\ flashed out = [flash "Cerere respinsa." "success"]
  /\ shelter_requests.status <$> find_request 1 (db_after out) = Some "REJECTED"
  /\ List.map shelters.email (Sql.rows (t_shelters (db_after out))) = ["casa@example.org"].
Proof. repeat split; reflexivity. Qed.

Lemma reject_decided_request_witness :
  let out := admin_shelter_request_reject 1 demo_env db_approved admin_session in
  response out = redirect ep_admin_shelter_requests
  /\ exists r', find_request 1 (db_after out) = Some r'
                /\ shelter_requests.status r' = "REJECTED"
                /\ shelter_requests.reviewed_at r' = Some (now demo_env).
Proof.
  pose proof (reject_decided_request 1 demo_env db_approved admin_session
                (shelter_requests.mk 1 "Casa Cu Labute" "casa@example.org" "0700"
                   "Str. Lunga 1" "adapost" "" "" "salt$parola" "General" 1 "APPROVED"
                   "2024-01-01 00:00:00" (Some "2024-01-01 00:00:00"))
                eq_refl eq_refl (or_introl eq_refl)) as H.
  split; [exact (proj1 H)|exact (proj1 (proj2 (proj2 H)))].
Defined.

Lemma approve_copies_request_witness :
  let db' := db_after (admin_shelter_request_approve 1 demo_env db_pending admin_session) in
  (exists sh, Sql.rows (t_shelters db') = [sh]
              /\ shelters.password_hash sh = "salt$parola"
              /\ shelters.email sh = "casa@example.org")
  /\ shelter_requests.status <$> find_request 1 db' = Some "APPROVED".
Proof.
  destruct (approve_copies_request 1 demo_env db_pending admin_session demo_request
              eq_refl eq_refl) as [(sh & Hrows & Hf) (r' & Hr' & Hst & _)].
  split.
  - exists sh. split; [exact Hrows|]. split; [apply Hf|apply Hf].
  - rewrite Hr'. simpl. rewrite Hst. reflexivity.
Defined.

(** C3 fails as stated: on a fresh database [init_db] seeds the
    administrator with the flag set; the administrator logs in and is
    sent to the reset page, then asks for the dashboard without having
    reset anything: the dashboard is rendered, and the flag is still 1. *)
Lemma dashboard_reachable_before_reset :
  let out1 := served (ext := demo_externals) demo_env
                (admin_login (ext := demo_externals) login_as_admin) empty_db no_session in
  let out2 := served (ext := demo_externals) demo_env admin_dashboard
                (db_after out1) (session_after out1) in
  response out1 = redirect ep_admin_reset_password
  /\ admins.must_reset_password <$> current_admin (db_after out1) (session_after out1)
     = Some 1
  /\ response out2 = render_template "admin_dashboard.html"
  /\ response out2 <> redirect ep_admin_reset_password
  /\ admins.must_reset_password <$> current_admin (db_after out2) (session_after out2)
     = Some 1.
Proof. repeat split; try reflexivity. intros H; discriminate H. Qed.

Lemma admin_reset_checked_at_login_only_witness :
  let db := init_db (ext := demo_externals) demo_env empty_db in
  let out1 := admin_login (ext := demo_externals) login_as_admin db no_session in
  let out2 := admin_reset_password_save (ext := demo_externals) demo_env reset_request db
                (session_after out1) in
  response out1 = redirect ep_admin_reset_password
  /\ response (admin_dashboard db (session_after out1))
     = render_template "admin_dashboard.html"
  /\ admins.must_reset_password <$> current_admin (db_after out2) (session_after out1)
     = Some 0.
Proof.
  pose proof (admin_reset_checked_at_login_only (ext := demo_externals) demo_env
                (init_db (ext := demo_externals) demo_env empty_db) no_session
                login_as_admin reset_request
                (admins.mk 1 "admin" "s0$admin" "Admin" "admin@local" "" 1)
                eq_refl eq_refl eq_refl eq_refl ltac:(discriminate) eq_refl) as H.
  cbv zeta in H.
  destruct H as (H1 & _ & _ & _ & Hd & _ & _ & (a' & Ha' & _ & Hflag) & _).
  split; [exact H1|]. split; [apply Hd|].
  rewrite Ha'. simpl. rewrite Hflag. reflexivity.
Defined.

(** C4 fails as stated: a logged-in member posts a help intent in
    automatic mode while the shelters table is empty; the view answers
    with the success message and the donations table receives a row
    whose [shelter_id] is 0. *)
Lemma ajuta_without_shelters_records_id_zero :
  let out := ajuta_category (ext := demo_externals) "money" demo_env help_auto
               db_no_shelters member_session in
  Sql.rows (t_shelters db_no_shelters) = []
  /\ response out = redirect ep_ajuta
  /\ flashed out = [flash "Multumim! Cererea ta a fost trimisa." "success"]
  /\ Sql.rows (t_donations (db_after out))
     = [donations.mk 1 1 "money" 0 (float_of_int 0) "" "" "2024-01-01 00:00:00"].
Proof. repeat split; reflexivity. Qed.

Lemma ajuta_no_shelters_records_zero_witness :
  let out := ajuta_category (ext := demo_externals) "volunteer" demo_env
               (mkRequest POST [("mode", "manual"); ("message", " vin sambata ")] [])
               db_no_shelters member_session in
  response out = redirect ep_ajuta
  /\ List.map donations.shelter_id (Sql.rows (t_donations (db_after out))) = [0].
Proof.
  pose proof (ajuta_no_shelters_records_zero (ext := demo_externals) "volunteer" demo_env
                (mkRequest POST [("mode", "manual"); ("message", " vin sambata ")] [])
                db_no_shelters member_session demo_user (float_of_int 0)
                eq_refl eq_refl eq_refl eq_refl eq_refl (or_intror eq_refl) eq_refl) as H.
  cbv zeta in H. simpl pyfloat_is_nan in H. cbv iota in H. destruct H as (H1 & _ & H3).
  split; [exact H1|]. rewrite H3. reflexivity.
Defined.


Example ajuta_auto_picks_level_5 :
  List.map donations.shelter_id
    (Sql.rows (t_donations (db_after
       (ajuta_category (ext := demo_externals) "materials" demo_env help_auto
          db_three_shelters member_session)))) = [2].
Proof. vm_compute. reflexivity. Qed.

Lemma register_user_duplicate_witness :
  let out1 := register_user (ext := demo_externals) demo_env register_ana empty_db no_session in
  let out2 := register_user (ext := demo_externals) demo_env register_ana_again
                (db_after out1) (session_after out1) in
  response out1 = redirect ep_login_utilizator
  /\ response out2 = render_template "register_user.html"
  /\ flashed out2 = [flash "Exista deja un cont cu acest email." "error"]
  /\ db_after out2 = db_after out1.
Proof.
  pose proof (register_user_duplicate (ext := demo_externals) demo_env demo_env
                register_ana register_ana_again empty_db no_session
                eq_refl eq_refl eq_refl eq_refl eq_refl eq_refl eq_refl eq_refl eq_refl)
    as H.
  cbv zeta in H. destruct H as (H1 & _ & H2 & H3 & H4 & _).
  split; [exact H1|]. split; [exact H2|]. split; [exact H3|exact H4].
Defined.

Example register_twice_rows :
  let out1 := register_user (ext := demo_externals) demo_env register_ana empty_db no_session in
  let out2 := register_user (ext := demo_externals) demo_env register_ana_again
                (db_after out1) (session_after out1) in
  List.map users.email (Sql.rows (t_users (db_after out2))) = ["ana@example.org"].
Proof. reflexivity. Qed.

Lemma save_uploaded_photo_fresh_name_witness :
  save_uploaded_photo (ext := demo_externals) 4 (Some (mkFile "cat.png" "third")) demo_folder
  = Some ("cat_2.png", <["cat_2.png" := "third"]> demo_folder, [])
  /\ demo_folder !! "cat_2.png" = None
  /\ Py.splitext "cat.png" = ("cat", ".png").
Proof.
  assert (Hfuel : (size demo_folder + 2 <= 4)%nat) by (vm_compute; lia).
  destruct (save_uploaded_photo_fresh_name (ext := demo_externals)
              (mkFile "cat.png" "third") demo_folder 4 eq_refl Hfuel)
    as (name & Hsave & Hnone & _ & _ & _ & _ & _ & Hcut).
  destruct (Hcut "cat" "png" eq_refl eq_refl eq_refl eq_refl) as (Hb & He & Hname).
  assert (Hrun : save_uploaded_photo (ext := demo_externals) 4
                   (Some (mkFile "cat.png" "third")) demo_folder
                 = Some ("cat_2.png", <["cat_2.png" := "third"]> demo_folder, []))
    by (vm_compute; reflexivity).
  assert (Hn : name = "cat_2.png") by congruence.
  rewrite Hn in Hnone. split; [exact Hrun|]. split; [exact Hnone|].
  simpl in Hb, He. apply injective_projections; simpl; assumption.
Defined.

(** Two uploads called [cat.png] into an empty folder: the second is
    stored as [cat_1.png] and the first keeps its bytes; a third goes to
    [cat_2.png]. *)
Example upload_same_name_twice :
  save_uploaded_photo (ext := demo_externals) 1 (Some (mkFile "cat.png" "first")) ∅
  = Some ("cat.png", <["cat.png" := "first"]> ∅, [])
  /\ save_uploaded_photo (ext := demo_externals) 2 (Some (mkFile "cat.png" "second"))
       (<["cat.png" := "first"]> ∅)
     = Some ("cat_1.png", demo_folder, [])
  /\ (fst <$> (fst <$> save_uploaded_photo (ext := demo_externals) 3
                 (Some (mkFile "cat.png" "third")) demo_folder))
     = Some "cat_2.png"
  /\ demo_folder !! "cat.png" = Some "first".
Proof. repeat split; vm_compute; reflexivity. Qed.

Lemma login_adapost_empty_hash_witness :
  let out := login_adapost (ext := demo_externals) login_legacy_shelter
               db_legacy_shelter no_session in
  response out = render_template "login_shelter.html"
  /\ session_after out = no_session
  /\ flashed out
     = [flash "Email sau parola incorecte (sau adapostul nu e aprobat)." "error"].
Proof.
  assert (Huniq : shelters_unique (t_shelters db_legacy_shelter)).
  { unfold shelters_unique. simpl. apply NoDup_cons. split; [|apply NoDup_nil; exact I].
    intros H. inversion H. }
  pose proof (login_adapost_empty_hash (ext := demo_externals) db_legacy_shelter no_session
                login_legacy_shelter
                (shelters.mk 1 "Vechi" "vechi@example.org" "" "" "" "" "" ""
                   "General" 0 1 "2023-01-01 00:00:00")
                Huniq (or_introl eq_refl) eq_refl eq_refl eq_refl) as H.
  cbv zeta in H. destruct H as (H1 & H2 & _ & H4).
  split; [exact H1|]. split; [exact H2|]. apply H4; reflexivity.
Defined.

(** * Further properties of the views *)

Lemma filter_existsb_false {R : Type} (p : R -> bool) (l : list R) :
  existsb p l = false -> List.filter p l = [].
Proof.
  induction l as [|x l IH]; simpl; [reflexivity|].
  intros H. apply orb_false_iff in H as [Hx Hl]. rewrite Hx. apply IH, Hl.
Qed.

Lemma filter_nil_existsb {R : Type} (p : R -> bool) (l : list R) :
  List.filter p l = [] -> existsb p l = false.
Proof.
  induction l as [|x l IH]; simpl; [reflexivity|].
  destruct (p x); [discriminate|]. exact IH.
Qed.

(** The first row a [SELECT ... WHERE q] returns, after an [UPDATE] that
    keeps [q]. *)
Lemma fetch_select_update {R : Type} (p q : R -> bool) (f : R -> R)
    (t : Sql.Table R) (a : R) :
  (forall r, q (f r) = q r) ->
  Sql.fetchone (Sql.select q t) = Some a ->
  Sql.fetchone (Sql.select q (Sql.update p f t)) = Some (if p a then f a else a).
Proof.
  intros Hq. unfold Sql.fetchone, Sql.select, Sql.update. simpl.
  induction (Sql.rows t) as [|x l IH]; simpl; [discriminate|].
  destruct (q x) eqn:E.
  - simpl. intros H. injection H as <-.
    destruct (p x); [rewrite Hq|]; rewrite E; reflexivity.
  - intros H. destruct (p x); [rewrite Hq|]; rewrite E; apply IH, H.
Qed.

Lemma fetch_select_update_none {R : Type} (p q : R -> bool) (f : R -> R)
    (t : Sql.Table R) :
  (forall r, q (f r) = q r) ->
  Sql.fetchone (Sql.select q t) = None ->
  Sql.fetchone (Sql.select q (Sql.update p f t)) = None.
Proof.
  intros Hq. unfold Sql.fetchone, Sql.select, Sql.update. simpl.
  induction (Sql.rows t) as [|x l IH]; simpl; [reflexivity|].
  destruct (q x) eqn:E; [discriminate|].
  intros H. destruct (p x); [rewrite Hq|]; rewrite E; apply IH, H.
Qed.

Lemma existsb_key_false_Z {R : Type} (key : R -> Z) (l : list R) (k : Z) :
  ~ In k (List.map key l) -> existsb (fun x => key x =? k) l = false.
Proof.
  induction l as [|x l IH]; simpl; [reflexivity|].
  intros H. apply orb_false_iff. split.
  - apply Z.eqb_neq. intros E. apply H. left. exact E.
  - apply IH. intros Hin. apply H. right. exact Hin.
Qed.

Section MoreProperties.
Context {ext : Externals}.

(** ** Sessions and logins *)

(** X1. The three identities are independent: whatever a member login or
    logout, a shelter login or logout, or an administrator login or
    logout answers, it leaves the two session keys of the other roles
    and the database as they were. *)
Theorem session_roles_independent (req : Request) (db : DB) (sess : Session) :
  (let out := login_utilizator req db sess in
   admin_id (session_after out) = admin_id sess
   /\ shelter_id (session_after out) = shelter_id sess /\ db_after out = db)
  /\ (let out := logout db sess in
      user_id (session_after out) = None
      /\ admin_id (session_after out) = admin_id sess
      /\ shelter_id (session_after out) = shelter_id sess /\ db_after out = db)
  /\ (let out := login_adapost req db sess in
      user_id (session_after out) = user_id sess
      /\ admin_id (session_after out) = admin_id sess /\ db_after out = db)
  /\ (let out := logout_adapost db sess in
      shelter_id (session_after out) = None
      /\ user_id (session_after out) = user_id sess
      /\ admin_id (session_after out) = admin_id sess /\ db_after out = db)
  /\ (let out := admin_login req db sess in
      user_id (session_after out) = user_id sess
      /\ shelter_id (session_after out) = shelter_id sess /\ db_after out = db)
  /\ (let out := admin_logout db sess in
      admin_id (session_after out) = None
      /\ user_id (session_after out) = user_id sess
      /\ shelter_id (session_after out) = shelter_id sess /\ db_after out = db).
Proof.
  repeat apply conj; try reflexivity.
  all: unfold login_utilizator, login_adapost, admin_login; destruct (method req); simpl;
    repeat match goal with
           | |- context [if ?b then _ else _] => destruct b; simpl
           | |- context [match ?o with Some _ => _ | None => _ end] => destruct o; simpl
           end; reflexivity.
Qed.

(** X2. A login binds a session key only to a row it has verified.  If
    the member login changes [user_id], the new value is the id of a
    row of [users] that carries the posted email and whose hash accepts
    the posted password; likewise for the shelter login, whose row must
    also have a non-empty hash, and for the administrator login on the
    posted username. *)
Theorem login_binds_verified_row (req : Request) (db : DB) (sess : Session) :
  (user_id (session_after (login_utilizator req db sess)) <> user_id sess ->
   exists u, In u (Sql.rows (t_users db))
     /\ users.email u = posted_email req
     /\ check_password_hash (users.password_hash u) (posted_password req) = true
     /\ user_id (session_after (login_utilizator req db sess)) = Some (users.id u))
  /\ (shelter_id (session_after (login_adapost req db sess)) <> shelter_id sess ->
      exists s, In s (Sql.rows (t_shelters db))
        /\ shelters.email s = posted_email req
        /\ shelters.password_hash s <> ""
        /\ check_password_hash (shelters.password_hash s) (posted_password req) = true
        /\ shelter_id (session_after (login_adapost req db sess)) = Some (shelters.id s))
  /\ (admin_id (session_after (admin_login req db sess)) <> admin_id sess ->
      exists a, In a (Sql.rows (t_admins db))
        /\ admins.username a = posted_username req
        /\ check_password_hash (admins.password_hash a) (posted_password req) = true
        /\ admin_id (session_after (admin_login req db sess)) = Some (admins.id a)).
Proof.
  split; [|split].
  - unfold login_utilizator.
    fold (posted_email req) (posted_password req).
    destruct (method req); simpl; [congruence|].
    destruct (negb (Py.truthy (posted_email req)) || negb (Py.truthy (posted_password req)));
      simpl; [congruence|].
    destruct (Sql.fetchone _) as [u|] eqn:E; simpl; [|congruence].
    destruct (check_password_hash _ _) eqn:C; simpl; [|congruence].
    intros _. apply fetchone_select_some in E as [Hin He].
    exists u. apply String.eqb_eq in He. auto.
  - unfold login_adapost.
    fold (posted_email req) (posted_password req).
    destruct (method req); simpl; [congruence|].
    destruct (negb (Py.truthy (posted_email req)) || negb (Py.truthy (posted_password req)));
      simpl; [congruence|].
    destruct (Sql.fetchone _) as [s|] eqn:E; simpl; [|congruence].
    destruct (Py.truthy (shelters.password_hash s)) eqn:T; simpl; [|congruence].
    destruct (check_password_hash _ _) eqn:C; simpl; [|congruence].
    intros _. apply fetchone_select_some in E as [Hin He].
    exists s. apply String.eqb_eq in He. repeat split; auto.
    intros Hempty. rewrite Hempty in T. discriminate.
  - unfold admin_login, find_admin.
    fold (posted_username req) (posted_password req).
    destruct (method req); simpl; [congruence|].
    destruct (Sql.fetchone _) as [a|] eqn:E; simpl; [|congruence].
    destruct (check_password_hash _ _) eqn:C; simpl; [|congruence].
    apply fetchone_select_some in E as [Hin He]. apply String.eqb_eq in He.
    destruct (admins.must_reset_password a =? 1); simpl; intros _; exists a; auto.
Qed.

(** X3. A failed member login does not tell an unknown email from a wrong
    password: with both fields filled in, either case gives the same
    page, the same message, and no change of session or database. *)
Theorem login_utilizator_generic_failure (req : Request) (db : DB) (sess : Session) :
  method req = POST ->
  Py.truthy (posted_email req) = true ->
  Py.truthy (posted_password req) = true ->
  (find_user (posted_email req) db = None
   \/ exists u, find_user (posted_email req) db = Some u
        /\ check_password_hash (users.password_hash u) (posted_password req) = false) ->
  login_utilizator req db sess
  = mkOutcome (render_template "login_user.html")
      [flash "Email sau parola incorecte." "error"] db sess.
Proof.
  intros Hm He Hp H. unfold login_utilizator. rewrite Hm.
  fold (posted_email req) (posted_password req). rewrite He, Hp. simpl.
  unfold find_user in H. destruct H as [->|(u & -> & ->)]; reflexivity.
Qed.

(** X4. Registration and login fit together: after a registration that
    went through, a login posting the same email up to case and
    surrounding blanks and the same password is accepted, provided the
    hash library accepts the password against the hash it produced; the
    session then resolves to the new member. *)
Theorem register_then_login (env : Env) (reg login : Request) (db : DB) (sess : Session) :
  method reg = POST -> method login = POST ->
  posted_email login = posted_email reg ->
  posted_password login = posted_password reg ->
  Py.truthy (posted_email reg) = true ->
  Py.truthy (posted_password reg) = true ->
  posted_password2 reg = posted_password reg ->
  users_email_taken (posted_email reg) (t_users db) = false ->
  users_keyed (t_users db) ->
  check_password_hash
    (generate_password_hash (salt env) (posted_password reg)) (posted_password reg) = true ->
  let out1 := register_user env reg db sess in
  let out2 := login_utilizator login (db_after out1) (session_after out1) in
  response out1 = redirect ep_login_utilizator
  /\ response out2 = redirect ep_home
  /\ exists u, current_user (db_after out2) (session_after out2) = Some u
       /\ users.email u = posted_email reg
       /\ users.id u = Sql.seq (t_users db) + 1.
Proof.
  intros Hm1 Hm2 He Hpw Het Hpt Hconf Hfree [Hseq Hids] Hchk out1 out2.
  set (new := users.mk (Sql.seq (t_users db) + 1)
                (Py.strip (Py.or_default (form_get "first_name" reg) ""))
                (Py.strip (Py.or_default (form_get "last_name" reg) ""))
                (posted_email reg)
                (Py.strip (Py.or_default (form_get "phone" reg) ""))
                (generate_password_hash (salt env) (posted_password reg))).
  assert (H1 : out1 = mkOutcome (redirect ep_login_utilizator)
                 [flash "Cont creat. Te poti autentifica." "success"]
                 (set_users (fun _ => Sql.mkTable (Sql.rows (t_users db) ++ [new])
                                        (Sql.seq (t_users db) + 1)) db) sess).
  { subst out1. unfold register_user. rewrite Hm1.
    fold (posted_email reg) (posted_password reg) (posted_password2 reg).
    rewrite Het, Hpt, Hconf, String.eqb_refl. simpl.
    unfold insert_user. simpl. rewrite Hfree. reflexivity. }
  assert (Hsel : List.filter (fun r => String.eqb (users.email r) (posted_email reg))
                   (Sql.rows (t_users db) ++ [new]) = [new]).
  { rewrite List.filter_app. unfold users_email_taken in Hfree.
    rewrite (filter_existsb_false _ _ Hfree). simpl.
    rewrite String.eqb_refl. reflexivity. }
  assert (H2 : out2 = mkOutcome (redirect ep_home)
                 [flash "Autentificat cu succes." "success"] (db_after out1)
                 (mkSession (Some (users.id new)) (admin_id sess) (shelter_id sess))).
  { subst out2. rewrite H1. unfold login_utilizator. rewrite Hm2.
    fold (posted_email login) (posted_password login).
    rewrite He, Hpw, Het, Hpt. simpl.
    unfold Sql.fetchone, Sql.select. simpl. rewrite Hsel. simpl.
    rewrite Hchk. reflexivity. }
  rewrite H2. simpl. rewrite H1. simpl. split; [reflexivity|]. split; [reflexivity|].
  exists new. split; [|split; reflexivity].
  unfold current_user. simpl.
  destruct (Z.eqb_spec (Sql.seq (t_users db) + 1) 0) as [E|_]; [lia|]. simpl.
  unfold Sql.fetchone, Sql.select. simpl. rewrite List.filter_app.
  rewrite filter_existsb_false.
  - simpl. rewrite Z.eqb_refl. reflexivity.
  - apply existsb_key_false_Z. rewrite Forall_forall in Hids.
    intros Hin. apply in_map_iff in Hin as (r & Hr & Hin).
    specialize (Hids r (proj2 (list_elem_of_In _ _) Hin)). lia.
Qed.

(** X5. Approval is what lets a shelter log in.  For a request whose
    email no shelter holds, a login with the request's email and a
    password its stored hash accepts is refused with the generic message
    before the approval and accepted after it, the session being bound
    to the id of the shelter just created. *)
Theorem approve_enables_shelter_login (req_id : Z) (env : Env) (db : DB)
    (sess : Session) (login : Request) (r : shelter_requests.row) :
  session_truthy (admin_id sess) = true ->
  find_request req_id db = Some r ->
  shelters_email_taken (shelter_requests.email r) (t_shelters db) = false ->
  method login = POST ->
  posted_email login = shelter_requests.email r ->
  Py.truthy (shelter_requests.email r) = true ->
  Py.truthy (posted_password login) = true ->
  Py.truthy (shelter_requests.password_hash r) = true ->
  check_password_hash (shelter_requests.password_hash r) (posted_password login) = true ->
  let out := admin_shelter_request_approve req_id env db sess in
  let after := login_adapost login (db_after out) (session_after out) in
  login_adapost login db sess
  = mkOutcome (render_template "login_shelter.html")
      [flash "Email sau parola incorecte (sau adapostul nu e aprobat)." "error"] db sess
  /\ response after = redirect ep_shelter_dashboard
  /\ shelter_id (session_after after) = Some (Sql.seq (t_shelters db) + 1).
Proof.
  intros Hadm Hreq Hfree Hm He Het Hpt Hht Hchk out after.
  assert (Hnone : List.filter (fun s => String.eqb (shelters.email s) (shelter_requests.email r))
                    (Sql.rows (t_shelters db)) = []).
  { apply filter_existsb_false. exact Hfree. }
  split; [|split].
  - unfold login_adapost. rewrite Hm.
    fold (posted_email login) (posted_password login). rewrite He, Het, Hpt. simpl.
    unfold Sql.fetchone, Sql.select. rewrite Hnone. reflexivity.
  - subst after out. unfold admin_shelter_request_approve, require_admin, insert_shelter.
    rewrite Hadm, Hreq. simpl. rewrite Hfree. simpl.
    unfold login_adapost. rewrite Hm.
    fold (posted_email login) (posted_password login). rewrite He, Het, Hpt. simpl.
    unfold Sql.fetchone, Sql.select. simpl. rewrite List.filter_app, Hnone. simpl.
    rewrite String.eqb_refl. simpl. rewrite Hht, Hchk. reflexivity.
  - subst after out. unfold admin_shelter_request_approve, require_admin, insert_shelter.
    rewrite Hadm, Hreq. simpl. rewrite Hfree. simpl.
    unfold login_adapost. rewrite Hm.
    fold (posted_email login) (posted_password login). rewrite He, Het, Hpt. simpl.
    unfold Sql.fetchone, Sql.select. simpl. rewrite List.filter_app, Hnone. simpl.
    rewrite String.eqb_refl. simpl. rewrite Hht, Hchk. reflexivity.
Qed.

(** X6. After the forced reset the administrator logs in with the new
    password and lands on the dashboard, provided the hash library
    accepts the password against the hash it produced.  The reset view
    never asks for a non-empty password, so this covers the empty one. *)
Theorem reset_then_admin_login (env : Env) (db : DB) (sess sess' : Session)
    (reset login : Request) (a : admins.row) :
  find_admin (posted_username login) db = Some a ->
  admin_id sess = Some (admins.id a) ->
  admins.id a <> 0 ->
  posted_password2 reset = posted_password reset ->
  method login = POST ->
  posted_password login = posted_password reset ->
  check_password_hash
    (generate_password_hash (salt env) (posted_password reset)) (posted_password reset)
    = true ->
  let out := admin_reset_password_save env reset db sess in
  let out2 := admin_login login (db_after out) sess' in
  response out = redirect ep_admin_dashboard
  /\ response out2 = redirect ep_admin_dashboard
  /\ admin_id (session_after out2) = Some (admins.id a).
Proof.
  intros Hfind Hsess Hid Hconf Hm Hpw Hchk out out2.
  assert (Hg : require_admin sess = None).
  { unfold require_admin. rewrite Hsess. simpl.
    destruct (Z.eqb_spec (admins.id a) 0); [contradiction|reflexivity]. }
  assert (H1 : out = mkOutcome (redirect ep_admin_dashboard)
                 [flash "Parola actualizata." "success"]
                 (set_admins (Sql.update
                    (fun r => admins.id r =? admins.id a)
                    (fun r => admins.mk (admins.id r) (admins.username r)
                       (generate_password_hash (salt env) (posted_password reset))
                       (admins.full_name r) (admins.email r) (admins.phone r) 0)) db)
                 sess).
  { subst out. unfold admin_reset_password_save. rewrite Hg.
    fold (posted_password reset) (posted_password2 reset).
    rewrite Hconf, String.eqb_refl, Hsess. reflexivity. }
  split; [rewrite H1; reflexivity|].
  subst out2. rewrite H1. simpl. unfold admin_login. rewrite Hm.
  fold (posted_username login) (posted_password login).
  unfold find_admin in Hfind |- *. simpl.
  erewrite fetch_select_update; [|intros; reflexivity|exact Hfind].
  rewrite Z.eqb_refl. simpl. rewrite Hpw, Hchk. simpl. split; reflexivity.
Qed.

(** X7. [reset_admin_password.py]: when an administrator named [admin]
    exists, the script stores the hash of [admin123] and clears the
    reset flag, so that a login with that password goes straight to the
    dashboard; the other tables are not touched.  When there is no such
    administrator, or no database file, nothing is written. *)
Theorem reset_script_then_login (salt_ : string) (db : DB) (sess : Session)
    (login : Request) :
  method login = POST ->
  posted_username login = "admin" ->
  posted_password login = "admin123" ->
  check_password_hash (generate_password_hash salt_ "admin123") "admin123" = true ->
  reset_admin_password_main salt_ None = FileNotFoundError
  /\ match find_admin "admin" db with
     | None => reset_admin_password_main salt_ (Some db) = no_such_admin
     | Some a =>
         exists db', reset_admin_password_main salt_ (Some db) = password_reset db'
           /\ t_users db' = t_users db /\ t_shelters db' = t_shelters db
           /\ t_shelter_requests db' = t_shelter_requests db
           /\ t_donations db' = t_donations db
           /\ response (admin_login login db' sess) = redirect ep_admin_dashboard
           /\ admin_id (session_after (admin_login login db' sess)) = Some (admins.id a)
     end.
Proof.
  intros Hm Hu Hp Hchk. split; [reflexivity|].
  unfold reset_admin_password_main, ADMIN_USERNAME, NEW_PASSWORD.
  destruct (find_admin "admin" db) as [a|] eqn:Hfind; unfold find_admin in Hfind;
    rewrite Hfind; [|reflexivity].
  eexists. split; [reflexivity|]. simpl. repeat split.
  - unfold admin_login. rewrite Hm.
    fold (posted_username login) (posted_password login). rewrite Hu, Hp.
    unfold find_admin. simpl.
    erewrite fetch_select_update; [|intros; reflexivity|exact Hfind].
    rewrite Z.eqb_refl. simpl. rewrite Hchk. reflexivity.
  - unfold admin_login. rewrite Hm.
    fold (posted_username login) (posted_password login). rewrite Hu, Hp.
    unfold find_admin. simpl.
    erewrite fetch_select_update; [|intros; reflexivity|exact Hfind].
    rewrite Z.eqb_refl. simpl. rewrite Hchk. reflexivity.
Qed.

(** X8. [init_db] seeds at most once.  After it the admins table is not
    empty and a second run changes nothing; a table that already had an
    administrator is left alone; an empty one receives exactly the
    administrator [admin] with the reset flag set; no other table is
    touched. *)
Theorem init_db_seeds_once (env env' : Env) (db : DB) :
  let db1 := init_db env db in
  Sql.rows (t_admins db1) <> []
  /\ init_db env' db1 = db1
  /\ (Sql.rows (t_admins db) <> [] -> db1 = db)
  /\ (Sql.rows (t_admins db) = [] ->
      Sql.rows (t_admins db1)
      = [admins.mk (Sql.seq (t_admins db) + 1) "admin"
           (generate_password_hash (boot_salt env) "admin") "Admin" "admin@local" "" 1])
  /\ t_users db1 = t_users db /\ t_shelters db1 = t_shelters db
  /\ t_shelter_requests db1 = t_shelter_requests db
  /\ t_donations db1 = t_donations db.
Proof.
  intros db1. subst db1. unfold init_db, Sql.count.
  destruct (Sql.rows (t_admins db)) as [|x l] eqn:E; simpl.
  - rewrite E. simpl. repeat split; try reflexivity; try discriminate.
    intros H. contradiction.
  - rewrite E. simpl. repeat split; try reflexivity; try discriminate.
Qed.

(** X9. On a database without administrators the very first request can
    be the login of [admin] with password [admin]: the seeded row is
    found, the session is bound to it and the answer is the redirect to
    the reset page, provided the hash library accepts that password
    against the seeded hash. *)
Theorem bootstrap_admin_login (env : Env) (db : DB) (sess : Session) (login : Request) :
  Sql.rows (t_admins db) = [] ->
  0 <= Sql.seq (t_admins db) ->
  method login = POST ->
  posted_username login = "admin" ->
  check_password_hash (generate_password_hash (boot_salt env) "admin")
    (posted_password login) = true ->
  let out := served env (admin_login login) db sess in
  response out = redirect ep_admin_reset_password
  /\ admin_id (session_after out) = Some (Sql.seq (t_admins db) + 1)
  /\ admins.must_reset_password <$> current_admin (db_after out) (session_after out)
     = Some 1.
Proof.
  intros Hnone Hseq Hm Hu Hchk out. subst out.
  unfold served, init_db, Sql.count. rewrite Hnone. simpl.
  unfold admin_login. rewrite Hm.
  fold (posted_username login) (posted_password login). rewrite Hu.
  unfold find_admin, Sql.fetchone, Sql.select, Sql.insert. simpl.
  rewrite Hnone. simpl. rewrite Hchk. simpl.
  split; [reflexivity|]. split; [reflexivity|].
  unfold current_admin. simpl.
  destruct (Z.eqb_spec (Sql.seq (t_admins db) + 1) 0); [lia|]. simpl.
  unfold Sql.fetchone, Sql.select. simpl. rewrite Hnone. simpl.
  rewrite Z.eqb_refl. reflexivity.
Qed.

(** ** The administrator's views *)

(** X10. Without an administrator session no administrative view does
    anything: each one answers with the redirect to the login page and
    leaves database and session untouched, whatever is posted. *)
Theorem admin_views_need_session (env : Env) (req : Request) (k : Z) (db : DB)
    (sess : Session) :
  session_truthy (admin_id sess) = false ->
  let refused := mkOutcome (redirect ep_admin_login) [] db sess in
  admin_reset_password db sess = refused
  /\ admin_reset_password_save env req db sess = refused
  /\ admin_dashboard db sess = refused
  /\ admin_users db sess = refused
  /\ admin_user_edit k req db sess = refused
  /\ admin_user_delete k db sess = refused
  /\ admin_shelter_requests db sess = refused
  /\ admin_shelter_request_approve k env db sess = refused
  /\ admin_shelter_request_reject k env db sess = refused
  /\ admin_shelters db sess = refused
  /\ admin_shelter_detail k db sess = refused
  /\ admin_shelter_delete k db sess = refused
  /\ admin_profile req db sess = mkResult (reply (redirect ep_admin_login)) [] db sess.
Proof.
  intros H refused. subst refused.
  unfold admin_reset_password, admin_reset_password_save, admin_dashboard, admin_users,
    admin_user_edit, admin_user_delete, admin_shelter_requests,
    admin_shelter_request_approve, admin_shelter_request_reject, admin_shelters,
    admin_shelter_detail, admin_shelter_delete, admin_profile, require_admin.
  rewrite H. simpl. repeat split.
Qed.

Lemma update_rows_length {R : Type} (p : R -> bool) (f : R -> R) (t : Sql.Table R) :
  length (Sql.rows (Sql.update p f t)) = length (Sql.rows t).
Proof. unfold Sql.update. simpl. apply length_map. Qed.

(** X11. A rejection only marks a request.  Whatever the id and the
    status, it leaves the shelters, members, administrators and
    donations as they were and the number of requests the same; a
    request it finds keeps every column except [status], which becomes
    REJECTED, and [reviewed_at], which becomes the current time. *)
Theorem reject_only_marks (req_id : Z) (env : Env) (db : DB) (sess : Session) :
  let out := admin_shelter_request_reject req_id env db sess in
  t_shelters (db_after out) = t_shelters db
  /\ t_users (db_after out) = t_users db
  /\ t_admins (db_after out) = t_admins db
  /\ t_donations (db_after out) = t_donations db
  /\ length (Sql.rows (t_shelter_requests (db_after out)))
     = length (Sql.rows (t_shelter_requests db))
  /\ (session_truthy (admin_id sess) = true ->
      forall r, find_request req_id db = Some r ->
        find_request req_id (db_after out)
        = Some (shelter_requests.mk
                  (shelter_requests.id r) (shelter_requests.name r)
                  (shelter_requests.email r) (shelter_requests.phone r)
                  (shelter_requests.address r) (shelter_requests.description r)
                  (shelter_requests.website r) (shelter_requests.photo_filename r)
                  (shelter_requests.password_hash r) (shelter_requests.shelter_type r)
                  (shelter_requests.pickup_service r) "REJECTED"
                  (shelter_requests.submitted_at r) (Some (now env)))).
Proof.
  intros out. subst out. unfold admin_shelter_request_reject, require_admin.
  destruct (session_truthy (admin_id sess)); simpl.
  - repeat split.
    + apply update_rows_length.
    + intros _ r Hr. rewrite find_request_set_status, Hr. reflexivity.
  - repeat split. intros H. discriminate.
Qed.

(** X12. Editing a member as administrator cannot touch credentials: on
    every row the id, the email and the password hash are kept, rows
    with another id are kept whole, and no row is added or removed.  A
    member id that fits SQLite's INTEGER and does not exist is answered
    404 with nothing written; an id that does not fit makes the lookup
    raise [OverflowError], again with nothing written. *)
Theorem admin_user_edit_keeps_credentials (uid : Z) (req : Request) (db : DB)
    (sess : Session) :
  let out := admin_user_edit uid req db sess in
  List.map users.id (Sql.rows (t_users (db_after out)))
    = List.map users.id (Sql.rows (t_users db))
  /\ List.map users.email (Sql.rows (t_users (db_after out)))
     = List.map users.email (Sql.rows (t_users db))
  /\ List.map users.password_hash (Sql.rows (t_users (db_after out)))
     = List.map users.password_hash (Sql.rows (t_users db))
  /\ (forall r, In r (Sql.rows (t_users db)) -> users.id r <> uid ->
                In r (Sql.rows (t_users (db_after out))))
  /\ (session_truthy (admin_id sess) = true ->
      if sqlite_int_ok uid then
        Sql.fetchone (Sql.select (fun r => users.id r =? uid) (t_users db)) = None ->
        out = mkOutcome (abort 404) [] db sess
      else out = mkOutcome (raised OverflowError) [] db sess).
Proof.
  intros out. subst out. unfold admin_user_edit, require_admin.
  destruct (session_truthy (admin_id sess)); simpl;
    [|repeat split; auto; intros H; discriminate].
  destruct (sqlite_int_ok uid); simpl; [|repeat split; auto].
  destruct (Sql.fetchone _) as [u|] eqn:E; simpl;
    [|repeat split; auto].
  destruct (method req); simpl; [repeat split; auto; intros _ H; discriminate|].
  repeat split.
  - rewrite List.map_map. apply map_ext. intros r. destruct (users.id r =? uid); reflexivity.
  - rewrite List.map_map. apply map_ext. intros r. destruct (users.id r =? uid); reflexivity.
  - rewrite List.map_map. apply map_ext. intros r. destruct (users.id r =? uid); reflexivity.
  - intros r Hin Hne. apply in_map_iff. exists r. split; [|exact Hin].
    destruct (Z.eqb_spec (users.id r) uid); [contradiction|reflexivity].
  - intros _ H. discriminate.
Qed.

(** X13. The profile view cannot touch an administrator's credentials
    either: usernames, password hashes and reset flags are kept on every
    row, and rows of other administrators are kept whole.  When the
    session points at an administrator that is no longer in the table,
    the view raises [TypeError] instead of answering. *)
Theorem admin_profile_keeps_credentials (req : Request) (db : DB) (sess : Session) :
  let out := admin_profile req db sess in
  List.map admins.username (Sql.rows (t_admins (state_of out)))
    = List.map admins.username (Sql.rows (t_admins db))
  /\ List.map admins.password_hash (Sql.rows (t_admins (state_of out)))
     = List.map admins.password_hash (Sql.rows (t_admins db))
  /\ List.map admins.must_reset_password (Sql.rows (t_admins (state_of out)))
     = List.map admins.must_reset_password (Sql.rows (t_admins db))
  /\ (forall r, In r (Sql.rows (t_admins db)) ->
                Some (admins.id r) <> admin_id sess ->
                In r (Sql.rows (t_admins (state_of out))))
  /\ (session_truthy (admin_id sess) = true ->
      current_admin db sess = None ->
      reply_of out = raised_TypeError).
Proof.
  intros out. subst out. unfold admin_profile, require_admin.
  destruct (session_truthy (admin_id sess)) eqn:Hs; simpl;
    [|repeat split; auto; intros H; discriminate].
  destruct (method req); simpl.
  - destruct (Sql.fetchone _) eqn:E; simpl; repeat split; auto.
    + intros _ H. unfold current_admin in H. rewrite Hs in H. congruence.
  - set (me := fun r => admins.id r =? default 0 (admin_id sess)).
    set (f := fun r => admins.mk _ _ _ _ _ _ _).
    assert (Hmaps :
      List.map admins.username (Sql.rows (Sql.update me f (t_admins db)))
        = List.map admins.username (Sql.rows (t_admins db))
      /\ List.map admins.password_hash (Sql.rows (Sql.update me f (t_admins db)))
         = List.map admins.password_hash (Sql.rows (t_admins db))
      /\ List.map admins.must_reset_password (Sql.rows (Sql.update me f (t_admins db)))
         = List.map admins.must_reset_password (Sql.rows (t_admins db))
      /\ (forall r, In r (Sql.rows (t_admins db)) ->
                    Some (admins.id r) <> admin_id sess ->
                    In r (Sql.rows (Sql.update me f (t_admins db))))).
    { unfold Sql.update. simpl. repeat split.
      - rewrite List.map_map. apply map_ext. intros r. destruct (me r); reflexivity.
      - rewrite List.map_map. apply map_ext. intros r. destruct (me r); reflexivity.
      - rewrite List.map_map. apply map_ext. intros r. destruct (me r); reflexivity.
      - intros r Hin Hne. apply in_map_iff. exists r. split; [|exact Hin].
        subst me. simpl. destruct (admin_id sess) as [i|]; simpl in *.
        + destruct (Z.eqb_spec (admins.id r) i); [congruence|reflexivity].
        + discriminate. }
    destruct Hmaps as (H1 & H2 & H3 & H4).
    destruct (Sql.fetchone (Sql.select me (Sql.update me f (t_admins db)))) eqn:E;
      simpl; repeat split; auto.
    + intros _ H. unfold current_admin in H. rewrite Hs in H. fold me in H.
      rewrite (fetch_select_update_none me me f _ (fun _ => eq_refl) H) in E. discriminate.
Qed.

(** X14. Deleting a shelter does not cascade and its id is never handed
    out again.  After the deletion the donations are what they were, so
    those aimed at the shelter now point at nothing; the shelter itself
    is gone and the others stay; and a shelter created by a later
    approval gets an id different from the deleted one. *)
Theorem shelter_delete_orphans_donations (sid req_id : Z) (env : Env) (db : DB)
    (sess : Session) (s : shelters.row) :
  session_truthy (admin_id sess) = true ->
  shelters_keyed (t_shelters db) ->
  In s (Sql.rows (t_shelters db)) ->
  shelters.id s = sid ->
  let out1 := admin_shelter_delete sid db sess in
  let out2 := admin_shelter_request_approve req_id env (db_after out1) (session_after out1) in
  t_donations (db_after out1) = t_donations db
  /\ t_donations (db_after out2) = t_donations db
  /\ (forall r, In r (Sql.rows (t_shelters (db_after out1))) <->
                In r (Sql.rows (t_shelters db)) /\ shelters.id r <> sid)
  /\ (forall r, In r (Sql.rows (t_shelters (db_after out2))) -> shelters.id r <> sid).
Proof.
  intros Hadm (Hseq & _ & Hall) Hin Hid out1 out2.
  assert (H1 : out1 = mkOutcome (redirect ep_admin_shelters)
                 [flash "Adapost sters." "success"]
                 (set_shelters (Sql.delete (fun r => shelters.id r =? sid)) db) sess).
  { subst out1. unfold admin_shelter_delete, require_admin. rewrite Hadm. reflexivity. }
  assert (Hdel : forall r,
            In r (Sql.rows (Sql.delete (fun r => shelters.id r =? sid) (t_shelters db)))
            <-> In r (Sql.rows (t_shelters db)) /\ shelters.id r <> sid).
  { intros r. unfold Sql.delete. simpl. rewrite filter_In.
    destruct (Z.eqb_spec (shelters.id r) sid); simpl; intuition congruence. }
  assert (Hsid : sid <= Sql.seq (t_shelters db)).
  { rewrite Forall_forall in Hall.
    specialize (Hall s (proj2 (list_elem_of_In _ _) Hin)). lia. }
  subst out2. rewrite H1. simpl.
  split; [reflexivity|]. split; [|split; [exact Hdel|]].
  - unfold admin_shelter_request_approve, require_admin. rewrite Hadm. simpl.
    destruct (find_request _ _); simpl; [|reflexivity].
    destruct (insert_shelter _ _); reflexivity.
  - unfold admin_shelter_request_approve, require_admin. rewrite Hadm. simpl.
    destruct (find_request _ _) as [rq|]; simpl; [|intros r Hr; apply Hdel in Hr; tauto].
    unfold insert_shelter.
    destruct (shelters_email_taken _ _); simpl; [intros r Hr; apply Hdel in Hr; tauto|].
    intros r Hr. apply in_app_or in Hr as [Hr|Hr].
    + apply Hdel in Hr. tauto.
    + simpl in Hr. destruct Hr as [<-|[]]. simpl. lia.
Qed.

(** X15. A member deleted by the administrator is logged out in effect:
    the session key is still there, but it resolves to no row, and a
    help intent posted with it is answered with the redirect to the
    login page and records nothing. *)
Theorem deleted_member_cannot_route (uid : Z) (category_ : string) (env : Env)
    (req : Request) (db : DB) (admin member : Session) :
  session_truthy (admin_id admin) = true ->
  user_id member = Some uid ->
  str_in category_ ["materials"; "money"; "volunteer"] = true ->
  let db1 := db_after (admin_user_delete uid db admin) in
  let out := ajuta_category category_ env req db1 member in
  current_user db1 member = None
  /\ response out = redirect ep_login_utilizator
  /\ db_after out = db1
  /\ t_donations db1 = t_donations db.
Proof.
  intros Hadm Hu Hcat db1 out.
  assert (H1 : db1 = set_users (Sql.delete (fun r => users.id r =? uid)) db).
  { subst db1. unfold admin_user_delete, require_admin. rewrite Hadm. reflexivity. }
  assert (Hcur : current_user db1 member = None).
  { rewrite H1. unfold current_user. rewrite Hu. simpl.
    destruct (uid =? 0); simpl; [reflexivity|].
    unfold Sql.fetchone, Sql.select, Sql.delete. simpl.
    rewrite filter_existsb_false; [reflexivity|].
    apply filter_nil_existsb.
    induction (Sql.rows (t_users db)) as [|x l IH]; simpl; [reflexivity|].
    destruct (users.id x =? uid) eqn:E; simpl; [exact IH|]. rewrite E. exact IH. }
  split; [exact Hcur|]. subst out. unfold ajuta_category.
  rewrite Hcat, Hcur. simpl. rewrite H1. repeat split.
Qed.


(** ** Uploads *)

Lemma probe_free (st : Storage) (base ext_ : string) (fuel : nat) :
  forall (c : string) (i : nat) (name : string),
    probe st base ext_ fuel c i = Some name -> path_exists st name = false.
Proof.
  induction fuel as [|fuel IH]; intros c i name; simpl; [discriminate|].
  destruct (path_exists st c) eqn:E.
  - apply IH.
  - intros H. injection H as <-. exact E.
Qed.

Lemma probe_total (st : Storage) (base ext_ : string) (fuel : nat) (c : string) :
  (size st + 2 <= fuel)%nat ->
  exists name, probe st base ext_ fuel c 1%nat = Some name.
Proof.
  intros Hfuel. destruct (path_exists st c) eqn:E.
  - destruct (first_free_candidate st base ext_ 1) as (d & Hd & Hfree & Hbusy).
    exists (candidate_name base ext_ (1 + d)).
    apply probe_steps; [exact E|exact Hbusy|exact Hfree|lia].
  - exists c. destruct fuel as [|fuel]; [lia|]. simpl. rewrite E. reflexivity.
Qed.

(** What a call that returns can have done. *)
Lemma save_uploaded_photo_cases (fuel : nat) (fs : option FileStorage) (st st' : Storage)
    (name : string) (fl : list Flash) :
  save_uploaded_photo fuel fs st = Some (name, st', fl) ->
  (name = "" /\ st' = st)
  \/ (exists f, fs = Some f /\ allowed_file (filename f) = true
        /\ path_exists st name = false /\ st' = <[name := stream f]> st /\ fl = []).
Proof.
  unfold save_uploaded_photo. destruct fs as [f|]; [|intros H; injection H as <- <- <-; auto].
  destruct (Py.truthy (filename f)); simpl; [|intros H; injection H as <- <- <-; auto].
  destruct (allowed_file (filename f)) eqn:Hok; simpl;
    [|intros H; injection H as <- <- <-; auto].
  destruct (Py.splitext _) as [b e].
  destruct (probe _ _ _ _ _ _) as [cand|] eqn:Hp; [|discriminate].
  intros H. injection H as <- <- <-. right. exists f.
  repeat split; auto. eapply probe_free, Hp.
Qed.

Lemma save_uploaded_photo_total (fuel : nat) (fs : option FileStorage) (st : Storage) :
  (size st + 2 <= fuel)%nat ->
  exists name st' fl, save_uploaded_photo fuel fs st = Some (name, st', fl).
Proof.
  intros Hfuel. unfold save_uploaded_photo. destruct fs as [f|]; [|eauto].
  destruct (Py.truthy (filename f)); simpl; [|eauto].
  destruct (allowed_file (filename f)); simpl; [|eauto].
  destruct (Py.splitext _) as [b e].
  destruct (probe_total st b e fuel (secure_filename (filename f)) Hfuel) as [name ->].
  eauto.
Qed.

Lemma save_uploaded_photo_keeps (fuel : nat) (fs : option FileStorage) (st st' : Storage)
    (name : string) (fl : list Flash) :
  save_uploaded_photo fuel fs st = Some (name, st', fl) ->
  forall n c, st !! n = Some c -> st' !! n = Some c.
Proof.
  intros H n c Hn.
  apply save_uploaded_photo_cases in H as [[_ ->]|(f & _ & _ & Hfree & -> & _)];
    [exact Hn|].
  apply path_exists_false in Hfree as [Hnone _].
  rewrite lookup_insert_ne; [exact Hn|congruence].
Qed.

(** X17. An upload never overwrites and a refused upload never writes.
    Whenever [save_uploaded_photo] returns, either the name is empty and
    the folder is untouched (no file, an empty file name, or an
    extension outside the list, the last with the error message), or the
    name is not empty, was not in the folder, holds the uploaded bytes
    afterwards, and every other name of the folder is as before. *)
Theorem save_uploaded_photo_never_overwrites (fuel : nat) (fs : option FileStorage)
    (st st' : Storage) (name : string) (fl : list Flash) :
  save_uploaded_photo fuel fs st = Some (name, st', fl) ->
  (name = "" /\ st' = st
   /\ (fl = []
       \/ exists f, fs = Some f /\ allowed_file (filename f) = false
            /\ fl = [flash "Format poza invalid. Acceptam: png, jpg, jpeg, webp." "error"]))
  \/ (name <> "" /\ st !! name = None /\ fl = []
      /\ exists f, fs = Some f /\ allowed_file (filename f) = true
           /\ st' !! name = Some (stream f)
           /\ forall n, n <> name -> st' !! n = st !! n).
Proof.
  intros H. pose proof (save_uploaded_photo_cases _ _ _ _ _ _ H) as Hc.
  destruct Hc as [[-> ->]|(f & -> & Hok & Hfree & -> & ->)].
  - left. split; [reflexivity|]. split; [reflexivity|].
    unfold save_uploaded_photo in H. destruct fs as [f|];
      [|injection H as <-; left; reflexivity].
    destruct (Py.truthy (filename f)); simpl in H; [|injection H as <-; left; reflexivity].
    destruct (allowed_file (filename f)) eqn:Hok; simpl in H.
    + destruct (Py.splitext _) as [b e].
      destruct (probe _ _ _ _ _ _) as [cand|]; [|discriminate].
      injection H as _ _ <-. left. reflexivity.
    + injection H as <-. right. exists f. auto.
  - right. apply path_exists_false in Hfree as [Hnone Hne].
    split; [exact Hne|]. split; [exact Hnone|]. split; [reflexivity|].
    exists f. split; [reflexivity|]. split; [exact Hok|].
    split; [apply lookup_insert_eq|].
    intros n Hn. apply lookup_insert_ne. congruence.
Qed.

(** X18. Two uploads with the same file name, one after the other, are
    stored under two different names and the second leaves the bytes of
    the first in place. *)
Theorem upload_same_name_twice_distinct (fuel : nat) (f1 f2 : FileStorage) (st : Storage) :
  filename f2 = filename f1 ->
  allowed_file (filename f1) = true ->
  (size st + 3 <= fuel)%nat ->
  exists n1 n2 st1 st2,
    save_uploaded_photo fuel (Some f1) st = Some (n1, st1, [])
    /\ save_uploaded_photo fuel (Some f2) st1 = Some (n2, st2, [])
    /\ n1 <> n2
    /\ st2 !! n1 = Some (stream f1)
    /\ st2 !! n2 = Some (stream f2)
    /\ forall n c, st !! n = Some c -> st2 !! n = Some c.
Proof.
  intros Hsame Hok Hfuel.
  destruct (save_uploaded_photo_total fuel (Some f1) st ltac:(lia)) as (n1 & st1 & fl1 & H1).
  pose proof (save_uploaded_photo_cases _ _ _ _ _ _ H1) as C1.
  assert (Hn1 : n1 <> "" /\ st !! n1 = None /\ st1 = <[n1 := stream f1]> st /\ fl1 = []).
  { destruct C1 as [[-> ->]|(f & Hf & _ & Hfree & -> & ->)].
    - exfalso. unfold save_uploaded_photo in H1.
      assert (Ht : Py.truthy (filename f1) = true).
      { unfold allowed_file in Hok. destruct (filename f1); [discriminate|reflexivity]. }
      rewrite Ht, Hok in H1. simpl in H1. destruct (Py.splitext _) as [b e].
      destruct (probe _ _ _ _ _ _) as [cand|] eqn:Hp; [|discriminate].
      injection H1 as -> _. apply probe_free in Hp. discriminate.
    - injection Hf as <-. apply path_exists_false in Hfree as [Hnone Hne]. auto. }
  destruct Hn1 as (Hne1 & Hnone1 & -> & ->).
  assert (Hsize : size (<[n1 := stream f1]> st) = S (size st))
    by (apply map_size_insert_None; exact Hnone1).
  destruct (save_uploaded_photo_total fuel (Some f2) (<[n1 := stream f1]> st)
              ltac:(rewrite Hsize; lia)) as (n2 & st2 & fl2 & H2).
  pose proof (save_uploaded_photo_cases _ _ _ _ _ _ H2) as C2.
  assert (Hn2 : <[n1 := stream f1]> st !! n2 = None
                /\ st2 = <[n2 := stream f2]> (<[n1 := stream f1]> st) /\ fl2 = []).
  { destruct C2 as [[-> ->]|(f & Hf & _ & Hfree & -> & ->)].
    - exfalso. unfold save_uploaded_photo in H2.
      assert (Ht : Py.truthy (filename f2) = true).
      { rewrite Hsame. unfold allowed_file in Hok.
        destruct (filename f1); [discriminate|reflexivity]. }
      rewrite Ht, Hsame, Hok in H2. simpl in H2. destruct (Py.splitext _) as [b e].
      destruct (probe _ _ _ _ _ _) as [cand|] eqn:Hp; [|discriminate].
      injection H2 as -> _. apply probe_free in Hp. discriminate.
    - injection Hf as <-. apply path_exists_false in Hfree as [Hnone _]. auto. }
  destruct Hn2 as (Hnone2 & -> & ->).
  assert (Hdiff : n1 <> n2).
  { intros <-. rewrite lookup_insert_eq in Hnone2. discriminate. }
  exists n1, n2, (<[n1 := stream f1]> st), (<[n2 := stream f2]> (<[n1 := stream f1]> st)).
  split; [exact H1|]. split; [exact H2|]. split; [exact Hdiff|].
  split; [|split].
  - rewrite lookup_insert_ne by congruence. apply lookup_insert_eq.
  - apply lookup_insert_eq.
  - intros n c Hn.
    assert (Hn1 : n1 <> n) by congruence.
    assert (Hn2 : n2 <> n).
    { intros ->. rewrite lookup_insert_ne in Hnone2 by exact Hn1. congruence. }
    rewrite !lookup_insert_ne; assumption.
Qed.

Lemma rsplit1_tail_none (c : ascii) (s : string) :
  Py.rsplit1_tail c s = None <-> Py.contains c s = false.
Proof.
  induction s as [|d t IH]; simpl; [tauto|].
  destruct (Py.rsplit1_tail c t) as [r|].
  - destruct (Ascii.eqb d c); split; try discriminate.
    intros H. apply IH in H. discriminate.
  - destruct (Ascii.eqb d c); split; try discriminate; intros _; [apply IH|]; reflexivity.
Qed.

Lemma rsplit1_tail_some (c : ascii) (s e : string) :
  Py.rsplit1_tail c s = Some e
  <-> exists stem, s = (stem ++ String c e)%string /\ Py.contains c e = false.
Proof.
  split.
  - revert e. induction s as [|d t IH]; simpl; intros e; [discriminate|].
    destruct (Py.rsplit1_tail c t) as [r|] eqn:E.
    + intros H. injection H as ->. destruct (IH e eq_refl) as (stem & -> & Hc).
      exists (String d stem). split; [reflexivity|exact Hc].
    + destruct (Ascii.eqb_spec d c) as [->|_]; [|discriminate].
      intros H. injection H as ->. exists "". split; [reflexivity|].
      apply rsplit1_tail_none, E.
  - intros (stem & -> & Hc). induction stem as [|d stem IH]; simpl.
    + apply rsplit1_tail_none in Hc. rewrite Hc, Ascii.eqb_refl. reflexivity.
    + simpl in IH. rewrite IH. reflexivity.
Qed.

Lemma contains_append (c : ascii) (a b : string) :
  Py.contains c (a ++ String c b) = true.
Proof.
  induction a as [|d a IH]; simpl.
  - rewrite Ascii.eqb_refl. reflexivity.
  - destruct (Ascii.eqb d c); [reflexivity|exact IH].
Qed.

(** X19. [allowed_file] accepts exactly the names that end in a dot
    followed by an extension without dots which, in lower case, is one
    of png, jpg, jpeg, webp: the test looks at what follows the last dot
    and is blind to letter case. *)
Theorem allowed_file_iff (fname : string) :
  allowed_file fname = true
  <-> exists stem e,
        fname = (stem ++ "." ++ e)%string
        /\ Py.contains "." e = false
        /\ (Py.lower e = "png" \/ Py.lower e = "jpg" \/ Py.lower e = "jpeg"
            \/ Py.lower e = "webp").
Proof.
  assert (Hin : forall x, str_in x ALLOWED_EXTENSIONS = true
                          <-> (x = "png" \/ x = "jpg" \/ x = "jpeg" \/ x = "webp")).
  { intros x. unfold str_in, ALLOWED_EXTENSIONS. simpl.
    rewrite !orb_true_iff, !String.eqb_eq. intuition congruence. }
  unfold allowed_file. split.
  - intros H. apply andb_true_iff in H as [_ H].
    destruct (Py.rsplit1_tail "." fname) as [e|] eqn:E; [|discriminate].
    apply rsplit1_tail_some in E as (stem & -> & Hc).
    exists stem, e. split; [reflexivity|]. split; [exact Hc|]. apply Hin, H.
  - intros (stem & e & -> & Hc & He).
    change (stem ++ "." ++ e)%string with (stem ++ String "." e)%string.
    rewrite contains_append. simpl.
    assert (E : Py.rsplit1_tail "." (stem ++ String "." e) = Some e).
    { apply rsplit1_tail_some. exists stem. split; [reflexivity|exact Hc]. }
    rewrite E. apply Hin, He.
Qed.

(** ** Applying as a shelter *)

(** X20. A filled-in application is always stored as PENDING.  For a POST
    with a name, an email and a password equal to its confirmation, and
    fuel for the naming loop, the view redirects to the shelter list and
    appends exactly one request: status PENDING, no review time, the
    email lower-cased and stripped, the password stored as the hash the
    library produced, the photo field holding the name
    [save_uploaded_photo] returned.  No shelter is created, the session
    is unchanged and the files already in the folder keep their
    contents.  A photo with a refused extension does not stop the
    application: it is stored with an empty photo field. *)
Theorem shelter_apply_creates_pending (fuel : nat) (env : Env) (req : Request)
    (db : DB) (sess : Session) (st : Storage) :
  method req = POST ->
  Py.truthy (Py.strip (Py.or_default (form_get "name" req) "")) = true ->
  Py.truthy (posted_email req) = true ->
  Py.truthy (posted_password req) = true ->
  posted_password2 req = posted_password req ->
  (size st + 2 <= fuel)%nat ->
  exists out st' photo fl r,
    shelter_apply fuel env req db sess st = Some (out, st')
    /\ save_uploaded_photo fuel (files_get "photo" req) st = Some (photo, st', fl)
    /\ response out = redirect ep_adaposturi
    /\ Sql.rows (t_shelter_requests (db_after out))
       = (Sql.rows (t_shelter_requests db) ++ [r])%list
    /\ shelter_requests.id r = Sql.seq (t_shelter_requests db) + 1
    /\ shelter_requests.status r = "PENDING"
    /\ shelter_requests.reviewed_at r = None
    /\ shelter_requests.email r = posted_email req
    /\ shelter_requests.password_hash r
       = generate_password_hash (salt env) (posted_password req)
    /\ shelter_requests.photo_filename r = photo
    /\ t_shelters (db_after out) = t_shelters db
    /\ session_after out = sess
    /\ (forall n c, st !! n = Some c -> st' !! n = Some c)
    /\ (forall f, files_get "photo" req = Some f ->
                  Py.truthy (filename f) = true -> allowed_file (filename f) = false ->
                  photo = "" /\ st' = st).
Proof.
  intros Hm Hn He Hp Hconf Hfuel.
  destruct (save_uploaded_photo_total fuel (files_get "photo" req) st Hfuel)
    as (photo & st' & fl & Hsave).
  eexists _, st', photo, fl, _. split.
  { unfold shelter_apply. rewrite Hm.
    fold (posted_email req) (posted_password req) (posted_password2 req).
    rewrite Hn, He, Hp, Hconf, String.eqb_refl. simpl. rewrite Hsave. reflexivity. }
  split; [exact Hsave|]. simpl. repeat split.
  - eapply save_uploaded_photo_keeps, Hsave.
  - unfold save_uploaded_photo in Hsave. rewrite H in Hsave.
    rewrite H0, H1 in Hsave. simpl in Hsave. congruence.
  - unfold save_uploaded_photo in Hsave. rewrite H in Hsave.
    rewrite H0, H1 in Hsave. simpl in Hsave. congruence.
Qed.

(** ** The shelter's listings *)

Lemma current_shelter_some (db : DB) (sess : Session) (sh : shelters.row) :
  current_shelter db sess = Some sh ->
  shelter_id sess = Some (shelters.id sh)
  /\ session_truthy (shelter_id sess) = true
  /\ In sh (Sql.rows (t_shelters db)).
Proof.
  unfold current_shelter. destruct (session_truthy (shelter_id sess)) eqn:Hs; [|discriminate].
  intros H. apply fetchone_select_some in H as [Hin Hid].
  destruct (shelter_id sess) as [n|]; [|discriminate]. simpl in Hid.
  apply Z.eqb_eq in Hid. subst n. auto.
Qed.

(** How a shelter view can have returned: through the guard or the
    stale-session exit, the site untouched, or through its body run on
    the session's shelter. *)
Lemma with_shelter_inv (site : Site) (sess : Session)
    (view : shelters.row -> option (Result Site)) (res : Result Site) :
  with_shelter site sess view = Some res ->
  state_of res = site
  \/ exists sh, current_shelter (site_db site) sess = Some sh /\ view sh = Some res.
Proof.
  unfold with_shelter, require_shelter.
  destruct (session_truthy (shelter_id sess)); simpl.
  - destruct (current_shelter (site_db site) sess) as [sh|].
    + intros H. right. exists sh. auto.
    + intros H. injection H as <-. left. reflexivity.
  - intros H. injection H as <-. left. reflexivity.
Qed.

Lemma update_keeps_others {R : Type} (p : R -> bool) (f : R -> R) (t : Sql.Table R) (r : R) :
  p r = false -> In r (Sql.rows t) -> In r (Sql.rows (Sql.update p f t)).
Proof.
  intros Hp Hin. unfold Sql.update. simpl. apply in_map_iff.
  exists r. rewrite Hp. auto.
Qed.

Lemma delete_keeps_others {R : Type} (p : R -> bool) (t : Sql.Table R) (r : R) :
  p r = false -> In r (Sql.rows t) -> In r (Sql.rows (Sql.delete p t)).
Proof.
  intros Hp Hin. unfold Sql.delete. simpl. apply filter_In. rewrite Hp. auto.
Qed.

(** X21. A shelter's views work on its own listings only.  Whatever the
    dashboard, the add, the edit or the delete view returns, the
    database is unchanged and every listing that belongs to a shelter
    other than the one of the session is still in the animals table,
    unchanged. *)
Theorem shelter_views_touch_own_listings_only (fuel : nat) (env : Env) (animal_id : Z)
    (req : Request) (site : Site) (sess : Session) (res : Result Site) :
  shelter_dashboard site sess = Some res
  \/ shelter_animals_add fuel env req site sess = Some res
  \/ shelter_animals_edit fuel animal_id req site sess = Some res
  \/ shelter_animals_delete animal_id site sess = Some res ->
  site_db (state_of res) = site_db site
  /\ forall r, In r (Sql.rows (site_animals site)) ->
               Some (animals.shelter_id r) <> shelter_id sess ->
               In r (Sql.rows (site_animals (state_of res))).
Proof.
  assert (Hother : forall sh r,
            current_shelter (site_db site) sess = Some sh ->
            Some (animals.shelter_id r) <> shelter_id sess ->
            own_animal animal_id (shelters.id sh) r = false).
  { intros sh r Hsh Hne. apply current_shelter_some in Hsh as (Hid & _).
    unfold own_animal. rewrite Hid in Hne.
    destruct (Z.eqb_spec (animals.shelter_id r) (shelters.id sh)); [congruence|].
    apply andb_false_r. }
  intros [H|[H|[H|H]]]; apply with_shelter_inv in H as [->|(sh & Hsh & H)]; auto;
    cbv zeta in H.
  - injection H as <-. auto.
  - destruct (negb (Py.truthy _)); [injection H as <-; auto|].
    destruct (save_uploaded_photo _ _ _) as [[[ph st'] fl]|]; [|discriminate].
    injection H as <-. simpl. split; [reflexivity|].
    intros r Hin _. apply in_or_app. left. exact Hin.
  - destruct (select_animal _ _ _) as [e|[animal|]];
      [injection H as <-; auto| |injection H as <-; auto].
    destruct (method req); [injection H as <-; auto|].
    destruct (negb (Py.truthy _)); [injection H as <-; auto|].
    match type of H with
    | match ?saved with Some _ => _ | None => _ end = _ =>
        destruct saved as [[[ph st'] fl]|]; [|discriminate]
    end.
    injection H as <-. simpl. split; [reflexivity|].
    intros r Hin Hne. apply update_keeps_others; [|exact Hin]. eapply Hother; eauto.
  - destruct (select_animal _ _ _) as [e|[row|]];
      [injection H as <-; auto| |injection H as <-; auto].
    injection H as <-. simpl. split; [reflexivity|].
    intros r Hin Hne. apply delete_keeps_others; [|exact Hin]. eapply Hother; eauto.
Qed.

(** X22. A listing that belongs to another shelter cannot be edited or
    deleted: for a logged-in shelter and a listing id none of whose rows
    is its own, both views answer 404 when the id fits SQLite's INTEGER
    and die with [OverflowError] when it does not; either way the site
    and the session are left as they were, whatever is posted. *)
Theorem foreign_listing_is_404 (fuel : nat) (animal_id : Z) (req : Request)
    (site : Site) (sess : Session) (sh : shelters.row) :
  current_shelter (site_db site) sess = Some sh ->
  (forall r, In r (Sql.rows (site_animals site)) -> animals.id r = animal_id ->
             animals.shelter_id r <> shelters.id sh) ->
  let answer := if sqlite_int_ok animal_id then abort 404 else raised OverflowError in
  shelter_animals_edit fuel animal_id req site sess
    = Some (mkResult (reply answer) [] site sess)
  /\ shelter_animals_delete animal_id site sess
     = Some (mkResult (reply answer) [] site sess).
Proof.
  intros Hsh Hforeign answer. subst answer.
  assert (Hnone : find_animal animal_id (shelters.id sh) site = None).
  { unfold find_animal, Sql.fetchone, Sql.select.
    rewrite filter_existsb_false; [reflexivity|].
    apply not_true_is_false. intros H. apply existsb_exists in H as (r & Hin & Hown).
    unfold own_animal in Hown. apply andb_true_iff in Hown as [H1 H2].
    apply Z.eqb_eq in H1. apply Z.eqb_eq in H2. exact (Hforeign r Hin H1 H2). }
  pose proof (current_shelter_some _ _ _ Hsh) as (_ & Ht & _).
  unfold shelter_animals_edit, shelter_animals_delete, with_shelter, require_shelter.
  rewrite Ht, Hsh. simpl. unfold select_animal. rewrite Hnone.
  destruct (sqlite_int_ok animal_id); split; reflexivity.
Qed.

(** X23. When the administrator deletes a shelter, the shelter's open
    session stops working at its next request: the dashboard answers
    with the redirect to the shelter login and the invalid-session
    message, drops [shelter_id] from the session and keeps the other
    two keys; listings and files stay as they are. *)
Theorem deleted_shelter_session_is_dropped (sid : Z) (site : Site)
    (admin sess : Session) :
  session_truthy (admin_id admin) = true ->
  shelter_id sess = Some sid ->
  sid <> 0 ->
  let site1 := mkSite (db_after (admin_shelter_delete sid (site_db site) admin))
                 (site_animals site) (site_files site) in
  shelter_dashboard site1 sess
  = Some (mkResult (reply (redirect ep_login_adapost))
            [flash "Sesiune invalida. Autentifica-te din nou." "error"] site1
            (mkSession (user_id sess) (admin_id sess) None)).
Proof.
  intros Hadm Hs Hsid site1.
  assert (Hcur : current_shelter (site_db site1) sess = None).
  { subst site1. unfold admin_shelter_delete, require_admin. rewrite Hadm. simpl.
    unfold current_shelter. rewrite Hs. simpl.
    destruct (sid =? 0); [reflexivity|]. simpl.
    unfold Sql.fetchone, Sql.select, Sql.delete. simpl.
    rewrite filter_existsb_false; [reflexivity|]. apply filter_nil_existsb.
    induction (Sql.rows (t_shelters (site_db site))) as [|x l IH]; simpl; [reflexivity|].
    destruct (shelters.id x =? sid) eqn:E; simpl; [exact IH|]. rewrite E. exact IH. }
  unfold shelter_dashboard, with_shelter. rewrite Hcur.
  unfold require_shelter. rewrite Hs. simpl.
  destruct (Z.eqb_spec sid 0); [contradiction|]. reflexivity.
Qed.

(** X24. Deleting one's own listing removes the row and its photo: after
    the view, the listing is no longer found, a non-empty photo name is
    no longer in the folder, every other file keeps its contents, and
    listings with another id are kept. *)
Theorem shelter_animals_delete_removes (animal_id : Z) (site : Site) (sess : Session)
    (sh : shelters.row) (row : animals.row) :
  current_shelter (site_db site) sess = Some sh ->
  select_animal animal_id (shelters.id sh) site = inr (Some row) ->
  exists res,
    shelter_animals_delete animal_id site sess = Some res
    /\ reply_of res = reply (redirect ep_shelter_dashboard)
    /\ find_animal animal_id (shelters.id sh) (state_of res) = None
    /\ (animals.photo_filename row <> "" ->
        site_files (state_of res) !! animals.photo_filename row = None)
    /\ (forall n, n <> animals.photo_filename row ->
                  site_files (state_of res) !! n = site_files site !! n)
    /\ (forall r, In r (Sql.rows (site_animals site)) -> animals.id r <> animal_id ->
                  In r (Sql.rows (site_animals (state_of res)))).
Proof.
  intros Hsh Hrow.
  pose proof (current_shelter_some _ _ _ Hsh) as (_ & Ht & _).
  eexists. split.
  { unfold shelter_animals_delete, with_shelter, require_shelter.
    rewrite Ht, Hsh. simpl. rewrite Hrow. reflexivity. }
  unfold select_animal in Hrow.
  destruct (negb (sqlite_int_ok animal_id)); [discriminate|]. injection Hrow as Hrow.
  simpl. split; [reflexivity|]. split; [|split; [|split]].
  - unfold find_animal, Sql.fetchone, Sql.select, Sql.delete. simpl.
    rewrite filter_existsb_false; [reflexivity|]. apply filter_nil_existsb.
    induction (Sql.rows (site_animals site)) as [|x l IH]; simpl; [reflexivity|].
    destruct (own_animal animal_id (shelters.id sh) x) eqn:E; simpl; [exact IH|].
    rewrite E. exact IH.
  - intros Hne. destruct (animals.photo_filename row) as [|c s] eqn:Ep; [congruence|].
    simpl. unfold remove_if_exists, path_exists. simpl.
    destruct (bool_decide (is_Some (site_files site !! String c s))) eqn:B.
    + apply lookup_delete_eq.
    + apply bool_decide_eq_false in B. apply eq_None_not_Some. exact B.
  - intros n Hn. destruct (Py.truthy (animals.photo_filename row)); [|reflexivity].
    unfold remove_if_exists. destruct (path_exists _ _); [|reflexivity].
    apply lookup_delete_ne. congruence.
  - intros r Hin Hne. apply delete_keeps_others; [|exact Hin].
    unfold own_animal. destruct (Z.eqb_spec (animals.id r) animal_id); [contradiction|].
    reflexivity.
Qed.

(** X25. Editing one's own listing with a name keeps its id, owner and
    creation time and stores the posted fields.  Without a usable new
    photo (none posted, an empty file name, or a refused extension) the
    photo field and the folder are kept.  With an accepted new photo,
    when the old photo is a file of the folder, the new bytes are stored
    under a name different from the old one, the listing points at it
    and the old file is removed. *)
Theorem shelter_animals_edit_replaces_photo (fuel : nat) (animal_id : Z) (req : Request)
    (site : Site) (sess : Session) (sh : shelters.row) (animal : animals.row) :
  current_shelter (site_db site) sess = Some sh ->
  select_animal animal_id (shelters.id sh) site = inr (Some animal) ->
  method req = POST ->
  Py.truthy (Py.strip (Py.or_default (form_get "name" req) "")) = true ->
  (size (site_files site) + 2 <= fuel)%nat ->
  exists res animal',
    shelter_animals_edit fuel animal_id req site sess = Some res
    /\ reply_of res = reply (redirect ep_shelter_dashboard)
    /\ find_animal animal_id (shelters.id sh) (state_of res) = Some animal'
    /\ animals.id animal' = animals.id animal
    /\ animals.shelter_id animal' = animals.shelter_id animal
    /\ animals.created_at animal' = animals.created_at animal
    /\ animals.name animal' = Py.strip (Py.or_default (form_get "name" req) "")
    /\ ((files_get "photo" req = None
         \/ exists f, files_get "photo" req = Some f
              /\ (filename f = "" \/ allowed_file (filename f) = false)) ->
        animals.photo_filename animal' = animals.photo_filename animal
        /\ site_files (state_of res) = site_files site)
    /\ (forall f, files_get "photo" req = Some f ->
          allowed_file (filename f) = true ->
          animals.photo_filename animal <> "" ->
          is_Some (site_files site !! animals.photo_filename animal) ->
          animals.photo_filename animal' <> animals.photo_filename animal
          /\ site_files (state_of res) !! animals.photo_filename animal'
             = Some (stream f)
          /\ site_files (state_of res) !! animals.photo_filename animal = None).
Proof.
  intros Hsh Hfind Hm Hname Hfuel.
  pose proof (current_shelter_some _ _ _ Hsh) as (_ & Ht & _).
  set (old := animals.photo_filename animal).
  assert (Hsaved : exists ph st' fl,
    match files_get "photo" req with
    | Some new_photo =>
        if Py.truthy (filename new_photo) then
          match save_uploaded_photo fuel (Some new_photo) (site_files site) with
          | None => None
          | Some (new_saved, st', flashed_) =>
              if Py.truthy new_saved then
                Some (new_saved,
                      if Py.truthy old then remove_if_exists st' old else st', flashed_)
              else Some (old, st', flashed_)
          end
        else Some (old, site_files site, [])
    | None => Some (old, site_files site, [])
    end = Some (ph, st', fl)
    /\ ((files_get "photo" req = None
         \/ exists f, files_get "photo" req = Some f
              /\ (filename f = "" \/ allowed_file (filename f) = false)) ->
        ph = old /\ st' = site_files site)
    /\ (forall f, files_get "photo" req = Some f ->
          allowed_file (filename f) = true -> old <> "" ->
          is_Some (site_files site !! old) ->
          ph <> old /\ st' !! ph = Some (stream f) /\ st' !! old = None)).
  { destruct (files_get "photo" req) as [f|] eqn:Ef.
    - destruct (Py.truthy (filename f)) eqn:Tf.
      + destruct (save_uploaded_photo_total fuel (Some f) (site_files site) Hfuel)
          as (ns & st1 & fl1 & Hs).
        rewrite Hs.
        pose proof (save_uploaded_photo_cases _ _ _ _ _ _ Hs) as C.
        destruct (allowed_file (filename f)) eqn:Hok.
        * destruct C as [[-> ->]|(f0 & Hf0 & _ & Hfree & -> & ->)].
          { exfalso. unfold save_uploaded_photo in Hs. rewrite Tf, Hok in Hs. simpl in Hs.
            destruct (Py.splitext _) as [b e].
            destruct (probe _ _ _ _ _ _) as [cand|] eqn:Hp; [|discriminate].
            injection Hs as -> _. apply probe_free in Hp. discriminate. }
          injection Hf0 as <-.
          apply path_exists_false in Hfree as [Hnone Hne].
          assert (Tn : Py.truthy ns = true) by (destruct ns; [congruence|reflexivity]).
          rewrite Tn. eexists _, _, _. split; [reflexivity|]. split.
          { intros [H|(f' & Hf' & [H|H])]; try discriminate;
              injection Hf' as <-; [rewrite H in Tf; discriminate|congruence]. }
          intros f' Hf' _ Hold [c Hc]. injection Hf' as <-.
          assert (To : Py.truthy old = true) by (destruct old; [congruence|reflexivity]).
          rewrite To. assert (Hdiff : ns <> old) by congruence.
          unfold remove_if_exists, path_exists. rewrite To. simpl.
          rewrite bool_decide_eq_true_2
            by (rewrite lookup_insert_ne by exact Hdiff; eauto).
          split; [exact Hdiff|]. split.
          { rewrite lookup_delete_ne by congruence. apply lookup_insert_eq. }
          apply lookup_delete_eq.
        * destruct C as [[-> ->]|(f0 & Hf0 & Hok' & _)];
            [|injection Hf0 as <-; congruence].
          simpl. eexists _, _, _. split; [reflexivity|]. split; [auto|].
          intros f' Hf'. injection Hf' as <-. congruence.
      + eexists _, _, _. split; [reflexivity|]. split; [auto|].
        intros f' Hf' Hok. injection Hf' as <-. unfold allowed_file in Hok.
        destruct (filename f); [discriminate|discriminate].
    - eexists _, _, _. split; [reflexivity|]. split; [auto|]. intros f' Hf'. discriminate. }
  destruct Hsaved as (ph & st' & fl & Hs & Hkeep & Hrepl).
  eexists _, _. split.
  { unfold shelter_animals_edit, with_shelter, require_shelter.
    rewrite Ht. cbn [negb]. rewrite Hsh. cbv zeta. rewrite Hfind, Hm, Hname.
    cbn [negb]. fold old. rewrite Hs. reflexivity. }
  unfold select_animal in Hfind.
  destruct (negb (sqlite_int_ok animal_id)); [discriminate|]. injection Hfind as Hfind.
  simpl. split; [reflexivity|]. split.
  { unfold find_animal in Hfind |- *. simpl.
    rewrite (fetch_after_update (own_animal animal_id (shelters.id sh)))
      by (intros r; reflexivity).
    rewrite Hfind. reflexivity. }
  simpl. repeat split; try (apply Hkeep; assumption); try (eapply Hrepl; eassumption).
Qed.

End MoreProperties.

(** ** The schema guardian *)

Lemma schema_extends_refl (s : Schema) : schema_extends s s.
Proof. intros t cols H. exists []. rewrite app_nil_r. exact H. Qed.

Lemma schema_extends_trans (s1 s2 s3 : Schema) :
  schema_extends s1 s2 -> schema_extends s2 s3 -> schema_extends s1 s3.
Proof.
  intros H12 H23 t cols H. destruct (H12 t cols H) as [e1 H2].
  destruct (H23 t _ H2) as [e2 H3]. exists (e1 ++ e2)%list.
  rewrite H3. rewrite <- app_assoc. reflexivity.
Qed.

Lemma schema_extends_some (s s' : Schema) (t : string) :
  schema_extends s s' -> is_Some (s !! t) -> is_Some (s' !! t).
Proof. intros He [cols H]. destruct (He t cols H) as [e H']. eauto. Qed.

Lemma str_in_app (c : string) (l k : list string) :
  str_in c l = true -> str_in c (l ++ k) = true.
Proof. unfold str_in. rewrite existsb_app. intros ->. reflexivity. Qed.

Lemma str_in_In (c : string) (l : list string) : str_in c l = true <-> In c l.
Proof.
  unfold str_in. rewrite existsb_exists. split.
  - intros (x & Hin & E). apply String.eqb_eq in E. subst. exact Hin.
  - intros Hin. exists c. split; [exact Hin|apply String.eqb_refl].
Qed.

Lemma same_name_lower (a b : string) :
  Py.lower a = a -> Py.lower b = b -> same_name a b = true -> a = b.
Proof. unfold same_name. intros Ha Hb H. apply String.eqb_eq in H. congruence. Qed.

Lemma schema_extends_has (s s' : Schema) (t c : string) :
  schema_extends s s' -> _table_has_column s t c = true -> _table_has_column s' t c = true.
Proof.
  unfold _table_has_column, table_info. intros He H.
  destruct (s !! table_key t) as [cols|] eqn:E; [|discriminate].
  destruct (He _ cols E) as [e ->]. simpl in *. apply str_in_app, H.
Qed.

Lemma create_extends (t : string) (cols : list string) (s : Schema) :
  schema_extends s (create_if_not_exists t cols s)
  /\ is_Some (create_if_not_exists t cols s !! table_key t).
Proof.
  unfold create_if_not_exists. destruct (s !! table_key t) as [old|] eqn:E.
  - split; [apply schema_extends_refl|]. rewrite E. eauto.
  - split; [|rewrite lookup_insert_eq; eauto].
    intros t' c' H. exists []. rewrite app_nil_r.
    rewrite lookup_insert_ne; [exact H|congruence].
Qed.

(** A table made by a [CREATE] of lower-case names has no case variant
    of a lower-case column. *)
Lemma create_keeps_clean (l : list (string * string)) (t : string) (cols : list string)
    (s : Schema) :
  Forall (fun c => Py.lower c = c) cols ->
  Forall (fun tc => Py.lower (snd tc) = snd tc) l ->
  schema_clean l s -> schema_clean l (create_if_not_exists t cols s).
Proof.
  intros Hcols Hl Hclean. unfold create_if_not_exists.
  destruct (s !! table_key t) as [old|] eqn:E; [exact Hclean|].
  unfold schema_clean in *. rewrite Forall_forall in *.
  intros [t1 c1] Hin cs c' Hlook Hc' Hsame. simpl in *.
  destruct (decide (table_key t = table_key t1)) as [Heq|Hne].
  - rewrite <- Heq, lookup_insert_eq in Hlook. injection Hlook as <-.
    apply same_name_lower; [|apply (Hl (t1, c1) Hin)|exact Hsame].
    exact (proj1 (Forall_forall _ _) Hcols c' (proj2 (list_elem_of_In _ _) Hc')).
  - rewrite lookup_insert_ne in Hlook by exact Hne.
    exact (Hclean (t1, c1) Hin cs c' Hlook Hc' Hsame).
Qed.

Lemma created_tables_exist (l : list (string * list string)) (s : Schema) :
  let s' := fold_left (fun acc tc => create_if_not_exists (fst tc) (snd tc) acc) l s in
  schema_extends s s'
  /\ Forall (fun tc => is_Some (s' !! table_key (fst tc))) l.
Proof.
  revert s. induction l as [|[t c] l IH]; intros s; simpl.
  - split; [apply schema_extends_refl|constructor].
  - destruct (IH (create_if_not_exists t c s)) as [He Hall].
    destruct (create_extends t c s) as [He0 Hs0]. split.
    + eapply schema_extends_trans; eassumption.
    + constructor; [|exact Hall]. simpl. eapply schema_extends_some; eassumption.
Qed.

Lemma created_tables_clean (k : list (string * string)) (l : list (string * list string))
    (s : Schema) :
  Forall (fun tc => Forall (fun c => Py.lower c = c) (snd tc)) l ->
  Forall (fun tc => Py.lower (snd tc) = snd tc) k ->
  schema_clean k s ->
  schema_clean k (fold_left (fun acc tc => create_if_not_exists (fst tc) (snd tc) acc) l s).
Proof.
  revert s. induction l as [|[t c] l IH]; intros s Hl Hk Hclean; simpl; [exact Hclean|].
  apply Forall_cons in Hl as [Hc Hl]. apply IH; [exact Hl|exact Hk|].
  apply create_keeps_clean; assumption.
Qed.

Lemma created_tables_noop (l : list (string * list string)) (s : Schema) :
  Forall (fun tc => is_Some (s !! table_key (fst tc))) l ->
  fold_left (fun acc tc => create_if_not_exists (fst tc) (snd tc) acc) l s = s.
Proof.
  induction l as [|[t c] l IH]; simpl; intros H; [reflexivity|].
  apply Forall_cons in H as [[old Ht] Hl]. simpl in Ht.
  unfold create_if_not_exists at 2. rewrite Ht. apply IH, Hl.
Qed.

(** One repair on an existing table without a case variant of the
    column: it goes through, and either changes nothing or appends the
    column. *)
Lemma ensure_column_ok (s : Schema) (t c : string) :
  is_Some (s !! table_key t) ->
  no_case_variant s t c ->
  exists s', _ensure_column s t c = Some s'
    /\ schema_extends s s' /\ _table_has_column s' t c = true
    /\ (s' = s \/ exists cols, s !! table_key t = Some cols
                     /\ s' = <[table_key t := (cols ++ [c])%list]> s).
Proof.
  intros [cols Ht] Hclean. unfold _ensure_column.
  destruct (_table_has_column s t c) eqn:Has; simpl.
  - exists s. split; [reflexivity|]. split; [apply schema_extends_refl|]. auto.
  - unfold alter_add_column. rewrite Ht.
    unfold _table_has_column, table_info in Has. rewrite Ht in Has. simpl in Has.
    assert (Hnone : existsb (fun c' => same_name c' c) cols = false).
    { apply not_true_is_false. intros H. apply existsb_exists in H as (c' & Hin & Hs).
      rewrite (Hclean cols c' Ht Hin Hs) in Hin.
      apply str_in_In in Hin. congruence. }
    rewrite Hnone. eexists. split; [reflexivity|]. split; [|split].
    + intros t' c' H. destruct (decide (table_key t = t')) as [<-|Hne].
      * rewrite lookup_insert_eq. rewrite Ht in H. injection H as <-. eauto.
      * rewrite lookup_insert_ne by exact Hne. exists []. rewrite app_nil_r. exact H.
    + unfold _table_has_column, table_info. rewrite lookup_insert_eq. simpl.
      unfold str_in. rewrite existsb_app. simpl. rewrite String.eqb_refl.
      rewrite orb_true_r. reflexivity.
    + right. exists cols. auto.
Qed.

(** A repair keeps the other repairs of a lower-case list possible. *)
Lemma alter_keeps_clean (l : list (string * string)) (s : Schema) (t c : string)
    (cols : list string) :
  Py.lower c = c ->
  Forall (fun tc => Py.lower (snd tc) = snd tc) l ->
  s !! table_key t = Some cols ->
  schema_clean l s ->
  schema_clean l (<[table_key t := (cols ++ [c])%list]> s).
Proof.
  intros Hc Hl Ht Hclean. unfold schema_clean in *. rewrite Forall_forall in *.
  intros [t1 c1] Hin cs c' Hlook Hc' Hsame. simpl in *.
  destruct (decide (table_key t = table_key t1)) as [Heq|Hne].
  - rewrite <- Heq, lookup_insert_eq in Hlook. injection Hlook as <-.
    apply in_app_or in Hc' as [Hc'|[<-|[]]].
    + apply (Hclean (t1, c1) Hin cols c');
        [simpl; rewrite <- Heq; exact Ht|exact Hc'|exact Hsame].
    + apply same_name_lower; [exact Hc|apply (Hl (t1, c1) Hin)|exact Hsame].
  - rewrite lookup_insert_ne in Hlook by exact Hne.
    exact (Hclean (t1, c1) Hin cs c' Hlook Hc' Hsame).
Qed.

Lemma ensure_columns_ok (l : list (string * string)) (s : Schema) :
  Forall (fun tc => Py.lower (snd tc) = snd tc) l ->
  Forall (fun tc => is_Some (s !! table_key (fst tc))) l ->
  schema_clean l s ->
  exists s', ensure_columns l s = Some s'
    /\ schema_extends s s'
    /\ Forall (fun tc => _table_has_column s' (fst tc) (snd tc) = true) l.
Proof.
  revert s. induction l as [|[t c] l IH]; intros s Hlow H Hclean; simpl.
  - exists s. split; [reflexivity|]. split; [apply schema_extends_refl|constructor].
  - apply Forall_cons in H as [Ht Hl]. simpl in Ht.
    apply Forall_cons in Hlow as [Hc Hlow]. simpl in Hc.
    apply Forall_cons in Hclean as [Hc0 Hclean]. simpl in Hc0.
    destruct (ensure_column_ok s t c Ht Hc0) as (s1 & -> & He1 & Has1 & Hshape).
    assert (Hl1 : Forall (fun tc => is_Some (s1 !! table_key (fst tc))) l).
    { eapply Forall_impl; [exact Hl|]. simpl. intros tc. apply schema_extends_some, He1. }
    assert (Hclean1 : schema_clean l s1).
    { destruct Hshape as [->|(cols & Hcols & ->)]; [exact Hclean|].
      apply alter_keeps_clean; assumption. }
    destruct (IH s1 Hlow Hl1 Hclean1) as (s2 & -> & He2 & Hall).
    exists s2. split; [reflexivity|]. split.
    + eapply schema_extends_trans; eassumption.
    + constructor; [|exact Hall]. simpl. eapply schema_extends_has; eassumption.
Qed.

Lemma ensure_columns_noop (l : list (string * string)) (s : Schema) :
  Forall (fun tc => _table_has_column s (fst tc) (snd tc) = true) l ->
  ensure_columns l s = Some s.
Proof.
  induction l as [|[t c] l IH]; simpl; intros H; [reflexivity|].
  apply Forall_cons in H as [Ht Hl]. simpl in Ht.
  unfold _ensure_column. rewrite Ht. simpl. apply IH, Hl.
Qed.

(** X26. The schema part of [init_db] is an additive, idempotent repair
    on every database file in which no table has a column that differs
    from one of the ten repaired columns by letter case only.  It then
    goes through without an SQL error; every table that was there keeps
    its columns, in their order, new columns coming after them;
    afterwards the seven tables exist and each of the ten repaired
    columns is present; and running it again changes nothing. *)
Theorem init_schema_additive_idempotent (s : Schema) :
  schema_clean ENSURED_COLUMNS s ->
  exists s', init_schema s = Some s'
    /\ schema_extends s s'
    /\ Forall (fun tc => is_Some (s' !! table_key (fst tc))) CREATED_TABLES
    /\ Forall (fun tc => _table_has_column s' (fst tc) (snd tc) = true) ENSURED_COLUMNS
    /\ init_schema s' = Some s'.
Proof.
  intros Hclean. unfold init_schema.
  destruct (created_tables_exist CREATED_TABLES s) as [He0 Hex0].
  assert (Hlow : Forall (fun tc => Py.lower (snd tc) = snd tc) ENSURED_COLUMNS).
  { unfold ENSURED_COLUMNS. repeat (apply Forall_cons_2; [reflexivity|]). apply Forall_nil_2. }
  assert (Hlowc : Forall (fun tc => Forall (fun c => Py.lower c = c) (snd tc)) CREATED_TABLES).
  { unfold CREATED_TABLES.
    repeat (apply Forall_cons_2;
            [simpl; repeat (apply Forall_cons_2; [reflexivity|]); apply Forall_nil_2|]).
    apply Forall_nil_2. }
  pose proof (created_tables_clean ENSURED_COLUMNS CREATED_TABLES s Hlowc Hlow Hclean)
    as Hclean0.
  set (s0 := fold_left _ CREATED_TABLES s) in *.
  assert (Htabs : Forall (fun tc => is_Some (s0 !! table_key (fst tc))) ENSURED_COLUMNS).
  { assert (Hsub : forall t, In t (List.map fst ENSURED_COLUMNS) ->
                             In t (List.map fst CREATED_TABLES)).
    { intros t Hin. simpl in *. intuition (subst; auto 20). }
    apply Forall_forall. intros [t c] Hin. simpl.
    apply list_elem_of_In in Hin.
    assert (Ht : In t (List.map fst CREATED_TABLES)).
    { apply Hsub. change t with (fst (t, c)). apply in_map, Hin. }
    apply in_map_iff in Ht as ([t' cols] & <- & Hin').
    rewrite Forall_forall in Hex0. apply (Hex0 (t', cols)), list_elem_of_In, Hin'. }
  destruct (ensure_columns_ok ENSURED_COLUMNS s0 Hlow Htabs Hclean0)
    as (s' & Hrun & He1 & Hcols).
  exists s'. split; [exact Hrun|].
  assert (Hex' : Forall (fun tc => is_Some (s' !! table_key (fst tc))) CREATED_TABLES).
  { eapply Forall_impl; [exact Hex0|]. simpl. intros tc. apply schema_extends_some, He1. }
  split; [eapply schema_extends_trans; eassumption|].
  split; [exact Hex'|]. split; [exact Hcols|].
  rewrite (created_tables_noop CREATED_TABLES s' Hex').
  apply ensure_columns_noop, Hcols.
Qed.

(** [_ensure_column] alone is not safe on a missing table: the [PRAGMA]
    reports no column, the [ALTER TABLE] is issued and fails. *)
Lemma ensure_column_missing_table (s : Schema) (table col : string) :
  s !! table_key table = None -> _ensure_column s table col = None.
Proof.
  intros H. unfold _ensure_column, _table_has_column, table_info, alter_add_column.
  rewrite H. reflexivity.
Qed.

(** * The further properties on concrete requests *)

Lemma login_utilizator_generic_failure_witness :
  login_utilizator (ext := demo_externals) login_unknown db_three_shelters no_session
  = mkOutcome (render_template "login_user.html")
      [flash "Email sau parola incorecte." "error"] db_three_shelters no_session.
Proof.
  exact (login_utilizator_generic_failure (ext := demo_externals) login_unknown
           db_three_shelters no_session eq_refl eq_refl eq_refl (or_introl eq_refl)).
Defined.

Lemma register_then_login_witness :
  let out1 := register_user (ext := demo_externals) demo_env register_ana empty_db no_session in
  let out2 := login_utilizator (ext := demo_externals) login_ana
                (db_after out1) (session_after out1) in
  response out2 = redirect ep_home
  /\ users.email <$> current_user (db_after out2) (session_after out2)
     = Some "ana@example.org".
Proof.
  assert (Hkeyed : users_keyed (t_users empty_db)).
  { split; [simpl; lia|apply Forall_nil_2]. }
  pose proof (register_then_login (ext := demo_externals) demo_env register_ana login_ana
                empty_db no_session eq_refl eq_refl eq_refl eq_refl eq_refl eq_refl
                eq_refl eq_refl Hkeyed eq_refl) as H.
  cbv zeta in H. destruct H as (_ & H2 & u & Hu & He & _).
  split; [exact H2|]. rewrite Hu. simpl. rewrite He. reflexivity.
Defined.

Lemma approve_enables_shelter_login_witness :
  let out := admin_shelter_request_approve 1 demo_env db_pending admin_session in
  response (login_adapost (ext := demo_externals) login_casa db_pending no_session)
    = render_template "login_shelter.html"
  /\ response (login_adapost (ext := demo_externals) login_casa (db_after out)
                 (session_after out))
     = redirect ep_shelter_dashboard.
Proof.
  pose proof (approve_enables_shelter_login (ext := demo_externals) 1 demo_env db_pending
                admin_session login_casa demo_request
                eq_refl eq_refl eq_refl eq_refl eq_refl eq_refl eq_refl eq_refl eq_refl)
    as H.
  cbv zeta in H. destruct H as (_ & H2 & _).
  split; [reflexivity|exact H2].
Defined.

Lemma reset_then_admin_login_witness :
  let db := init_db (ext := demo_externals) demo_env empty_db in
  let out := admin_reset_password_save (ext := demo_externals) demo_env reset_request db
               admin_session in
  response (admin_login (ext := demo_externals) login_admin_new (db_after out) no_session)
  = redirect ep_admin_dashboard.
Proof.
  pose proof (reset_then_admin_login (ext := demo_externals) demo_env
                (init_db (ext := demo_externals) demo_env empty_db)
                admin_session no_session reset_request login_admin_new
                (admins.mk 1 "admin" "s0$admin" "Admin" "admin@local" "" 1)
                eq_refl eq_refl ltac:(discriminate) eq_refl eq_refl eq_refl eq_refl) as H.
  cbv zeta in H. exact (proj1 (proj2 H)).
Defined.

Lemma reset_script_then_login_witness :
  exists db',
    reset_admin_password_main (ext := demo_externals) "s9" (Some db_pending)
    = password_reset db'
    /\ response (admin_login (ext := demo_externals) login_admin_script db' no_session)
       = redirect ep_admin_dashboard.
Proof.
  pose proof (reset_script_then_login (ext := demo_externals) "s9" db_pending no_session
                login_admin_script eq_refl eq_refl eq_refl eq_refl) as [_ H].
  change (find_admin "admin" db_pending)
    with (Some (admins.mk 1 "admin" "s0$admin" "Admin" "admin@local" "" 1)) in H.
  destruct H as (db' & Hrun & _ & _ & _ & _ & Hlogin & _).
  exists db'. split; [exact Hrun|exact Hlogin].
Defined.

Lemma bootstrap_admin_login_witness :
  response (served (ext := demo_externals) demo_env
              (admin_login (ext := demo_externals) login_as_admin) db_no_shelters no_session)
  = redirect ep_admin_reset_password.
Proof.
  pose proof (bootstrap_admin_login (ext := demo_externals) demo_env db_no_shelters
                no_session login_as_admin eq_refl ltac:(simpl; lia) eq_refl eq_refl eq_refl)
    as H.
  cbv zeta in H. exact (proj1 H).
Defined.

Lemma admin_views_need_session_witness :
  admin_shelter_request_approve 1 demo_env db_pending member_session
  = mkOutcome (redirect ep_admin_login) [] db_pending member_session
  /\ admin_user_delete 1 db_three_shelters member_session
     = mkOutcome (redirect ep_admin_login) [] db_three_shelters member_session.
Proof.
  split.
  - pose proof (admin_views_need_session (ext := demo_externals) demo_env login_as_admin 1
                  db_pending member_session eq_refl) as H.
    cbv zeta in H. apply H.
  - pose proof (admin_views_need_session (ext := demo_externals) demo_env login_as_admin 1
                  db_three_shelters member_session eq_refl) as H.
    cbv zeta in H. apply H.
Defined.

Lemma shelter_delete_orphans_donations_witness :
  let out1 := admin_shelter_delete 2 db_three_shelters admin_session in
  t_donations (db_after out1) = t_donations db_three_shelters
  /\ List.map shelters.id (Sql.rows (t_shelters (db_after out1))) = [1; 3].
Proof.
  assert (Hkeyed : shelters_keyed (t_shelters db_three_shelters)).
  { split; [simpl; lia|]. split.
    - simpl. repeat (apply NoDup_cons_2; [vm_compute; intros H; inversion H; subst;
        repeat match goal with
               | X : _ ∈ _ |- _ => inversion X; clear X; subst
               end|]). apply NoDup_nil_2.
    - simpl. repeat (apply Forall_cons_2; [simpl; lia|]). apply Forall_nil_2. }
  pose proof (shelter_delete_orphans_donations 2 1 demo_env db_three_shelters admin_session
                (demo_shelter 2 "b@example.org" 5) eq_refl Hkeyed
                (or_intror (or_introl eq_refl)) eq_refl) as H.
  cbv zeta in H. split; [exact (proj1 H)|reflexivity].
Defined.

Lemma deleted_member_cannot_route_witness :
  let db1 := db_after (admin_user_delete 1 db_three_shelters admin_session) in
  response (ajuta_category (ext := demo_externals) "money" demo_env help_auto db1
              member_session) = redirect ep_login_utilizator.
Proof.
  pose proof (deleted_member_cannot_route (ext := demo_externals) 1 "money" demo_env
                help_auto db_three_shelters admin_session member_session
                eq_refl eq_refl eq_refl) as H.
  cbv zeta in H. exact (proj1 (proj2 H)).
Defined.

Lemma save_uploaded_photo_never_overwrites_witness :
  demo_folder !! "cat_2.png" = None
  /\ (<["cat_2.png" := "third"]> demo_folder) !! "cat.png" = demo_folder !! "cat.png".
Proof.
  assert (Hrun : save_uploaded_photo (ext := demo_externals) 3
                   (Some (mkFile "cat.png" "third")) demo_folder
                 = Some ("cat_2.png", <["cat_2.png" := "third"]> demo_folder, []))
    by (vm_compute; reflexivity).
  destruct (save_uploaded_photo_never_overwrites (ext := demo_externals) _ _ _ _ _ _ Hrun)
    as [(Hempty & _)|(_ & Hnone & _ & f & _ & _ & _ & Hother)].
  - discriminate Hempty.
  - split; [exact Hnone|]. apply Hother. discriminate.
Defined.

Lemma upload_same_name_twice_distinct_witness :
  exists n1 n2 st1 st2,
    save_uploaded_photo (ext := demo_externals) 3 (Some (mkFile "cat.png" "first")) ∅
    = Some (n1, st1, [])
    /\ save_uploaded_photo (ext := demo_externals) 3 (Some (mkFile "cat.png" "second")) st1
       = Some (n2, st2, [])
    /\ n1 <> n2
    /\ st2 !! n1 = Some "first".
Proof.
  assert (Hfuel : (size (∅ : Storage) + 3 <= 3)%nat) by (vm_compute; lia).
  destruct (upload_same_name_twice_distinct (ext := demo_externals) 3
              (mkFile "cat.png" "first") (mkFile "cat.png" "second") ∅
              eq_refl eq_refl Hfuel)
    as (n1 & n2 & st1 & st2 & H1 & H2 & Hd & Hf & _).
  exists n1, n2, st1, st2. auto.
Defined.

Lemma shelter_apply_creates_pending_witness :
  exists out st',
    shelter_apply (ext := demo_externals) 2 demo_env apply_casa empty_db no_session ∅
    = Some (out, st')
    /\ response out = redirect ep_adaposturi
    /\ List.map shelter_requests.status (Sql.rows (t_shelter_requests (db_after out)))
       = ["PENDING"]
    /\ t_shelters (db_after out) = t_shelters empty_db.
Proof.
  assert (Hfuel : (size (∅ : Storage) + 2 <= 2)%nat) by (vm_compute; lia).
  destruct (shelter_apply_creates_pending (ext := demo_externals) 2 demo_env apply_casa
              empty_db no_session ∅ eq_refl eq_refl eq_refl eq_refl eq_refl Hfuel)
    as (out & st' & photo & fl & r & Hrun & _ & Hresp & Hrows & _ & Hst & _ & _ & _ & _
        & Hsh & _).
  exists out, st'. split; [exact Hrun|]. split; [exact Hresp|]. split; [|exact Hsh].
  rewrite Hrows. simpl. rewrite Hst. reflexivity.
Defined.

Example shelter_apply_stores_photo :
  (fun r => (shelter_requests.email r, shelter_requests.photo_filename r,
             shelter_requests.password_hash r))
    <$> (Sql.rows (t_shelter_requests (db_after (fst (default
           (mkOutcome (abort 500) [] empty_db no_session, ∅)
           (shelter_apply (ext := demo_externals) 2 demo_env apply_casa empty_db
              no_session ∅))))))
  = [("casa@example.org", "logo.PNG", "s1$parola")].
Proof. vm_compute. reflexivity. Qed.

Lemma shelter_views_touch_own_listings_only_witness :
  exists res,
    shelter_animals_delete 2 demo_site shelter3_session = Some res
    /\ In (animals.mk 1 2 "Rex" "caine" "3" "" "cat.png" "2024-01-01 00:00:00")
          (Sql.rows (site_animals (state_of res))).
Proof.
  assert (Hrun : exists res, shelter_animals_delete 2 demo_site shelter3_session = Some res)
    by (eexists; vm_compute; reflexivity).
  destruct Hrun as [res Hres]. exists res. split; [exact Hres|].
  apply (proj2 (shelter_views_touch_own_listings_only (ext := demo_externals) 0 demo_env 2
                  edit_rex demo_site shelter3_session res
                  (or_intror (or_intror (or_intror Hres))))).
  - left. reflexivity.
  - discriminate.
Defined.

Lemma foreign_listing_is_404_witness :
  shelter_animals_delete 1 demo_site shelter3_session
  = Some (mkResult (reply (abort 404)) [] demo_site shelter3_session).
Proof.
  refine (proj2 (foreign_listing_is_404 (ext := demo_externals) 0 1 edit_rex demo_site
                   shelter3_session (demo_shelter 3 "c@example.org" 3) eq_refl _)).
  intros r [<-|[<-|[]]]; simpl; intros H; lia.
Defined.

Lemma deleted_shelter_session_is_dropped_witness :
  session_of <$> shelter_dashboard
    (mkSite (db_after (admin_shelter_delete 2 db_three_shelters admin_session))
       (site_animals demo_site) (site_files demo_site)) shelter2_session
  = Some no_session.
Proof.
  pose proof (deleted_shelter_session_is_dropped 2 demo_site admin_session shelter2_session
                eq_refl eq_refl ltac:(discriminate)) as H.
  cbv zeta in H. simpl site_db in H. rewrite H. reflexivity.
Defined.

Lemma shelter_animals_delete_removes_witness :
  exists res,
    shelter_animals_delete 1 demo_site shelter2_session = Some res
    /\ find_animal 1 2 (state_of res) = None
    /\ site_files (state_of res) !! "cat.png" = None
    /\ site_files (state_of res) !! "cat_1.png" = Some "second".
Proof.
  destruct (shelter_animals_delete_removes 1 demo_site shelter2_session
              (demo_shelter 2 "b@example.org" 5)
              (animals.mk 1 2 "Rex" "caine" "3" "" "cat.png" "2024-01-01 00:00:00")
              eq_refl eq_refl)
    as (res & Hrun & _ & Hgone & Hphoto & Hother & _).
  exists res. split; [exact Hrun|]. split; [exact Hgone|]. split.
  - apply Hphoto. discriminate.
  - rewrite Hother by discriminate. reflexivity.
Defined.

Lemma shelter_animals_edit_replaces_photo_witness :
  exists res animal',
    shelter_animals_edit (ext := demo_externals) 4 1 edit_rex demo_site shelter2_session
    = Some res
    /\ find_animal 1 2 (state_of res) = Some animal'
    /\ animals.name animal' = "Rex"
    /\ animals.photo_filename animal' <> "cat.png"
    /\ site_files (state_of res) !! "cat.png" = None.
Proof.
  assert (Hfuel : (size (site_files demo_site) + 2 <= 4)%nat) by (vm_compute; lia).
  destruct (shelter_animals_edit_replaces_photo (ext := demo_externals) 4 1 edit_rex
              demo_site shelter2_session (demo_shelter 2 "b@example.org" 5)
              (animals.mk 1 2 "Rex" "caine" "3" "" "cat.png" "2024-01-01 00:00:00")
              eq_refl eq_refl eq_refl eq_refl Hfuel)
    as (res & animal' & Hrun & _ & Hfind & _ & _ & _ & Hname & _ & Hrepl).
  exists res, animal'. split; [exact Hrun|]. split; [exact Hfind|].
  split; [exact Hname|].
  destruct (Hrepl (mkFile "cat.png" "new bytes") eq_refl eq_refl ltac:(discriminate)
              (ex_intro _ "first" eq_refl)) as (Hd & _ & Hold).
  split; [exact Hd|exact Hold].
Defined.

Example edit_rex_photo_name :
  (fun res => animals.photo_filename <$> find_animal 1 2 (state_of res))
    <$> shelter_animals_edit (ext := demo_externals) 4 1 edit_rex demo_site shelter2_session
  = Some (Some "cat_2.png").
Proof. vm_compute. reflexivity. Qed.

Example init_schema_old_database :
  (fun s => s !! "shelters") <$> init_schema old_schema
  = Some (Some ["id"; "name"; "email"; "phone"; "address"; "description"; "website";
                "created_at"; "photo_filename"; "password_hash"; "shelter_type";
                "urgent_level"; "pickup_service"]).
Proof. vm_compute. reflexivity. Qed.

(** A column that is there in another letter case escapes Python's test
    and stops the repair: [ALTER TABLE] refuses the duplicate. *)
Example init_schema_case_variant_fails :
  _table_has_column capitalised_schema "shelters" "urgent_level" = false
  /\ _ensure_column capitalised_schema "shelters" "urgent_level" = None
  /\ init_schema capitalised_schema = None
  /\ _table_has_column capitalised_schema "SHELTERS" "Urgent_Level" = true.
Proof. repeat split; vm_compute; reflexivity. Qed.

Lemma init_schema_additive_idempotent_witness :
  exists s', init_schema old_schema = Some s'
    /\ _table_has_column s' "shelters" "password_hash" = true
    /\ init_schema s' = Some s'.
Proof.
  assert (Hclean : schema_clean ENSURED_COLUMNS old_schema).
  { unfold schema_clean, ENSURED_COLUMNS.
    repeat (apply Forall_cons_2;
      [intros cols c' Hlook Hin Hsame; vm_compute in Hlook;
       first [discriminate Hlook
             |injection Hlook as <-; simpl in Hin;
              repeat (destruct Hin as [<-|Hin]; [discriminate Hsame|]); destruct Hin]|]).
    apply Forall_nil_2. }
  destruct (init_schema_additive_idempotent old_schema Hclean)
    as (s' & Hrun & _ & _ & Hcols & Hidem).
  exists s'. split; [exact Hrun|]. split; [|exact Hidem].
  rewrite Forall_forall in Hcols.
  apply (Hcols ("shelters", "password_hash")). unfold ENSURED_COLUMNS.
  apply list_elem_of_In. simpl. auto 10.
Defined.

(** [int] and [float] on edge literals: FS..US are blanks for [strip] but
    not for [int]; [nan] is a float in any letter case. *)
Example int_float_edge_literals :
  Py.int (String "2" (String "031" "")) = None
  /\ Py.strip (String "2" (String "031" "")) = "2"
  /\ Py.int (String "009" (String "2" " ")) = Some 2
  /\ Py.float_is_nan " NaN " = true /\ Py.float_is_nan "-nan" = true
  /\ Py.float_is_nan "inf" = false /\ Py.float_is_nan "1.5" = false.
Proof. repeat split; reflexivity. Qed.

(** The three ways a routing request of a logged-in member dies on its
    parameters, each leaving the donations table empty: a NaN amount
    ([IntegrityError] on [amount NOT NULL]), a selected id of 2^63
    ([OverflowError] when bound) and a selected id followed by a US
    character ([ValueError] from [int]). *)
Example ajuta_parameter_errors :
  (forall parses,
     ajuta_category (ext := mkExternals (fun a b => b) (fun a b => false) (fun a => a) parses)
       "money" demo_env help_huge_id db_three_shelters member_session
     = mkOutcome (raised OverflowError) [] db_three_shelters member_session)
  /\ (forall parses,
        ajuta_category (ext := mkExternals (fun a b => b) (fun a b => false) (fun a => a) parses)
          "money" demo_env help_blank_id db_three_shelters member_session
        = mkOutcome (raised ValueError) [] db_three_shelters member_session)
  /\ ajuta_category
       (ext := mkExternals (fun a b => b) (fun a b => false) (fun a => a) (fun _ => true))
       "money" demo_env help_nan db_three_shelters member_session
     = mkOutcome (raised IntegrityError) [] db_three_shelters member_session.
Proof. repeat split; intros; vm_compute; reflexivity. Qed.
